(** * vue-advanced-cropper: the [Cropper] component

    A shallow embedding of the state-handling part of the [Cropper]
    single-file component (its [data], [computed] and [methods] blocks)
    together with the properties its specification states about it.

    Conventions of the embedding.
    - A JavaScript number is an exact rational or one of the three special
      values [Infinity], [-Infinity], [NaN]: rounding of doubles is not
      represented, and neither is the sign of zero (every zero is [+0]).
      Properties that only exact arithmetic would give (a quotient
      multiplied back, say) are therefore not stated.
    - [null] and [undefined] are kept apart ([nullable]).
    - A method is a computation over the component's [data] that may throw
      and that records, in order, every call its body makes to a
      collaborator (a pluggable algorithm, console, the event emitter, the
      canvas).  A computed getter reports the calls of its own evaluation.
    - A promise chain [p.then(f).catch(g)] is run to completion in one
      step; what other tasks could interleave at [$nextTick] is outside the
      model. *)

From Stdlib Require Import QArith Qround ZArith String List Bool Lia Lqa.
Import ListNotations.
Open Scope string_scope.

(* ===================================================================== *)
(** ** JavaScript numbers *)
(* ===================================================================== *)

Module Js.

Inductive number := Num (q : Q) | Infinity | NegInfinity | NaN.

(** [null], [undefined], or a value. *)
Inductive nullable (A : Type) := Null | Undefined | Val (a : A).
Arguments Null {A}.
Arguments Undefined {A}.
Arguments Val {A} a.

Definition inf_of (c : comparison) : number :=
  match c with Gt => Infinity | Lt => NegInfinity | Eq => NaN end.

Definition qsign (q : Q) : comparison := (q ?= 0)%Q.

Definition is_nan (n : number) : bool :=
  match n with NaN => true | _ => false end.

Definition is_finite (n : number) : bool :=
  match n with Num _ => true | _ => false end.

(** ToBoolean on a number: [0] and [NaN] are falsy. *)
Definition truthy (n : number) : bool :=
  match n with
  | Num q => negb (Qeq_bool q 0)
  | NaN => false
  | Infinity | NegInfinity => true
  end.

Definition add (a b : number) : number :=
  match a, b with
  | NaN, _ | _, NaN => NaN
  | Num x, Num y => Num (x + y)
  | Infinity, NegInfinity | NegInfinity, Infinity => NaN
  | Infinity, _ | _, Infinity => Infinity
  | NegInfinity, _ | _, NegInfinity => NegInfinity
  end.

Definition neg (a : number) : number :=
  match a with
  | Num x => Num (- x)
  | Infinity => NegInfinity
  | NegInfinity => Infinity
  | NaN => NaN
  end.

Definition sub (a b : number) : number := add a (neg b).

Definition mul (a b : number) : number :=
  match a, b with
  | NaN, _ | _, NaN => NaN
  | Num x, Num y => Num (x * y)
  | Num x, Infinity | Infinity, Num x => inf_of (qsign x)
  | Num x, NegInfinity | NegInfinity, Num x => inf_of (CompOpp (qsign x))
  | Infinity, Infinity | NegInfinity, NegInfinity => Infinity
  | Infinity, NegInfinity | NegInfinity, Infinity => NegInfinity
  end.

(** Division; a zero divisor is [+0]. *)
Definition div (a b : number) : number :=
  match a, b with
  | NaN, _ | _, NaN => NaN
  | Num x, Num y => if Qeq_bool y 0 then inf_of (qsign x) else Num (x / y)
  | Num _, Infinity | Num _, NegInfinity => Num 0
  | Infinity, Num y => if Qeq_bool y 0 then Infinity else inf_of (qsign y)
  | NegInfinity, Num y =>
      if Qeq_bool y 0 then NegInfinity else inf_of (CompOpp (qsign y))
  | Infinity, _ | NegInfinity, _ => NaN
  end.

(** [a < b]; false as soon as one side is [NaN]. *)
Definition lt (a b : number) : bool :=
  match a, b with
  | NaN, _ | _, NaN => false
  | Num x, Num y => match (x ?= y)%Q with Lt => true | _ => false end
  | NegInfinity, NegInfinity => false
  | NegInfinity, _ => true
  | _, NegInfinity => false
  | Infinity, _ => false
  | Num _, Infinity => true
  end.

Definition gt (a b : number) : bool := lt b a.

(** [a <= b]; false as soon as one side is [NaN]. *)
Definition le (a b : number) : bool :=
  match a, b with
  | NaN, _ | _, NaN => false
  | Num x, Num y => match (x ?= y)%Q with Gt => false | _ => true end
  | NegInfinity, _ => true
  | _, Infinity => true
  | _, NegInfinity => false
  | Infinity, _ => false
  end.

(** [Math.min] and [Math.max] of two arguments. *)
Definition min2 (a b : number) : number :=
  match a, b with
  | NaN, _ | _, NaN => NaN
  | _, _ => if lt b a then b else a
  end.

Definition max2 (a b : number) : number :=
  match a, b with
  | NaN, _ | _, NaN => NaN
  | _, _ => if lt a b then b else a
  end.

(** [Math.min(a, b, c)]. *)
Definition min3 (a b c : number) : number := min2 (min2 a b) c.

(** [Math.round]: the nearest integer, halves going up. *)
Definition round (a : number) : number :=
  match a with
  | Num x => Num (inject_Z (Qfloor (x + (1 # 2))))
  | _ => a
  end.

Definition is_integer (a : number) : bool :=
  match a with
  | Num x => Qeq_bool x (inject_Z (Qfloor x))
  | _ => false
  end.

(** ToNumber and ToBoolean on a slot that may hold [null] or [undefined]. *)
Definition to_number (v : nullable number) : number :=
  match v with
  | Null => Num 0
  | Undefined => NaN
  | Val n => n
  end.

Definition to_boolean (v : nullable number) : bool :=
  match v with
  | Val n => truthy n
  | _ => false
  end.

(** Truthiness of an object reference. *)
Definition is_set {A : Type} (v : nullable A) : bool :=
  match v with
  | Val _ => true
  | _ => false
  end.

(** [a || b] on numeric slots. *)
Definition or_else (a b : nullable number) : nullable number :=
  if to_boolean a then a else b.

End Js.

Import Js.

(* ===================================================================== *)
(** ** Data model *)
(* ===================================================================== *)

(** [imageSize] and [boundaries]; both start as
    [{width: null, height: null}]. *)
Record Size := { s_width : nullable number; s_height : nullable number }.

(** [coordinates] and [visibleArea]. *)
Record Rect := { left : number; top : number; width : number; height : number }.

(** An object carrying some of the four rectangle fields: a transform
    written as an object, a default size, a default position. *)
Record PartialRect := {
  p_left : nullable number; p_top : nullable number;
  p_width : nullable number; p_height : nullable number }.

(** Position and area restrictions; [{}] has every field undefined. *)
Record Limits := {
  l_left : nullable number; l_top : nullable number;
  l_right : nullable number; l_bottom : nullable number }.

Definition no_limits : Limits :=
  {| l_left := Undefined; l_top := Undefined;
     l_right := Undefined; l_bottom := Undefined |}.

Record SizeRestrictions := {
  minWidth : number; minHeight : number;
  maxWidth : number; maxHeight : number }.

Record AspectRatio := { minimum : nullable number; maximum : nullable number }.

Record Point := { pt_left : number; pt_top : number }.

(** A transform is an object or a function of the current coordinates;
    [applyTransform] receives one transform or an array of them. *)
Inductive Transform :=
  | TObject (o : PartialRect)
  | TFunction (f : Rect -> PartialRect).

Inductive Transforms :=
  | Single (t : Transform)
  | Array (ts : list Transform).

(** A prop declared with [type: [Function, Object]]. *)
Inductive FunctionOr (A B : Type) :=
  | Fn (f : A -> B)
  | Obj (b : B).
Arguments Fn {A B} f.
Arguments Obj {A B} b.

(** A prop declared with [type: [Number, String]]. *)
Inductive NumberOrString := PNumber (n : number) | PString (s : string).

(** The arguments of [new ManipulateImageEvent(move, scale)]. *)
Record MoveArg := { mv_left : nullable number; mv_top : nullable number }.
Record ScaleArg := { factor : number; center : nullable Point }.

(** The object returned by [getPublicProperties]. *)
Record PublicProperties := {
  pp_coefficient : number;
  pp_visibleArea : nullable Rect;
  pp_coordinates : Rect;
  pp_boundaries : Size;
  pp_sizeRestrictions : SizeRestrictions;
  pp_positionRestrictions : Limits;
  pp_areaRestrictions : Limits;
  pp_aspectRatio : AspectRatio;
  pp_imageRestriction : string }.

(** [{...p, positionRestrictions: l}] and its siblings. *)
Definition with_positionRestrictions (p : PublicProperties) (l : Limits) :=
  {| pp_coefficient := pp_coefficient p; pp_visibleArea := pp_visibleArea p;
     pp_coordinates := pp_coordinates p; pp_boundaries := pp_boundaries p;
     pp_sizeRestrictions := pp_sizeRestrictions p;
     pp_positionRestrictions := l;
     pp_areaRestrictions := pp_areaRestrictions p;
     pp_aspectRatio := pp_aspectRatio p;
     pp_imageRestriction := pp_imageRestriction p |}.

Definition with_coordinates (p : PublicProperties) (c : Rect) :=
  {| pp_coefficient := pp_coefficient p; pp_visibleArea := pp_visibleArea p;
     pp_coordinates := c; pp_boundaries := pp_boundaries p;
     pp_sizeRestrictions := pp_sizeRestrictions p;
     pp_positionRestrictions := pp_positionRestrictions p;
     pp_areaRestrictions := pp_areaRestrictions p;
     pp_aspectRatio := pp_aspectRatio p;
     pp_imageRestriction := pp_imageRestriction p |}.

Definition with_sizeRestrictions
  (p : PublicProperties) (s : SizeRestrictions) :=
  {| pp_coefficient := pp_coefficient p; pp_visibleArea := pp_visibleArea p;
     pp_coordinates := pp_coordinates p; pp_boundaries := pp_boundaries p;
     pp_sizeRestrictions := s;
     pp_positionRestrictions := pp_positionRestrictions p;
     pp_areaRestrictions := pp_areaRestrictions p;
     pp_aspectRatio := pp_aspectRatio p;
     pp_imageRestriction := pp_imageRestriction p |}.

(** Parameter objects of the pluggable algorithms.  The fields the source
    marks as deprecated ([cropper], [image], [imageWidth], [imageHeight],
    [props] and the spread size restrictions) repeat the others or hand
    out the component itself; they are left out. *)
Record SizeRestrictionsParams := {
  srp_imageSize : Size;
  srp_minWidth : number; srp_minHeight : number;
  srp_maxWidth : number; srp_maxHeight : number }.

Record DefaultSizeParams := {
  dsp_boundaries : Size;
  dsp_imageSize : Size;
  dsp_aspectRatio : AspectRatio;
  dsp_sizeRestrictions : SizeRestrictions;
  dsp_visibleArea : nullable Rect }.

Record DefaultPositionParams := {
  dpp_coordinates : Rect;
  dpp_imageSize : Size;
  dpp_visibleArea : nullable Rect }.

Record DefaultVisibleAreaParams := {
  dvp_imageSize : Size;
  dvp_boundaries : Size;
  dvp_coordinates : nullable Rect;
  dvp_areaRestrictions : Limits }.

Record FitVisibleAreaParams := {
  fvp_imageSize : Size;
  fvp_boundaries : Size;
  fvp_visibleArea : nullable Rect;
  fvp_coordinates : Rect;
  fvp_areaRestrictions : Limits }.

Record FitCoordinatesParams := {
  fcp_visibleArea : nullable Rect;
  fcp_coordinates : Rect;
  fcp_aspectRatio : AspectRatio;
  fcp_positionRestrictions : Limits;
  fcp_sizeRestrictions : SizeRestrictions }.

Record ApplyTransformParams := {
  atp_coordinates : Rect;
  atp_transform : Transforms;
  atp_sizeRestrictions : SizeRestrictions;
  atp_positionRestrictions : Limits;
  atp_aspectRatio : AspectRatio;
  atp_imageSize : Size }.

Record RefineSizeRestrictionsParams := {
  rsp_sizeRestrictions : SizeRestrictions;
  rsp_imageSize : Size;
  rsp_boundaries : Size;
  rsp_positionRestrictions : Limits;
  rsp_imageRestriction : string }.

(** The component's [data()], and [delayedTransforms], which the methods
    keep on the instance.  [imageAttributes] and [basicImageTransforms]
    only feed the rendering and are left out. *)
Record Data := {
  imageLoaded : bool;
  imageSize : Size;
  boundaries : Size;
  visibleArea : nullable Rect;
  coordinates : Rect;
  delayedTransforms : nullable Transforms }.

Definition set_boundaries (b : Size) (d : Data) : Data :=
  {| imageLoaded := imageLoaded d; imageSize := imageSize d; boundaries := b;
     visibleArea := visibleArea d; coordinates := coordinates d;
     delayedTransforms := delayedTransforms d |}.

Definition set_visibleArea (v : nullable Rect) (d : Data) : Data :=
  {| imageLoaded := imageLoaded d; imageSize := imageSize d;
     boundaries := boundaries d; visibleArea := v;
     coordinates := coordinates d; delayedTransforms := delayedTransforms d |}.

Definition set_coordinates (c : Rect) (d : Data) : Data :=
  {| imageLoaded := imageLoaded d; imageSize := imageSize d;
     boundaries := boundaries d; visibleArea := visibleArea d;
     coordinates := c; delayedTransforms := delayedTransforms d |}.

Definition set_delayedTransforms (t : nullable Transforms) (d : Data) : Data :=
  {| imageLoaded := imageLoaded d; imageSize := imageSize d;
     boundaries := boundaries d; visibleArea := visibleArea d;
     coordinates := coordinates d; delayedTransforms := t |}.

(** What a method can throw. *)
Inductive JsError := Error (message : string).

Inductive Outcome (A : Type) :=
  | Return (a : A)
  | Throw (e : JsError).
Arguments Return {A} a.
Arguments Throw {A} e.

(** Calls made while a computed getter is evaluated. *)
Inductive GetterCall :=
  | AreaRestrictionsAlgorithm
  | SizeRestrictionsAlgorithm
  | PositionRestrictionsAlgorithm
  | RefineSizeRestrictions.

(** A computed getter yields its value and the algorithm calls its
    evaluation makes.  Vue caches getters, so a method that reads one
    triggers at most these calls. *)
Definition Computed (A : Type) : Type := (A * list GetterCall)%type.

Definition value {A : Type} (c : Computed A) : A := fst c.
Definition calls {A : Type} (c : Computed A) : list GetterCall := snd c.

(* ===================================================================== *)
(** ** The component *)
(* ===================================================================== *)

Set Implicit Arguments.

Section Cropper.

(** DOM nodes, the gesture events the stencil emits, and the events after
    normalization are opaque to the component. *)
Variable Element : Type.
Variable StencilEvent : Type.
Variable NormalizedEvent : Type.

(** Events handed to the handlers: the component builds
    [ManipulateImageEvent]s itself, the others come from the stencil. *)
Inductive Event :=
  | ManipulateImageEvent (move : MoveArg) (scale : nullable ScaleArg)
  | FromStencil (e : StencilEvent).

(** The value of [getResult]. *)
Record Result := {
  res_coordinates : Rect;
  res_visibleArea : nullable Rect;
  res_canvas : nullable Element }.

(** The prop [defaultBoundaries], [type: [Function, String]]. *)
Inductive BoundariesProp :=
  | BoundariesFn (f : nullable Element -> Size -> Size)
  | BoundariesName (s : string).

(** The props the modelled methods read. *)
Record Props := {
  src : nullable string;
  minWidthProp : option NumberOrString;
  minHeightProp : option NumberOrString;
  maxWidthProp : option NumberOrString;
  maxHeightProp : option NumberOrString;
  debounce : bool; (* Boolean or Number in the source; only tested for truth *)
  canvas : bool;
  imageRestriction : string;
  roundResult : bool;
  resizeAlgorithm : PublicProperties -> NormalizedEvent -> Rect;
  moveAlgorithm : PublicProperties -> NormalizedEvent -> Rect;
  fitCoordinates : FitCoordinatesParams -> Rect;
  fitVisibleArea : FitVisibleAreaParams -> nullable Rect;
  defaultVisibleArea : FunctionOr DefaultVisibleAreaParams Rect;
  defaultSize : FunctionOr DefaultSizeParams PartialRect;
  defaultPosition : FunctionOr DefaultPositionParams PartialRect;
  defaultBoundaries : BoundariesProp;
  areaRestrictionsAlgorithm : Size -> string -> Limits;
  sizeRestrictionsAlgorithm : SizeRestrictionsParams -> SizeRestrictions;
  positionRestrictionsAlgorithm : Size -> string -> nullable Rect -> Limits;
  priority : string;
  restrictions : option (SizeRestrictionsParams -> SizeRestrictions);
  stencil_aspectRatio : nullable number;
  stencil_minAspectRatio : nullable number;
  stencil_maxAspectRatio : nullable number;
  listens_change : bool }.

(** What the component imports from [./core]; none of it is among the
    sources at hand, so it is a parameter of the development.
    [algorithms.autoZoom], [algorithms.normalizeEvent] and
    [algorithms.applyTransform] carry the suffix [Algorithm] here, since
    the component has methods of the same names; [settings_resize_stencil]
    is [settings.resize.stencil], which [getSettings] computes. *)
Record Core := {
  fillBoundaries : nullable Element -> Size -> Size;
  fitBoundaries : nullable Element -> Size -> Size;
  limitBy : Limits -> nullable Rect -> Limits;
  limitSizeRestrictions : SizeRestrictions -> Rect -> SizeRestrictions;
  parseNumber : NumberOrString -> number;
  DEFAULT_COORDINATES : Rect;
  settings_resize_stencil : bool;
  refineSizeRestrictions : RefineSizeRestrictionsParams -> SizeRestrictions;
  roundCoordinates : PublicProperties -> Rect;
  autoZoomAlgorithm : PublicProperties -> nullable Rect;
  normalizeEventAlgorithm : PublicProperties -> Event -> NormalizedEvent;
  manipulateImage :
    PublicProperties -> NormalizedEvent -> string -> bool ->
    nullable Rect * Rect;
  applyTransformAlgorithm : ApplyTransformParams -> Rect;
  refineVisibleArea : Rect -> Size -> Limits -> Rect }.

(** [$refs].  The template renders the stencil unconditionally and
    [getAspectRatio] dereferences it without a guard, so the methods are
    those of a mounted component; the other nodes are tested before
    use. *)
Record Refs := {
  ref_image : nullable Element;
  ref_cropper : nullable Element;
  ref_canvas : nullable Element;
  stencil_aspectRatios : option AspectRatio }.

(** The calls a method makes to its collaborators. *)
Inductive Effect :=
  | CallInitStretcher (sz : Size)
  | CallBoundaries (result : Size)
  | CallDefaultVisibleArea (params : DefaultVisibleAreaParams)
  | CallRefineVisibleArea (va : Rect) (b : Size) (l : Limits)
  | CallDefaultSize (params : DefaultSizeParams)
  | CallApplyTransform (params : ApplyTransformParams)
  | CallAutoZoom (params : PublicProperties)
  | CallFitVisibleArea (params : FitVisibleAreaParams)
  | CallFitCoordinates (params : FitCoordinatesParams)
  | CallNormalizeEvent (params : PublicProperties) (e : Event)
  | CallMoveAlgorithm (params : PublicProperties) (e : NormalizedEvent)
  | CallResizeAlgorithm (params : PublicProperties) (e : NormalizedEvent)
  | CallManipulateImage
      (params : PublicProperties) (e : NormalizedEvent)
      (restriction : string) (resize : bool)
  | CallRoundCoordinates (params : PublicProperties)
  | ConsoleWarn (message : string)
  | Emit (name : string) (payload : Result)
  | DebouncedUpdate
  | DrawCanvas (c : Rect).

(** *** The method monad: state, exceptions, and the record of calls *)

Record Run (A : Type) := {
  outcome : Outcome A;
  final : Data;
  emitted : list Effect }.
Arguments outcome {A} r.
Arguments final {A} r.
Arguments emitted {A} r.

Definition M (A : Type) : Type := Data -> Run A.

Definition ret {A : Type} (a : A) : M A :=
  fun d => {| outcome := Return a; final := d; emitted := [] |}.

Definition bind {A B : Type} (m : M A) (k : A -> M B) : M B :=
  fun d =>
    let r := m d in
    match outcome r with
    | Return a =>
        let r' := k a (final r) in
        {| outcome := outcome r'; final := final r';
           emitted := emitted r ++ emitted r' |}
    | Throw e =>
        {| outcome := Throw e; final := final r; emitted := emitted r |}
    end.

Definition throw {A : Type} (e : JsError) : M A :=
  fun d => {| outcome := Throw e; final := d; emitted := [] |}.

(** [p.catch(handler)]: what the failed computation did stays done. *)
Definition catch {A : Type} (m : M A) (handler : JsError -> M A) : M A :=
  fun d =>
    let r := m d in
    match outcome r with
    | Return a => r
    | Throw e =>
        let r' := handler e (final r) in
        {| outcome := outcome r'; final := final r';
           emitted := emitted r ++ emitted r' |}
    end.

Definition get : M Data :=
  fun d => {| outcome := Return d; final := d; emitted := [] |}.

Definition modify (f : Data -> Data) : M unit :=
  fun d => {| outcome := Return tt; final := f d; emitted := [] |}.

Definition tell (e : Effect) : M unit :=
  fun d => {| outcome := Return tt; final := d; emitted := [e] |}.

Notation "x <- m ;; k" := (bind m (fun x => k))
  (at level 61, m at next level, right associativity).
Notation "m ;; k" := (bind m (fun _ => k))
  (at level 61, right associativity).

Variable props : Props.
Variable core : Core.
Variable refs : Refs.

(** [process.env.NODE_ENV], fixed when the bundle is built. *)
Variable NODE_ENV : string.

(** A string prop is truthy when it is a non-empty string. *)
Definition truthy_string (s : nullable string) : bool :=
  match s with
  | Val s' => negb (s' =? "")
  | _ => false
  end.

(** *** Computed properties *)

Definition initialized (d : Data) : bool :=
  is_set (visibleArea d) && imageLoaded d.

Definition coefficient (d : Data) : number :=
  match visibleArea d with
  | Val va => div (width va) (to_number (s_width (boundaries d)))
  | _ => Num 0
  end.

Definition areaRestrictions (d : Data) : Computed Limits :=
  if imageLoaded d then
    (areaRestrictionsAlgorithm props (imageSize d) (imageRestriction props),
     [AreaRestrictionsAlgorithm])
  else (no_limits, []).

Definition positionRestrictions (d : Data) : Computed Limits :=
  if initialized d then
    (positionRestrictionsAlgorithm props
       (imageSize d) (imageRestriction props) (visibleArea d),
     [PositionRestrictionsAlgorithm])
  else (no_limits, []).

(** [!isUndefined(p) ? parseNumber(p) : fallback]. *)
Definition parsed_or (p : option NumberOrString) (fallback : number) : number :=
  match p with
  | Some v => parseNumber core v
  | None => fallback
  end.

Definition sizeRestrictions (d : Data) : Computed SizeRestrictions :=
  if to_boolean (s_width (boundaries d)) && to_boolean (s_height (boundaries d))
  then
    let algorithm :=
      match restrictions props with
      | Some f => f
      | None => sizeRestrictionsAlgorithm props
      end in
    let raw :=
      algorithm
        {| srp_imageSize := imageSize d;
           srp_minWidth := parsed_or (minWidthProp props) (Num 0);
           srp_minHeight := parsed_or (minHeightProp props) (Num 0);
           srp_maxWidth := parsed_or (maxWidthProp props) Infinity;
           srp_maxHeight := parsed_or (maxHeightProp props) Infinity |} in
    let position := positionRestrictions d in
    (refineSizeRestrictions core
       {| rsp_sizeRestrictions := raw;
          rsp_imageSize := imageSize d;
          rsp_boundaries := boundaries d;
          rsp_positionRestrictions := value position;
          rsp_imageRestriction := imageRestriction props |},
     SizeRestrictionsAlgorithm :: calls position ++ [RefineSizeRestrictions])
  else
    ({| minWidth := Num 0; minHeight := Num 0;
        maxWidth := Num 0; maxHeight := Num 0 |}, []).

(** *** Methods *)

Definition getAspectRatio : AspectRatio :=
  match stencil_aspectRatios refs with
  | Some r => r
  | None =>
      {| minimum :=
           or_else (stencil_aspectRatio props) (stencil_minAspectRatio props);
         maximum :=
           or_else (stencil_aspectRatio props) (stencil_maxAspectRatio props) |}
  end.

Definition getPublicProperties (d : Data) : PublicProperties :=
  {| pp_coefficient := coefficient d;
     pp_visibleArea := visibleArea d;
     pp_coordinates := coordinates d;
     pp_boundaries := boundaries d;
     pp_sizeRestrictions := value (sizeRestrictions d);
     pp_positionRestrictions := value (positionRestrictions d);
     pp_areaRestrictions := value (areaRestrictions d);
     pp_aspectRatio := getAspectRatio;
     pp_imageRestriction := imageRestriction props |}.

Definition defaultCoordinates : Rect := DEFAULT_COORDINATES core.

(** The parameter object [prepareResult] builds for
    [algorithms.roundCoordinates]. *)
Definition roundingParams (d : Data) (c : Rect) : PublicProperties :=
  with_coordinates
    (with_positionRestrictions (getPublicProperties d)
       (limitBy core (value (positionRestrictions d)) (visibleArea d)))
    c.

Definition prepareResult (c : Rect) : M Rect :=
  if roundResult props then
    d <- get ;;
    tell (CallRoundCoordinates (roundingParams d c)) ;;
    ret (roundCoordinates core (roundingParams d c))
  else ret c.

Definition autoZoom (c : Rect) : M unit :=
  d <- get ;;
  let params := with_coordinates (getPublicProperties d) c in
  tell (CallAutoZoom params) ;;
  modify (set_visibleArea (autoZoomAlgorithm core params)).

Definition normalizeEvent (e : Event) : M NormalizedEvent :=
  d <- get ;;
  let params := getPublicProperties d in
  tell (CallNormalizeEvent params e) ;;
  ret (normalizeEventAlgorithm core params e).

(** Drawing itself is the canvas's business; the call is recorded. *)
Definition updateCanvas (c : Rect) : M unit :=
  if is_set (ref_canvas refs) then tell (DrawCanvas c) else ret tt.

(** [visibleArea ? {...visibleArea} : null]. *)
Definition copy_or_null (v : nullable Rect) : nullable Rect :=
  match v with
  | Val r => Val r
  | _ => Null
  end.

Definition getResult : M Result :=
  d <- get ;;
  c <- (if initialized d then prepareResult (coordinates d)
        else ret defaultCoordinates) ;;
  if canvas props && truthy_string (src props) && imageLoaded d then
    updateCanvas (coordinates d) ;;
    ret {| res_coordinates := c;
           res_visibleArea := copy_or_null (visibleArea d);
           res_canvas := ref_canvas refs |}
  else
    ret {| res_coordinates := c;
           res_visibleArea := copy_or_null (visibleArea d);
           res_canvas := Undefined |}.

Definition update : M unit :=
  r <- getResult ;;
  tell (Emit "change" r).

Definition onChangeCoordinates (newCoordinates : Rect) (debounced : bool)
  : M unit :=
  modify (set_coordinates newCoordinates) ;;
  if listens_change props then
    if debounced && debounce props then tell DebouncedUpdate else update
  else ret tt.

Definition onMove (event : Event) : M unit :=
  d <- get ;;
  e <- normalizeEvent event ;;
  let params :=
    with_coordinates
      (with_positionRestrictions (getPublicProperties d)
         (limitBy core (value (positionRestrictions d)) (visibleArea d)))
      (coordinates d) in
  tell (CallMoveAlgorithm params e) ;;
  onChangeCoordinates (moveAlgorithm props params e) true.

Definition onResize (event : Event) : M unit :=
  d <- get ;;
  let restrictions := value (sizeRestrictions d) in
  let minimumSize :=
    min3 (width (coordinates d)) (height (coordinates d))
      (mul (Num 20) (coefficient d)) in
  e <- normalizeEvent event ;;
  let params :=
    with_sizeRestrictions
      (with_positionRestrictions (getPublicProperties d)
         (limitBy core (value (positionRestrictions d)) (visibleArea d)))
      {| minWidth := max2 (minWidth restrictions) minimumSize;
         minHeight := max2 (minHeight restrictions) minimumSize;
         maxWidth := maxWidth restrictions;
         maxHeight := maxHeight restrictions |} in
  tell (CallResizeAlgorithm params e) ;;
  onChangeCoordinates (resizeAlgorithm props params e) true.

Definition onManipulateImage (event : Event) : M unit :=
  d <- get ;;
  e <- normalizeEvent event ;;
  let params := getPublicProperties d in
  let resize := settings_resize_stencil core in
  tell (CallManipulateImage params e (imageRestriction props) resize) ;;
  let result := manipulateImage core params e (imageRestriction props) resize in
  modify (set_visibleArea (fst result)) ;;
  onChangeCoordinates (snd result) true.

Definition zoom (factor : number) (center : nullable Point) : M unit :=
  onManipulateImage
    (ManipulateImageEvent
       {| mv_left := Undefined; mv_top := Undefined |}
       (Val {| factor := div (Num 1) factor; center := center |})).

(** [x || 0]. *)
Definition or_zero (x : number) : number := if truthy x then x else Num 0.

Definition move (left top : number) : M unit :=
  d <- get ;;
  onManipulateImage
    (ManipulateImageEvent
       {| mv_left := Val (or_zero (mul left (coefficient d)));
          mv_top := Val (or_zero (mul top (coefficient d))) |}
       Undefined).

(** The parameter object [applyTransform] builds for
    [algorithms.applyTransform]. *)
Definition transformParams (d : Data) (transform : Transforms) (limited : bool)
  : ApplyTransformParams :=
  let sizes :=
    match visibleArea d with
    | Val va =>
        if limited
        then limitSizeRestrictions core (value (sizeRestrictions d)) va
        else value (sizeRestrictions d)
    | _ => value (sizeRestrictions d)
    end in
  let positions :=
    if is_set (visibleArea d)
    then limitBy core (value (positionRestrictions d)) (visibleArea d)
    else value (positionRestrictions d) in
  {| atp_coordinates := coordinates d;
     atp_transform := transform;
     atp_sizeRestrictions := sizes;
     atp_positionRestrictions := positions;
     atp_aspectRatio := getAspectRatio;
     atp_imageSize := imageSize d |}.

Definition applyTransform (transform : Transforms) (zoomed limited : bool)
  : M Rect :=
  d <- get ;;
  let params := transformParams d transform limited in
  tell (CallApplyTransform params) ;;
  let c := applyTransformAlgorithm core params in
  (if zoomed then autoZoom c else ret tt) ;;
  onChangeCoordinates c false ;;
  ret c.

Definition as_transform (c : Rect) : Transform :=
  TObject {| p_left := Val (left c); p_top := Val (top c);
             p_width := Val (width c); p_height := Val (height c) |}.

Definition onPropsChange : M unit :=
  d <- get ;;
  applyTransform (Single (as_transform (coordinates d))) true true ;;
  ret tt.

Definition breaks_restrictions (size : PartialRect) (r : SizeRestrictions)
  : bool :=
  lt (to_number (p_width size)) (minWidth r)
  || lt (to_number (p_height size)) (minHeight r)
  || gt (to_number (p_width size)) (maxWidth r)
  || gt (to_number (p_height size)) (maxHeight r).

Definition default_size_warning : string :=
  "Warning: the default size breaks size restrictions. Check your defaultSize function".

(** The parameter object [resetCoordinates] builds for [defaultSize]. *)
Definition defaultSizeParams (d : Data) : DefaultSizeParams :=
  {| dsp_boundaries := boundaries d;
     dsp_imageSize := imageSize d;
     dsp_aspectRatio := getAspectRatio;
     dsp_sizeRestrictions := value (sizeRestrictions d);
     dsp_visibleArea := visibleArea d |}.

(** The second transform of [resetCoordinates]: the default position,
    asked for once the size is known. *)
Definition positionTransform (d : Data) : Transform :=
  TFunction
    (fun c =>
       match defaultPosition props with
       | Fn f =>
           f {| dpp_coordinates := c;
                dpp_imageSize := imageSize d;
                dpp_visibleArea := visibleArea d |}
       | Obj o => o
       end).

(** [Array.isArray(t) ? t : [t]] on the pending transforms, if any. *)
Definition pendingTransforms (d : Data) : list Transform :=
  match delayedTransforms d with
  | Val (Array ts) => ts
  | Val (Single t) => [t]
  | _ => []
  end.

(** The default size [resetCoordinates] settles on. *)
Definition chosenDefaultSize (d : Data) : PartialRect :=
  match defaultSize props with
  | Fn f => f (defaultSizeParams d)
  | Obj o => o
  end.

(** The transforms of a reset: the default size, then the default
    position, then whatever [setCoordinates] left pending. *)
Definition resetTransforms (d : Data) : Transforms :=
  Array (TObject (chosenDefaultSize d) :: positionTransform d
         :: pendingTransforms d).

Definition resetCoordinates : M unit :=
  if negb (is_set (ref_image refs)) then ret tt
  else
    d <- get ;;
    let restrictions := value (sizeRestrictions d) in
    size <-
      match defaultSize props with
      | Fn _ => tell (CallDefaultSize (defaultSizeParams d)) ;;
                ret (chosenDefaultSize d)
      | Obj _ => ret (chosenDefaultSize d)
      end ;;
    (if (NODE_ENV =? "development") && breaks_restrictions size restrictions
     then tell (ConsoleWarn default_size_warning)
     else ret tt) ;;
    applyTransform
      (Array (TObject size :: positionTransform d :: pendingTransforms d))
      false true ;;
    modify (set_delayedTransforms Null).

(** What [resetCoordinates] records before it applies the transforms:
    the call of a [defaultSize] function, and the warning. *)
Definition sizeQuery (d : Data) : list Effect :=
  match defaultSize props with
  | Fn _ => [CallDefaultSize (defaultSizeParams d)]
  | Obj _ => []
  end.

Definition sizeWarning (d : Data) : list Effect :=
  if (NODE_ENV =? "development")
     && breaks_restrictions (chosenDefaultSize d) (value (sizeRestrictions d))
  then [ConsoleWarn default_size_warning]
  else [].

Definition cannot_fit : string :=
  "It's impossible to fit the cropper in the current container".

(** The value [updateBoundaries] assigns to [this.boundaries]. *)
Definition computedBoundaries (d : Data) : Size :=
  match defaultBoundaries props with
  | BoundariesFn f => f (ref_cropper refs) (imageSize d)
  | BoundariesName s =>
      if s =? "fill"
      then fillBoundaries core (ref_cropper refs) (imageSize d)
      else fitBoundaries core (ref_cropper refs) (imageSize d)
  end.

Definition updateBoundaries : M unit :=
  d <- get ;;
  tell (CallInitStretcher (imageSize d)) ;;
  let b := computedBoundaries d in
  tell (CallBoundaries b) ;;
  modify (set_boundaries b) ;;
  if negb (to_boolean (s_width b)) || negb (to_boolean (s_height b))
  then throw (Error cannot_fit)
  else ret tt.

(** The parameter object [resetVisibleArea] builds for
    [defaultVisibleArea]. *)
Definition defaultVisibleAreaParams (d : Data) : DefaultVisibleAreaParams :=
  {| dvp_imageSize := imageSize d;
     dvp_boundaries := boundaries d;
     dvp_coordinates :=
       if negb (priority props =? "visibleArea")
       then Val (coordinates d) else Undefined;
     dvp_areaRestrictions := value (areaRestrictions d) |}.

(** The visible area [resetVisibleArea] hands to [refineVisibleArea]. *)
Definition candidateVisibleArea (d : Data) : Rect :=
  match defaultVisibleArea props with
  | Fn f => f (defaultVisibleAreaParams d)
  | Obj o => o
  end.

(** What [resetVisibleArea] records when [defaultVisibleArea] is a
    function. *)
Definition areaQuery (d : Data) : list Effect :=
  match defaultVisibleArea props with
  | Fn _ => [CallDefaultVisibleArea (defaultVisibleAreaParams d)]
  | Obj _ => []
  end.

Definition resetVisibleArea : M unit :=
  catch
    (updateBoundaries ;;
     (if negb (priority props =? "visibleArea")
      then modify (set_visibleArea Undefined) ;; resetCoordinates
      else ret tt) ;;
     d <- get ;;
     candidate <-
       match defaultVisibleArea props with
       | Fn _ => tell (CallDefaultVisibleArea (defaultVisibleAreaParams d)) ;;
                 ret (candidateVisibleArea d)
       | Obj _ => ret (candidateVisibleArea d)
       end ;;
     tell (CallRefineVisibleArea
             candidate (boundaries d) (value (areaRestrictions d))) ;;
     modify (set_visibleArea
               (Val (refineVisibleArea core
                       candidate (boundaries d)
                       (value (areaRestrictions d))))) ;;
     if priority props =? "visibleArea" then resetCoordinates else ret tt)
    (fun _ => modify (set_visibleArea Null)).

(** The parameter objects [updateVisibleArea] builds for the two fit
    algorithms. *)
Definition fitVisibleAreaParams (d : Data) : FitVisibleAreaParams :=
  {| fvp_imageSize := imageSize d;
     fvp_boundaries := boundaries d;
     fvp_visibleArea := visibleArea d;
     fvp_coordinates := coordinates d;
     fvp_areaRestrictions := value (areaRestrictions d) |}.

Definition fitCoordinatesParams (d : Data) : FitCoordinatesParams :=
  {| fcp_visibleArea := visibleArea d;
     fcp_coordinates := coordinates d;
     fcp_aspectRatio := getAspectRatio;
     fcp_positionRestrictions := value (positionRestrictions d);
     fcp_sizeRestrictions := value (sizeRestrictions d) |}.

Definition updateVisibleArea : M unit :=
  catch
    (updateBoundaries ;;
     d <- get ;;
     tell (CallFitVisibleArea (fitVisibleAreaParams d)) ;;
     modify (set_visibleArea (fitVisibleArea props (fitVisibleAreaParams d))) ;;
     d' <- get ;;
     tell (CallFitCoordinates (fitCoordinatesParams d')) ;;
     modify (set_coordinates (fitCoordinates props (fitCoordinatesParams d'))))
    (fun _ => modify (set_visibleArea Null)).

Definition reset : M unit := resetVisibleArea.

Definition refresh : M unit :=
  if truthy_string (src props) && is_set (ref_image refs) then
    d <- get ;;
    if initialized d then updateVisibleArea else reset
  else ret tt.

End Cropper.

Unset Implicit Arguments.

Arguments ManipulateImageEvent {StencilEvent} move scale.
Arguments FromStencil {StencilEvent} e.
Arguments BoundariesFn {Element} f.
Arguments BoundariesName {Element} s.
Arguments CallInitStretcher {Element StencilEvent NormalizedEvent} sz.
Arguments CallBoundaries {Element StencilEvent NormalizedEvent} result.
Arguments CallDefaultVisibleArea {Element StencilEvent NormalizedEvent} params.
Arguments CallRefineVisibleArea {Element StencilEvent NormalizedEvent} va b l.
Arguments CallDefaultSize {Element StencilEvent NormalizedEvent} params.
Arguments CallApplyTransform {Element StencilEvent NormalizedEvent} params.
Arguments CallAutoZoom {Element StencilEvent NormalizedEvent} params.
Arguments CallFitVisibleArea {Element StencilEvent NormalizedEvent} params.
Arguments CallFitCoordinates {Element StencilEvent NormalizedEvent} params.
Arguments CallNormalizeEvent {Element StencilEvent NormalizedEvent} params e.
Arguments CallMoveAlgorithm {Element StencilEvent NormalizedEvent} params e.
Arguments CallResizeAlgorithm {Element StencilEvent NormalizedEvent} params e.
Arguments CallManipulateImage
  {Element StencilEvent NormalizedEvent} params e restriction resize.
Arguments CallRoundCoordinates {Element StencilEvent NormalizedEvent} params.
Arguments ConsoleWarn {Element StencilEvent NormalizedEvent} message.
Arguments Emit {Element StencilEvent NormalizedEvent} name payload.
Arguments DebouncedUpdate {Element StencilEvent NormalizedEvent}.
Arguments DrawCanvas {Element StencilEvent NormalizedEvent} c.

(* ===================================================================== *)
(** ** More of the component *)
(* ===================================================================== *)


Set Implicit Arguments.

Section Lifecycle.

Variable Element : Type.
Variable StencilEvent : Type.
Variable NormalizedEvent : Type.
Variable props : Props Element NormalizedEvent.
Variable core : Core Element StencilEvent NormalizedEvent.
Variable refs : Refs Element.
Variable NODE_ENV : string.

(** What [getResult] reports, calls and returns in a state [d]. *)
Definition reportedCoordinates (d : Data) : Rect :=
  if initialized d then
    if roundResult props
    then roundCoordinates core
           (roundingParams props core refs d (coordinates d))
    else coordinates d
  else defaultCoordinates core.

Definition draws (d : Data) : bool :=
  canvas props && truthy_string (src props) && imageLoaded d.

Definition resultOf (d : Data) : Result Element :=
  {| res_coordinates := reportedCoordinates d;
     res_visibleArea := copy_or_null (visibleArea d);
     res_canvas := if draws d then ref_canvas refs else Undefined |}.

Definition resultCalls (d : Data)
  : list (Effect Element StencilEvent NormalizedEvent) :=
  (if initialized d && roundResult props
   then [CallRoundCoordinates
           (roundingParams props core refs d (coordinates d))]
   else [])
  ++ (if draws d && is_set (ref_canvas refs)
      then [DrawCanvas (coordinates d)]
      else []).

(** What [onChangeCoordinates] calls once the coordinates are stored in
    [d]. *)
Definition notifications (debounced : bool) (d : Data)
  : list (Effect Element StencilEvent NormalizedEvent) :=
  if listens_change props then
    if debounced && debounce props then [DebouncedUpdate]
    else resultCalls d ++ [Emit "change" (resultOf d)]
  else [].

(** [Array.isArray(t) ? t : [t]]. *)
Definition as_list (t : Transforms) : list Transform :=
  match t with
  | Array ts => ts
  | Single x => [x]
  end.

(** [setCoordinates(transforms, params = {})], as run at the next tick;
    [zoomed] is [params.autoZoom], absent by default. *)
Definition setCoordinates (transforms : Transforms) (zoomed : option bool)
  : M Element StencilEvent NormalizedEvent unit :=
  let autoZoom := match zoomed with Some b => b | None => true end in
  bind (get Element StencilEvent NormalizedEvent)
    (fun d =>
       if negb (imageLoaded d)
       then modify Element StencilEvent NormalizedEvent
              (set_delayedTransforms (Val transforms))
       else bind (applyTransform props core refs transforms autoZoom false)
              (fun _ => ret Element StencilEvent NormalizedEvent tt)).



(** The double quote, for messages that quote a prop name. *)
Definition quote : string := String (Ascii.ascii_of_nat 34) EmptyString.

Definition boundaries_warning (value : string) : string :=
  "Warning: prop " ++ quote ++ "defaultBoundaries" ++ quote
  ++ " gets incorrect string value " ++ value
  ++ ". It should be either function, 'fill' or 'fit'".

(** The validator of the prop [defaultBoundaries]: its verdict and what it
    writes to the console. *)
Definition defaultBoundariesValidator (value : BoundariesProp Element)
  : bool * list string :=
  let invalid :=
    match value with
    | BoundariesName s => negb (s =? "fill") && negb (s =? "fit")
    | BoundariesFn _ => false
    end in
  (negb invalid,
   match value with
   | BoundariesName s =>
       if invalid && negb (NODE_ENV =? "production")
       then [boundaries_warning s] else []
   | BoundariesFn _ => []
   end).

End Lifecycle.

Unset Implicit Arguments.

(* ===================================================================== *)
(** ** The events example page *)
(* ===================================================================== *)

(** The page that shows a cropper with a loading indicator: an input
    bound to [img.src], a watcher on it, and the handlers of the cropper's
    [change], [error] and [ready] events. *)
Module EventsExample.

Record Img := { src : string; loading : bool }.

(** The page's [data()]. *)
Definition initial : Img :=
  {| src :=
       "https://images.pexels.com/photos/2890387/pexels-photo-2890387.jpeg?auto=compress&cs=tinysrgb&dpr=2&h=650&w=940";
     loading := false |}.

(** What can happen to the page: the input writes a value to [img.src],
    or the cropper emits one of its events.  Each happening is dealt with
    before the next one comes. *)
Inductive Happening :=
  | SrcChanged (value : string)
  | Change
  | Failed
  | Ready.

(** One happening: the new [img] and the lines written to the console.
    The watcher on [img.src] runs only when the value written differs
    from the one that was there. *)
Definition step (img : Img) (h : Happening) : Img * list string :=
  match h with
  | SrcChanged value =>
      if value =? src img then (img, [])
      else
        ({| src := value;
            loading := if negb (value =? "") then true else loading img |},
         [])
  | Change => (img, ["Coordinates was changed"])
  | Failed =>
      ({| src := src img; loading := false |},
       ["There is error during image loading"])
  | Ready =>
      ({| src := src img; loading := false |},
       ["Image is successfully loaded"])
  end.

Fixpoint run (img : Img) (hs : list Happening) : Img :=
  match hs with
  | [] => img
  | h :: hs' => run (fst (step img h)) hs'
  end.

(** The cropper has answered: it is ready or it failed. *)
Definition settles (h : Happening) : bool :=
  match h with
  | Failed | Ready => true
  | _ => false
  end.

(** A non-empty source was entered. *)
Definition starts (h : Happening) : bool :=
  match h with
  | SrcChanged value => negb (value =? "")
  | _ => false
  end.

(** A source was entered, empty or not. *)
Definition enters (h : Happening) : bool :=
  match h with
  | SrcChanged _ => true
  | _ => false
  end.

End EventsExample.

(* ===================================================================== *)
(** ** Algorithms of [./core/algorithms] described by the specification *)
(* ===================================================================== *)

Module Algorithms.

(** A normalized drag: the displacement, in image pixels. *)
Record Delta := { delta_left : number; delta_top : number }.

(** One coordinate of a rectangle of extent [size] kept between [lo] and
    [hi]; an undefined bound does not bind. *)
Definition clamp (x size : number) (lo hi : nullable number) : number :=
  let capped :=
    match hi with
    | Val h => min2 x (sub h size)
    | _ => x
    end in
  match lo with
  | Val l => max2 capped l
  | _ => capped
  end.

(** Modelled from the spec: the [move] algorithm of [./core/algorithms],
    which is not among the sources.  The specification (4.2) has it add the
    event's delta to [left]/[top], then clamp each axis independently
    against [positionRestrictions], leaving [width]/[height] unchanged. *)
Definition move (p : PublicProperties) (e : Delta) : Rect :=
  let c := pp_coordinates p in
  let r := pp_positionRestrictions p in
  {| left :=
       clamp (add (left c) (delta_left e)) (width c) (l_left r) (l_right r);
     top :=
       clamp (add (top c) (delta_top e)) (height c) (l_top r) (l_bottom r);
     width := width c;
     height := height c |}.

(** [Math.round] of a rational: the nearest integer, halves going up. *)
Definition nearest (x : Q) : Z := Qfloor (x + (1 # 2)).

(** A lower bound [b] of [x] on the pixel grid: the first grid point not
    below [b], when [b] is a number that [x] respects; a bound that [x]
    breaks, and a missing or infinite one, does not bind. *)
Definition lowest (b : nullable number) (x : number) : option Z :=
  match b with
  | Val (Num q) => if le (Num q) x then Some (Qceiling q) else None
  | _ => None
  end.

(** An upper bound [b] of [x] on the pixel grid: the last grid point not
    above [b], under the same conditions. *)
Definition highest (b : nullable number) (x : number) : option Z :=
  match b with
  | Val (Num q) => if le x (Num q) then Some (Qfloor q) else None
  | _ => None
  end.

Definition raise (lo : option Z) (x : Z) : Z :=
  match lo with
  | Some b => Z.max b x
  | None => x
  end.

Definition lower (hi : option Z) (x : Z) : Z :=
  match hi with
  | Some b => Z.min b x
  | None => x
  end.

(** The room left below [hi] above [lo]. *)
Definition gap (hi lo : option Z) : option Z :=
  match hi, lo with
  | Some h, Some l => Some (h - l)%Z
  | _, _ => None
  end.

(** One axis of the rounding.  The restrictions that count are those the
    unrounded rectangle meets.  The start is rounded first and kept, on the
    grid, above its lower bound and where the minimum extent still fits
    below the upper bound; the extent is then adjusted by the residual
    (what the rounding moved the start), rounded, and kept on the grid
    within its maximum, the room left below the upper bound, and its
    minimum.  A start or an extent that is not finite is only rounded. *)
Definition roundAxis
  (start extent : number) (lo hi : nullable number) (mn mx : number)
  : number * number :=
  match start, extent with
  | Num l, Num w =>
      let lo' := lowest lo start in
      let hi' := highest hi (add start extent) in
      let mn' := lowest (Val mn) extent in
      let mx' := highest (Val mx) extent in
      let l' := raise lo' (lower (gap hi' mn') (nearest l)) in
      let w' :=
        raise mn'
          (lower (gap hi' (Some l'))
             (lower mx' (nearest (w + (l - inject_Z l'))))) in
      (Num (inject_Z l'), Num (inject_Z w'))
  | _, _ =>
      (round start, round (add extent (sub start (round start))))
  end.

(** Modelled from the spec: the [roundCoordinates] algorithm of
    [./core/algorithms], which is not among the sources.  The specification
    (4.8) has it snap the rectangle to integer pixel boundaries by rounding
    the position first, then adjusting width/height by the residual, so
    that the clamped invariants (min/max size, position bounds) still
    hold: it never rounds in a way that violates a restriction that was
    satisfied; an overshoot of the rounding is resolved by clamping (7).
    The two axes are rounded independently, each against the size and
    position restrictions handed over. *)
Definition roundCoordinates (p : PublicProperties) : Rect :=
  let c := pp_coordinates p in
  let l := pp_positionRestrictions p in
  let s := pp_sizeRestrictions p in
  let horizontal :=
    roundAxis (left c) (width c) (l_left l) (l_right l)
      (minWidth s) (maxWidth s) in
  let vertical :=
    roundAxis (top c) (height c) (l_top l) (l_bottom l)
      (minHeight s) (maxHeight s) in
  {| left := fst horizontal;
     top := fst vertical;
     width := snd horizontal;
     height := snd vertical |}.

End Algorithms.

(* ===================================================================== *)
(** ** Vocabulary of the properties *)
(* ===================================================================== *)

(** A dimension that is [0], [null] or [undefined]. *)
Definition zero_or_unset (v : nullable number) : bool :=
  match v with
  | Null | Undefined => true
  | Val (Num q) => Qeq_bool q 0
  | Val _ => false
  end.

(** A dimension that is a number above [0]. *)
Definition positive (v : nullable number) : bool :=
  match v with
  | Val n => lt (Num 0) n
  | _ => false
  end.

(** The handle-size minimum of a resize,
    [Math.min(coordinates.width, coordinates.height, 20 * coefficient)]. *)
Definition handleMinimum (d : Data) : number :=
  min3 (width (coordinates d)) (height (coordinates d))
    (mul (Num 20) (coefficient d)).

Definition all_zero : SizeRestrictions :=
  {| minWidth := Num 0; minHeight := Num 0;
     maxWidth := Num 0; maxHeight := Num 0 |}.

Definition finite_rect (r : Rect) : bool :=
  is_finite (left r) && is_finite (top r)
  && is_finite (width r) && is_finite (height r).

(** Every edge and extent of the rectangle is a whole number of pixels. *)
Definition integral_rect (r : Rect) : bool :=
  is_integer (left r) && is_integer (top r)
  && is_integer (width r) && is_integer (height r).

(** [lower <= x]; an undefined bound does not bind. *)
Definition above (lower : nullable number) (x : number) : bool :=
  match lower with
  | Val b => le b x
  | _ => true
  end.

Definition below (upper : nullable number) (x : number) : bool :=
  match upper with
  | Val b => le x b
  | _ => true
  end.

(** The four edge bounds of the specification: [l.left <= r.left],
    [r.left + r.width <= l.right], and the same vertically. *)
Definition within (l : Limits) (r : Rect) : bool :=
  above (l_left l) (left r)
  && below (l_right l) (add (left r) (width r))
  && above (l_top l) (top r)
  && below (l_bottom l) (add (top r) (height r)).

(** Whatever restriction the rectangle [c] met, the rectangle [c'] meets
    too: each of the four position bounds and of the four size bounds on
    its own. *)
Definition keeps_restrictions
  (s : SizeRestrictions) (l : Limits) (c c' : Rect) : Prop :=
  (above (l_left l) (left c) = true -> above (l_left l) (left c') = true)
  /\ (below (l_right l) (add (left c) (width c)) = true ->
      below (l_right l) (add (left c') (width c')) = true)
  /\ (le (minWidth s) (width c) = true -> le (minWidth s) (width c') = true)
  /\ (le (width c) (maxWidth s) = true -> le (width c') (maxWidth s) = true)
  /\ (above (l_top l) (top c) = true -> above (l_top l) (top c') = true)
  /\ (below (l_bottom l) (add (top c) (height c)) = true ->
      below (l_bottom l) (add (top c') (height c')) = true)
  /\ (le (minHeight s) (height c) = true ->
      le (minHeight s) (height c') = true)
  /\ (le (height c) (maxHeight s) = true ->
      le (height c') (maxHeight s) = true).

(** Equality of numbers as [===] has it: [NaN] equals nothing. *)
Definition same (a b : number) : bool := le a b && le b a.

Definition same_rect (a b : Rect) : bool :=
  same (left a) (left b) && same (top a) (top b)
  && same (width a) (width b) && same (height a) (height b).

(** A grid point within a grid bound, if there is one. *)
Definition at_least (bound : option Z) (z : Z) : Prop :=
  match bound with
  | Some b => (b <= z)%Z
  | None => True
  end.

Definition at_most (bound : option Z) (z : Z) : Prop :=
  match bound with
  | Some b => (z <= b)%Z
  | None => True
  end.

(** There is room for an extent [size] between the bounds [lo] and [hi],
    each of them a rational or undefined. *)
Definition admits (lo hi : nullable number) (size : number) : bool :=
  match lo, hi with
  | Val (Num a), Val (Num b) => le (add (Num a) size) (Num b)
  | Val (Num _), (Null | Undefined) => true
  | (Null | Undefined), Val (Num _) => true
  | (Null | Undefined), (Null | Undefined) => true
  | _, _ => false
  end.

(** The size bounds: [min <= extent <= max] in both directions. *)
Definition fits (s : SizeRestrictions) (r : Rect) : bool :=
  le (minWidth s) (width r) && le (width r) (maxWidth s)
  && le (minHeight s) (height r) && le (height r) (maxHeight s).

(** Size restrictions some extent can meet: each minimum is at most the
    maximum, as the specification has them after refinement (3). *)
Definition consistent (s : SizeRestrictions) : bool :=
  le (minWidth s) (maxWidth s) && le (minHeight s) (maxHeight s).

(** Modelled from the spec: what [algorithms.applyTransform] guarantees.
    The algorithm lives in [./core] and is not among the sources.  The
    specification has the step that follows the default size clamp the
    coordinates (4.7, 7) and says of every output of the algorithms that
    [minWidth <= width <= maxWidth], and the same for the height (8):
    the rectangle returned meets the size restrictions handed over,
    whatever transforms were asked for. *)
Definition clamps_into_sizes (algorithm : ApplyTransformParams -> Rect)
  : Prop :=
  forall p : ApplyTransformParams,
    consistent (atp_sizeRestrictions p) = true ->
    fits (atp_sizeRestrictions p) (algorithm p) = true.

Section Steps.

Context {Element StencilEvent NormalizedEvent : Type}.

(** The stages of a reset whose order the specification fixes. *)
Inductive Stage :=
  | Boundaries
  | RefineVisibleArea
  | DefaultSize
  | ApplyTransform.

Definition stage_of
  (e : Effect Element StencilEvent NormalizedEvent) : option Stage :=
  match e with
  | CallBoundaries _ => Some Boundaries
  | CallRefineVisibleArea _ _ _ => Some RefineVisibleArea
  | CallDefaultSize _ => Some DefaultSize
  | CallApplyTransform _ => Some ApplyTransform
  | _ => None
  end.

Definition same_stage (a b : Stage) : bool :=
  match a, b with
  | Boundaries, Boundaries
  | RefineVisibleArea, RefineVisibleArea
  | DefaultSize, DefaultSize
  | ApplyTransform, ApplyTransform => true
  | _, _ => false
  end.

(** [first] is reached before [second] is (if [second] is reached at all). *)
Fixpoint precedes (first second : Stage) (l : list Stage) : bool :=
  match l with
  | [] => true
  | s :: l' =>
      if same_stage s first then true
      else if same_stage s second then false
      else precedes first second l'
  end.

Fixpoint stages
  (l : list (Effect Element StencilEvent NormalizedEvent)) : list Stage :=
  match l with
  | [] => []
  | e :: l' =>
      match stage_of e with
      | Some s => s :: stages l'
      | None => stages l'
      end
  end.

(** What telling the host about new coordinates can call. *)
Definition is_notification
  (e : Effect Element StencilEvent NormalizedEvent) : bool :=
  match e with
  | CallRoundCoordinates _ | DrawCanvas _ | Emit _ _ | DebouncedUpdate => true
  | _ => false
  end.

Definition is_fit (e : Effect Element StencilEvent NormalizedEvent) : bool :=
  match e with
  | CallFitVisibleArea _ | CallFitCoordinates _ => true
  | _ => false
  end.

Definition is_warning
  (e : Effect Element StencilEvent NormalizedEvent) : bool :=
  match e with
  | ConsoleWarn _ => true
  | _ => false
  end.

(** The visible area each [defaultSize] call was handed. *)
Fixpoint size_call_areas
  (l : list (Effect Element StencilEvent NormalizedEvent))
  : list (nullable Rect) :=
  match l with
  | [] => []
  | CallDefaultSize p :: l' => dsp_visibleArea p :: size_call_areas l'
  | _ :: l' => size_call_areas l'
  end.

(** The transforms each [applyTransform] call was handed. *)
Fixpoint applied_transforms
  (l : list (Effect Element StencilEvent NormalizedEvent)) : list Transforms :=
  match l with
  | [] => []
  | CallApplyTransform p :: l' => atp_transform p :: applied_transforms l'
  | _ :: l' => applied_transforms l'
  end.

End Steps.

(** *** What a record of calls shows *)

Section Observations.

Context {Element StencilEvent NormalizedEvent : Type}.

(** The payloads of the [change] events emitted at once. *)
Fixpoint changes
  (l : list (Effect Element StencilEvent NormalizedEvent))
  : list (Result Element) :=
  match l with
  | [] => []
  | Emit _ r :: l' => r :: changes l'
  | _ :: l' => changes l'
  end.

(** How many debounced updates were requested. *)
Fixpoint debounces
  (l : list (Effect Element StencilEvent NormalizedEvent)) : nat :=
  match l with
  | [] => O
  | DebouncedUpdate :: l' => S (debounces l')
  | _ :: l' => debounces l'
  end.

(** What was drawn on the canvas. *)
Fixpoint drawings
  (l : list (Effect Element StencilEvent NormalizedEvent)) : list Rect :=
  match l with
  | [] => []
  | DrawCanvas c :: l' => c :: drawings l'
  | _ :: l' => drawings l'
  end.

(** What [roundCoordinates] was asked to round. *)
Fixpoint roundings
  (l : list (Effect Element StencilEvent NormalizedEvent))
  : list PublicProperties :=
  match l with
  | [] => []
  | CallRoundCoordinates p :: l' => p :: roundings l'
  | _ :: l' => roundings l'
  end.

End Observations.

(* ===================================================================== *)
(** ** A concrete configuration *)
(* ===================================================================== *)

(** A configuration on which the component can be run: the instances of
    the properties below are checked against it.  A DOM node is
    represented by its client box and a gesture by its displacement. *)
Module Demo.

Definition Node : Type := Size.
Definition Gesture : Type := Algorithms.Delta.

Definition size (w h : Q) : Size :=
  {| s_width := Val (Num w); s_height := Val (Num h) |}.

Definition rect (l t w h : Q) : Rect :=
  {| left := Num l; top := Num t; width := Num w; height := Num h |}.

Definition box_of (node : nullable Node) : Size :=
  match node with
  | Val box => box
  | _ => size 0 0
  end.

Definition tighter_lower (bound : nullable number) (x : number) :=
  match bound with
  | Val b => Val (max2 b x)
  | _ => Val x
  end.

Definition tighter_upper (bound : nullable number) (x : number) :=
  match bound with
  | Val b => Val (min2 b x)
  | _ => Val x
  end.

Definition intersect (l : Limits) (area : nullable Rect) : Limits :=
  match area with
  | Val a =>
      {| l_left := tighter_lower (l_left l) (left a);
         l_top := tighter_lower (l_top l) (top a);
         l_right := tighter_upper (l_right l) (add (left a) (width a));
         l_bottom := tighter_upper (l_bottom l) (add (top a) (height a)) |}
  | _ => l
  end.

Definition cap_sizes (s : SizeRestrictions) (area : Rect) : SizeRestrictions :=
  {| minWidth := minWidth s; minHeight := minHeight s;
     maxWidth := min2 (maxWidth s) (width area);
     maxHeight := min2 (maxHeight s) (height area) |}.

Definition image_bounds (image : Size) (mode : string) : Limits :=
  if mode =? "none" then no_limits
  else {| l_left := Val (Num 0); l_top := Val (Num 0);
          l_right := s_width image; l_bottom := s_height image |}.

Definition whole_image (image : Size) : Rect :=
  {| left := Num 0; top := Num 0;
     width := to_number (s_width image);
     height := to_number (s_height image) |}.

Definition merge (c : Rect) (o : PartialRect) : Rect :=
  {| left := match p_left o with Val n => n | _ => left c end;
     top := match p_top o with Val n => n | _ => top c end;
     width := match p_width o with Val n => n | _ => width c end;
     height := match p_height o with Val n => n | _ => height c end |}.

Definition run_transform (c : Rect) (t : Transform) : Rect :=
  match t with
  | TObject o => merge c o
  | TFunction f => merge c (f c)
  end.

Definition run_transforms (p : ApplyTransformParams) : Rect :=
  fold_left run_transform
    match atp_transform p with
    | Single t => [t]
    | Array ts => ts
    end
    (atp_coordinates p).

Definition displacement (e : Event Gesture) : Gesture :=
  match e with
  | FromStencil g => g
  | ManipulateImageEvent m _ =>
      {| Algorithms.delta_left := to_number (mv_left m);
         Algorithms.delta_top := to_number (mv_top m) |}
  end.

Definition core (rounding : PublicProperties -> Rect)
  : Core Node Gesture Gesture :=
  {| fillBoundaries := fun node _ => box_of node;
     fitBoundaries := fun node _ => box_of node;
     limitBy := intersect;
     limitSizeRestrictions := cap_sizes;
     parseNumber := fun v => match v with PNumber n => n | PString _ => NaN end;
     DEFAULT_COORDINATES := rect 0 0 0 0;
     settings_resize_stencil := false;
     refineSizeRestrictions := rsp_sizeRestrictions;
     roundCoordinates := rounding;
     autoZoomAlgorithm := pp_visibleArea;
     normalizeEventAlgorithm := fun _ e => displacement e;
     manipulateImage := fun p _ _ _ => (pp_visibleArea p, pp_coordinates p);
     applyTransformAlgorithm := run_transforms;
     refineVisibleArea := fun area _ _ => area |}.

Definition props
  (order : string) (rounded : bool)
  (initial : FunctionOr DefaultSizeParams PartialRect)
  (positions : Size -> string -> nullable Rect -> Limits)
  : Props Node Gesture :=
  {| src := Val "image.jpg";
     minWidthProp := None; minHeightProp := None;
     maxWidthProp := None; maxHeightProp := None;
     debounce := true;
     canvas := true;
     imageRestriction := "area";
     roundResult := rounded;
     resizeAlgorithm := fun p _ => pp_coordinates p;
     moveAlgorithm := Algorithms.move;
     fitCoordinates := fcp_coordinates;
     fitVisibleArea := fvp_visibleArea;
     defaultVisibleArea := Fn (fun p => whole_image (dvp_imageSize p));
     defaultSize := initial;
     defaultPosition :=
       Obj {| p_left := Val (Num 0); p_top := Val (Num 0);
              p_width := Undefined; p_height := Undefined |};
     defaultBoundaries := BoundariesName "fit";
     areaRestrictionsAlgorithm := image_bounds;
     sizeRestrictionsAlgorithm :=
       fun p =>
         {| minWidth := srp_minWidth p; minHeight := srp_minHeight p;
            maxWidth := srp_maxWidth p; maxHeight := srp_maxHeight p |};
     positionRestrictionsAlgorithm := positions;
     priority := order;
     restrictions := None;
     stencil_aspectRatio := Undefined;
     stencil_minAspectRatio := Undefined;
     stencil_maxAspectRatio := Undefined;
     listens_change := true |}.

(** The whole image as default size. *)
Definition full_size : FunctionOr DefaultSizeParams PartialRect :=
  Fn (fun p =>
        {| p_left := Undefined; p_top := Undefined;
           p_width := s_width (dsp_imageSize p);
           p_height := s_height (dsp_imageSize p) |}).

(** A default size no size restriction admits. *)
Definition negative_size : FunctionOr DefaultSizeParams PartialRect :=
  Obj {| p_left := Undefined; p_top := Undefined;
         p_width := Val (Num (-1)); p_height := Val (Num (-1)) |}.

Definition by_image (image : Size) (mode : string) (_ : nullable Rect)
  : Limits :=
  image_bounds image mode.

(** Position restrictions that fall between two pixels. *)
Definition between_pixels (_ : Size) (_ : string) (_ : nullable Rect)
  : Limits :=
  {| l_left := Val (Num (2 # 10)); l_top := Val (Num 0);
     l_right := Val (Num (8 # 10)); l_bottom := Val (Num 1) |}.

(** The component mounted in a container with the given client box. *)
Definition refs (box : Size) : Refs Node :=
  {| ref_image := Val box; ref_cropper := Val box;
     ref_canvas := Val box; stencil_aspectRatios := None |}.

(** A 1000x800 image has just loaded; nothing is laid out yet. *)
Definition loaded : Data :=
  {| imageLoaded := true;
     imageSize := size 1000 800;
     boundaries := {| s_width := Null; s_height := Null |};
     visibleArea := Null;
     coordinates := rect 0 0 0 0;
     delayedTransforms := Null |}.

(** The same image shown whole in a 500x400 container. *)
Definition ready : Data :=
  {| imageLoaded := true;
     imageSize := size 1000 800;
     boundaries := size 500 400;
     visibleArea := Val (rect 0 0 1000 800);
     coordinates := rect 0 0 1000 800;
     delayedTransforms := Null |}.

(** A crop rectangle that lies between two pixels. *)
Definition sliver : Data :=
  {| imageLoaded := true;
     imageSize := size 1000 800;
     boundaries := size 500 400;
     visibleArea := Val (rect 0 0 1000 800);
     coordinates := {| left := Num (3 # 10); top := Num 0;
                       width := Num (4 # 10); height := Num 1 |};
     delayedTransforms := Null |}.

(** A crop rectangle that starts between two pixels, on its left bound. *)
Definition offset : Data :=
  {| imageLoaded := true;
     imageSize := size 1000 800;
     boundaries := size 500 400;
     visibleArea := Val (rect 0 0 1000 800);
     coordinates := {| left := Num (4 # 10); top := Num 0;
                       width := Num 10; height := Num 10 |};
     delayedTransforms := Null |}.

(** Position restrictions whose left bound falls between two pixels. *)
Definition from_two_fifths (image : Size) (_ : string) (_ : nullable Rect)
  : Limits :=
  {| l_left := Val (Num (4 # 10)); l_top := Val (Num 0);
     l_right := s_width image; l_bottom := s_height image |}.

(** The configurations and mount points the instances run on. *)
Definition standard : Props Node Gesture :=
  props "coordinates" true full_size by_image.

Definition area_first : Props Node Gesture :=
  props "visibleArea" true full_size by_image.

Definition unrounded : Props Node Gesture :=
  props "coordinates" false full_size by_image.

Definition careless : Props Node Gesture :=
  props "coordinates" true negative_size by_image.

Definition fractional : Props Node Gesture :=
  props "coordinates" true full_size between_pixels.

Definition tight : Props Node Gesture :=
  props "coordinates" true full_size from_two_fifths.

Definition specified : Core Node Gesture Gesture :=
  core Algorithms.roundCoordinates.

(** An extent kept between a minimum and a maximum. *)
Definition clamp_extent (x lo hi : number) : number :=
  if lt x lo then lo
  else if lt hi x then hi
  else if is_nan x then lo
  else x.

(** The transforms applied in turn, and the size then clamped. *)
Definition clamped_transforms (p : ApplyTransformParams) : Rect :=
  let c := run_transforms p in
  let s := atp_sizeRestrictions p in
  {| left := left c; top := top c;
     width := clamp_extent (width c) (minWidth s) (maxWidth s);
     height := clamp_extent (height c) (minHeight s) (maxHeight s) |}.

(** The core of [specified], with a transform algorithm that clamps. *)
Definition careful : Core Node Gesture Gesture :=
  {| fillBoundaries := fillBoundaries specified;
     fitBoundaries := fitBoundaries specified;
     limitBy := limitBy specified;
     limitSizeRestrictions := limitSizeRestrictions specified;
     parseNumber := parseNumber specified;
     DEFAULT_COORDINATES := DEFAULT_COORDINATES specified;
     settings_resize_stencil := settings_resize_stencil specified;
     refineSizeRestrictions := refineSizeRestrictions specified;
     roundCoordinates := roundCoordinates specified;
     autoZoomAlgorithm := autoZoomAlgorithm specified;
     normalizeEventAlgorithm := normalizeEventAlgorithm specified;
     manipulateImage := manipulateImage specified;
     applyTransformAlgorithm := clamped_transforms;
     refineVisibleArea := refineVisibleArea specified |}.

Definition roomy : Refs Node := refs (size 500 400).

Definition flat : Refs Node := refs (size 0 400).

Definition drag : Event Gesture :=
  FromStencil
    {| Algorithms.delta_left := Num 1000; Algorithms.delta_top := Num 0 |}.

(** The component as created, before any image. *)
Definition initial : Data :=
  {| imageLoaded := false;
     imageSize := {| s_width := Null; s_height := Null |};
     boundaries := {| s_width := Null; s_height := Null |};
     visibleArea := Null;
     coordinates := rect 0 0 0 0;
     delayedTransforms := Null |}.

(** A transform that places the rectangle ten pixels from the left. *)
Definition nudge : Transforms :=
  Single (TObject {| p_left := Val (Num 10); p_top := Undefined;
                     p_width := Undefined; p_height := Undefined |}).

(** The standard configuration with the [aspectRatio] prop set. *)
Definition with_ratio (ratio : nullable number) : Props Node Gesture :=
  {| src := src standard;
     minWidthProp := None; minHeightProp := None;
     maxWidthProp := None; maxHeightProp := None;
     debounce := debounce standard;
     canvas := canvas standard;
     imageRestriction := imageRestriction standard;
     roundResult := roundResult standard;
     resizeAlgorithm := resizeAlgorithm standard;
     moveAlgorithm := moveAlgorithm standard;
     fitCoordinates := fitCoordinates standard;
     fitVisibleArea := fitVisibleArea standard;
     defaultVisibleArea := defaultVisibleArea standard;
     defaultSize := defaultSize standard;
     defaultPosition := defaultPosition standard;
     defaultBoundaries := defaultBoundaries standard;
     areaRestrictionsAlgorithm := areaRestrictionsAlgorithm standard;
     sizeRestrictionsAlgorithm := sizeRestrictionsAlgorithm standard;
     positionRestrictionsAlgorithm := positionRestrictionsAlgorithm standard;
     priority := priority standard;
     restrictions := None;
     stencil_aspectRatio := ratio;
     stencil_minAspectRatio := Val (Num (1 # 2));
     stencil_maxAspectRatio := Val (Num 2);
     listens_change := listens_change standard |}.

End Demo.

(* ===================================================================== *)
(** ** Properties *)
(* ===================================================================== *)

(** *** Numbers *)

Local Open Scope Q_scope.
Local Open Scope list_scope.

Lemma div_finite (x y : Q) :
  ~ y == 0 -> div (Num x) (Num y) = Num (x / y).
Proof.
  intros Hy. simpl.
  destruct (Qeq_bool y 0) eqn:E; [ | reflexivity ].
  apply Qeq_bool_eq in E. contradiction.
Qed.

Lemma lt_Num (x y : Q) : lt (Num x) (Num y) = true <-> x < y.
Proof.
  simpl. rewrite Qlt_alt. destruct (x ?= y); split; congruence.
Qed.

Lemma le_Num (x y : Q) : le (Num x) (Num y) = true <-> x <= y.
Proof.
  simpl. rewrite Qle_alt. destruct (x ?= y); split; congruence.
Qed.

Lemma lt_Num_false (x y : Q) : lt (Num x) (Num y) = false <-> y <= x.
Proof.
  split; intros H.
  - apply Qnot_lt_le. intros L. apply lt_Num in L. congruence.
  - destruct (lt (Num x) (Num y)) eqn:E; [ | reflexivity ].
    apply lt_Num in E. apply Qle_not_lt in H. contradiction.
Qed.

Lemma lt_irrefl (a : number) : lt a a = false.
Proof.
  destruct a as [q | | | ]; try reflexivity.
  apply lt_Num_false. apply Qle_refl.
Qed.

Lemma lt_asym (a b : number) : lt a b = true -> lt b a = false.
Proof.
  destruct a as [x | | | ], b as [y | | | ]; try reflexivity; try discriminate.
  intros H. apply lt_Num in H. apply lt_Num_false. apply Qlt_le_weak, H.
Qed.

(** [Math.max] never lies below its second argument. *)
Lemma max2_not_below (a b : number) : lt (max2 a b) b = false.
Proof.
  destruct a as [x | | | ], b as [y | | | ]; try reflexivity.
  - unfold max2. destruct (lt (Num x) (Num y)) eqn:E.
    + apply lt_irrefl.
    + exact E.
  - apply (lt_irrefl (Num y)).
Qed.

(** [Math.max] is its first argument when that one is the larger. *)
Lemma max2_keeps_larger (a b : number) : lt b a = true -> max2 a b = a.
Proof.
  intros H. unfold max2. rewrite (lt_asym _ _ H).
  destruct a, b; try reflexivity; discriminate.
Qed.

(** Without [NaN], [Math.max] is at least its second argument. *)
Lemma max2_at_least (a b : number) :
  is_nan a = false -> is_nan b = false -> le b (max2 a b) = true.
Proof.
  destruct a as [x | | | ], b as [y | | | ]; try reflexivity; try discriminate;
    intros _ _.
  - unfold max2. destruct (lt (Num x) (Num y)) eqn:E.
    + apply le_Num, Qle_refl.
    + apply le_Num. apply lt_Num_false in E. exact E.
  - unfold max2. simpl. apply le_Num, Qle_refl.
Qed.

(** Taking the inverse of a factor above one gives a factor below one. *)
Lemma inverse_below_one (f : number) :
  lt (Num 1) f = true -> lt (div (Num 1) f) (Num 1) = true.
Proof.
  destruct f as [q | | | ]; try discriminate; [ | reflexivity ].
  intros H. apply lt_Num in H.
  assert (Hq : ~ q == 0) by (intros E; rewrite E in H; discriminate H).
  rewrite (div_finite _ _ Hq). apply lt_Num.
  apply Qlt_shift_div_r.
  - apply Qlt_trans with 1; [ reflexivity | exact H ].
  - rewrite Qmult_1_l. exact H.
Qed.

Lemma le_refl_left (a b : number) : le a b = true -> le a a = true.
Proof.
  destruct a as [x | | | ], b as [y | | | ]; try reflexivity; try discriminate;
    intros _; apply le_Num, Qle_refl.
Qed.

Lemma le_refl_right (a b : number) : le a b = true -> le b b = true.
Proof.
  destruct a as [x | | | ], b as [y | | | ]; try reflexivity; try discriminate;
    intros _; apply le_Num, Qle_refl.
Qed.

(** Numbers other than [NaN] are totally ordered. *)
Lemma not_lt_le (a b : number) :
  is_nan a = false -> is_nan b = false -> lt a b = false -> le b a = true.
Proof.
  destruct a as [x | | | ], b as [y | | | ];
    try reflexivity; try discriminate.
  intros _ _ H. apply le_Num. apply lt_Num_false in H. exact H.
Qed.

Lemma clamp_extent_between (x lo hi : number) :
  le lo hi = true ->
  le lo (Demo.clamp_extent x lo hi) = true
  /\ le (Demo.clamp_extent x lo hi) hi = true.
Proof.
  intros H. unfold Demo.clamp_extent.
  assert (Nlo : is_nan lo = false) by (destruct lo, hi; try reflexivity;
                                       discriminate H).
  assert (Nhi : is_nan hi = false) by (destruct lo, hi; try reflexivity;
                                       discriminate H).
  destruct (lt x lo) eqn:A.
  { split; [ apply (le_refl_left _ _ H) | exact H ]. }
  destruct (lt hi x) eqn:B.
  { split; [ exact H | apply (le_refl_right _ _ H) ]. }
  destruct (is_nan x) eqn:C.
  { split; [ apply (le_refl_left _ _ H) | exact H ]. }
  split; apply not_lt_le; assumption.
Qed.

(** The configuration's clamping transform keeps the promise the
    specification makes of the transform algorithm. *)
Lemma clamped_transforms_clamp : clamps_into_sizes Demo.clamped_transforms.
Proof.
  intros p C. unfold consistent in C. apply andb_true_iff in C.
  destruct C as [Cw Ch].
  unfold fits, Demo.clamped_transforms. cbn [width height].
  destruct (clamp_extent_between (width (Demo.run_transforms p)) _ _ Cw)
    as (W1 & W2).
  destruct (clamp_extent_between (height (Demo.run_transforms p)) _ _ Ch)
    as (H1 & H2).
  rewrite W1, W2, H1, H2. reflexivity.
Qed.

Section Properties.

Variable Element : Type.
Variable StencilEvent : Type.
Variable NormalizedEvent : Type.
Variable props : Props Element NormalizedEvent.
Variable core : Core Element StencilEvent NormalizedEvent.
Variable refs : Refs Element.
Variable NODE_ENV : string.

(** *** The scale coefficient *)

(** C4. Whenever [visibleArea] is set, the image-to-screen coefficient is
    [visibleArea.width / boundaries.width]. *)
Theorem coefficient_is_width_ratio (d : Data) (area : Rect) :
  visibleArea d = Val area ->
  coefficient d = div (width area) (to_number (s_width (boundaries d))).
Proof.
  intros H. unfold coefficient. rewrite H. reflexivity.
Qed.

(** The coefficient handed to every algorithm is that same value. *)
Lemma public_coefficient (d : Data) :
  pp_coefficient (getPublicProperties props core refs d) = coefficient d.
Proof. reflexivity. Qed.

(** *** Size restrictions of a cropper that has no room *)

Lemma zero_or_unset_falsy (v : nullable number) :
  zero_or_unset v = true -> to_boolean v = false.
Proof.
  destruct v as [ | | [q | | | ]]; simpl; try reflexivity; try discriminate.
  intros H. rewrite H. reflexivity.
Qed.

Lemma sizeRestrictions_falsy (d : Data) :
  to_boolean (s_width (boundaries d)) && to_boolean (s_height (boundaries d))
  = false ->
  sizeRestrictions props core d = (all_zero, []).
Proof.
  intros H. unfold sizeRestrictions. rewrite H. reflexivity.
Qed.

(** C10. When [boundaries.width] or [boundaries.height] is zero or unset,
    the computed size restrictions are all zero and evaluating them calls
    no algorithm: neither the size-restrictions algorithm nor
    [refineSizeRestrictions] (nor anything else). *)
Theorem sizeRestrictions_without_boundaries (d : Data) :
  zero_or_unset (s_width (boundaries d)) = true
  \/ zero_or_unset (s_height (boundaries d)) = true ->
  value (sizeRestrictions props core d) = all_zero
  /\ calls (sizeRestrictions props core d) = [].
Proof.
  intros H.
  rewrite sizeRestrictions_falsy; [ split; reflexivity | ].
  destruct H as [H | H]; apply zero_or_unset_falsy in H; rewrite H.
  - reflexivity.
  - apply andb_false_r.
Qed.

(** *** The public [zoom] method *)

(** C5. [zoom(factor, center)] hands [onManipulateImage] a
    [ManipulateImageEvent] with an empty move and the scale
    [{factor: 1 / factor, center}]; that event is what gets normalized and
    passed on to [manipulateImage].  A requested zoom above one therefore
    travels as a factor below one. *)
Theorem zoom_dispatches_inverse_factor
  (f : number) (c : nullable Point) (d : Data) :
  let e :=
    ManipulateImageEvent
      {| mv_left := Undefined; mv_top := Undefined |}
      (Val {| factor := div (Num 1) f; center := c |}) in
  let p := getPublicProperties props core refs d in
  zoom props core refs f c d = onManipulateImage props core refs e d
  /\ (exists rest,
        emitted (zoom props core refs f c d)
        = CallNormalizeEvent p e
          :: CallManipulateImage p (normalizeEventAlgorithm core p e)
               (imageRestriction props) (settings_resize_stencil core)
          :: rest)
  /\ (lt (Num 1) f = true -> lt (div (Num 1) f) (Num 1) = true).
Proof.
  intros e p. split; [ reflexivity | split ].
  - unfold zoom, onManipulateImage, normalizeEvent, bind, get, tell, modify.
    cbn. eexists. reflexivity.
  - apply inverse_below_one.
Qed.

(** *** The handle-size minimum of a resize *)

(** C6. On a resize gesture the resize algorithm receives the size
    restrictions with [minWidth] and [minHeight] replaced by their maximum
    with [min(coordinates.width, coordinates.height, 20 * coefficient)]:
    they are never below that value, they are at least that value when no
    [NaN] is involved, the configured minimum is kept whenever it exceeds
    it, and the maxima are passed unchanged. *)
Theorem onResize_raises_minimum (event : Event StencilEvent) (d : Data) :
  let configured := value (sizeRestrictions props core d) in
  let m := handleMinimum d in
  exists p e rest,
    emitted (onResize props core refs event d)
    = CallNormalizeEvent (getPublicProperties props core refs d) event
      :: CallResizeAlgorithm p e :: rest
    /\ final (onResize props core refs event d)
       = final (onChangeCoordinates props core refs
                  (resizeAlgorithm props p e) true d)
    /\ minWidth (pp_sizeRestrictions p) = max2 (minWidth configured) m
    /\ minHeight (pp_sizeRestrictions p) = max2 (minHeight configured) m
    /\ maxWidth (pp_sizeRestrictions p) = maxWidth configured
    /\ maxHeight (pp_sizeRestrictions p) = maxHeight configured
    /\ lt (minWidth (pp_sizeRestrictions p)) m = false
    /\ lt (minHeight (pp_sizeRestrictions p)) m = false
    /\ (is_nan m = false -> is_nan (minWidth configured) = false ->
        le m (minWidth (pp_sizeRestrictions p)) = true)
    /\ (is_nan m = false -> is_nan (minHeight configured) = false ->
        le m (minHeight (pp_sizeRestrictions p)) = true)
    /\ (lt m (minWidth configured) = true ->
        minWidth (pp_sizeRestrictions p) = minWidth configured)
    /\ (lt m (minHeight configured) = true ->
        minHeight (pp_sizeRestrictions p) = minHeight configured).
Proof.
  intros configured m.
  unfold onResize, normalizeEvent, bind, get, tell. cbn.
  do 3 eexists. split; [ reflexivity | ]. split.
  { unfold onChangeCoordinates, bind, modify. cbn.
    destruct (listens_change props); [ | reflexivity ].
    destruct (debounce props); reflexivity. }
  cbn. fold m. fold configured.
  repeat split; try reflexivity.
  - apply max2_not_below.
  - apply max2_not_below.
  - intros Hm Hc. apply max2_at_least; assumption.
  - intros Hm Hc. apply max2_at_least; assumption.
  - apply max2_keeps_larger.
  - apply max2_keeps_larger.
Qed.

(** *** How the methods run *)

Ltac split_ifs :=
  repeat match goal with
         | |- context [if ?b then _ else _] => destruct b
         end.

Lemma onChangeCoordinates_outcome (c : Rect) (b : bool) (d : Data) :
  outcome (onChangeCoordinates props core refs c b d) = Return tt.
Proof.
  unfold onChangeCoordinates, update, getResult, prepareResult, updateCanvas,
    bind, modify, get, tell, ret.
  cbn. split_ifs; reflexivity.
Qed.

Lemma onChangeCoordinates_final (c : Rect) (b : bool) (d : Data) :
  final (onChangeCoordinates props core refs c b d) = set_coordinates c d.
Proof.
  unfold onChangeCoordinates, update, getResult, prepareResult, updateCanvas,
    bind, modify, get, tell, ret.
  cbn. split_ifs; reflexivity.
Qed.

Lemma onChangeCoordinates_notifies (c : Rect) (b : bool) (d : Data) :
  forallb is_notification (emitted (onChangeCoordinates props core refs c b d))
  = true.
Proof.
  unfold onChangeCoordinates, update, getResult, prepareResult, updateCanvas,
    bind, modify, get, tell, ret.
  cbn. split_ifs; reflexivity.
Qed.

Lemma run_eta {A : Type} (r : Run Element StencilEvent NormalizedEvent A) :
  {| outcome := outcome r; final := final r; emitted := emitted r |} = r.
Proof. destruct r; reflexivity. Qed.

Lemma bind_get {B : Type}
  (k : Data -> M Element StencilEvent NormalizedEvent B) (d : Data) :
  bind (get Element StencilEvent NormalizedEvent) k d = k d d.
Proof. unfold bind, get. cbn. apply run_eta. Qed.

Lemma bind_ret {A B : Type}
  (a : A) (k : A -> M Element StencilEvent NormalizedEvent B) (d : Data) :
  bind (ret Element StencilEvent NormalizedEvent a) k d = k a d.
Proof. unfold bind, ret. cbn. apply run_eta. Qed.

Lemma bind_modify {B : Type}
  (f : Data -> Data) (k : unit -> M Element StencilEvent NormalizedEvent B)
  (d : Data) :
  bind (modify Element StencilEvent NormalizedEvent f) k d = k tt (f d).
Proof. unfold bind, modify. cbn. apply run_eta. Qed.

Lemma bind_tell {B : Type}
  (e : Effect Element StencilEvent NormalizedEvent)
  (k : unit -> M Element StencilEvent NormalizedEvent B) (d : Data) :
  bind (tell e) k d
  = {| outcome := outcome (k tt d);
       final := final (k tt d);
       emitted := e :: emitted (k tt d) |}.
Proof. reflexivity. Qed.

Lemma bind_returns {A B : Type}
  (m : M Element StencilEvent NormalizedEvent A)
  (k : A -> M Element StencilEvent NormalizedEvent B) (d : Data) (a : A) :
  outcome (m d) = Return a ->
  bind m k d
  = {| outcome := outcome (k a (final (m d)));
       final := final (k a (final (m d)));
       emitted := emitted (m d) ++ emitted (k a (final (m d))) |}.
Proof.
  intros H. unfold bind. rewrite H. reflexivity.
Qed.

Lemma bind_run {A B : Type}
  {m : M Element StencilEvent NormalizedEvent A}
  (k : A -> M Element StencilEvent NormalizedEvent B)
  {d d' : Data} {a : A}
  {l : list (Effect Element StencilEvent NormalizedEvent)} :
  m d = {| outcome := Return a; final := d'; emitted := l |} ->
  bind m k d
  = {| outcome := outcome (k a d');
       final := final (k a d');
       emitted := l ++ emitted (k a d') |}.
Proof.
  intros H. unfold bind. rewrite H. reflexivity.
Qed.

Lemma bind_assoc {A B C : Type}
  (m : M Element StencilEvent NormalizedEvent A)
  (f : A -> M Element StencilEvent NormalizedEvent B)
  (k : B -> M Element StencilEvent NormalizedEvent C) (d : Data) :
  bind (bind m f) k d = bind m (fun a => bind (f a) k) d.
Proof.
  unfold bind. destruct (outcome (m d)) as [a | e]; cbn; [ | reflexivity ].
  destruct (outcome (f a (final (m d)))); cbn.
  - rewrite app_assoc. reflexivity.
  - reflexivity.
Qed.

Ltac finish_run :=
  cbn [outcome final emitted modify ret tell throw get app];
  rewrite ?app_nil_r; reflexivity.

(** [applyTransform] without auto-zoom stores what the algorithm returns. *)
Lemma applyTransform_run (t : Transforms) (limited : bool) (d : Data) :
  let p := transformParams props core refs d t limited in
  let c := applyTransformAlgorithm core p in
  applyTransform props core refs t false limited d
  = {| outcome := Return c;
       final := set_coordinates c d;
       emitted :=
         CallApplyTransform p
         :: emitted (onChangeCoordinates props core refs c false d) |}.
Proof.
  intros p c. unfold applyTransform.
  rewrite bind_get, bind_tell, bind_ret. fold p. fold c.
  rewrite (bind_returns _ _ _ tt (onChangeCoordinates_outcome c false d)).
  rewrite onChangeCoordinates_final.
  cbn [ret outcome final emitted]. rewrite app_nil_r. reflexivity.
Qed.

Lemma resetCoordinates_unmounted (d : Data) :
  is_set (ref_image refs) = false ->
  resetCoordinates props core refs NODE_ENV d
  = {| outcome := Return tt; final := d; emitted := [] |}.
Proof.
  intros H. unfold resetCoordinates. rewrite H. reflexivity.
Qed.

(** A mounted component resets its coordinates to what
    [algorithms.applyTransform] makes of the default size, the default
    position and the pending transforms, under restrictions limited by
    the visible area. *)
Lemma resetCoordinates_run (d : Data) :
  is_set (ref_image refs) = true ->
  let p := transformParams props core refs d
             (resetTransforms props core refs d) true in
  let c := applyTransformAlgorithm core p in
  resetCoordinates props core refs NODE_ENV d
  = {| outcome := Return tt;
       final := set_delayedTransforms Null (set_coordinates c d);
       emitted :=
         sizeQuery props core refs d
         ++ sizeWarning props core refs NODE_ENV d
         ++ CallApplyTransform p
            :: emitted (onChangeCoordinates props core refs c false d) |}.
Proof.
  intros H p c. unfold resetCoordinates. rewrite H. cbn [negb].
  rewrite bind_get. unfold sizeQuery, sizeWarning.
  destruct (defaultSize props) as [f | o] eqn:Hs.
  - rewrite bind_assoc, bind_tell, bind_ret.
    destruct ((NODE_ENV =? "development")
              && breaks_restrictions (chosenDefaultSize props core refs d)
                   (value (sizeRestrictions props core d))).
    + rewrite bind_tell.
      rewrite (bind_run _ (applyTransform_run _ true d)).
      finish_run.
    + rewrite bind_ret.
      rewrite (bind_run _ (applyTransform_run _ true d)).
      finish_run.
  - rewrite bind_ret.
    destruct ((NODE_ENV =? "development")
              && breaks_restrictions (chosenDefaultSize props core refs d)
                   (value (sizeRestrictions props core d))).
    + rewrite bind_tell.
      rewrite (bind_run _ (applyTransform_run _ true d)).
      finish_run.
    + rewrite bind_ret.
      rewrite (bind_run _ (applyTransform_run _ true d)).
      finish_run.
Qed.

Lemma bind_run_throw {A B : Type}
  {m : M Element StencilEvent NormalizedEvent A}
  (k : A -> M Element StencilEvent NormalizedEvent B)
  {d d' : Data} {e : JsError}
  {l : list (Effect Element StencilEvent NormalizedEvent)} :
  m d = {| outcome := Throw e; final := d'; emitted := l |} ->
  bind m k d = {| outcome := Throw e; final := d'; emitted := l |}.
Proof.
  intros H. unfold bind. rewrite H. reflexivity.
Qed.

Lemma catch_run {A : Type}
  {m : M Element StencilEvent NormalizedEvent A}
  (h : JsError -> M Element StencilEvent NormalizedEvent A)
  {d d' : Data} {a : A}
  {l : list (Effect Element StencilEvent NormalizedEvent)} :
  m d = {| outcome := Return a; final := d'; emitted := l |} ->
  catch m h d = {| outcome := Return a; final := d'; emitted := l |}.
Proof.
  intros H. unfold catch. rewrite H. reflexivity.
Qed.

Lemma catch_run_throw {A : Type}
  {m : M Element StencilEvent NormalizedEvent A}
  (h : JsError -> M Element StencilEvent NormalizedEvent A)
  {d d' : Data} {e : JsError}
  {l : list (Effect Element StencilEvent NormalizedEvent)} :
  m d = {| outcome := Throw e; final := d'; emitted := l |} ->
  catch m h d
  = {| outcome := outcome (h e d');
       final := final (h e d');
       emitted := l ++ emitted (h e d') |}.
Proof.
  intros H. unfold catch. rewrite H. reflexivity.
Qed.

(** [updateBoundaries] stores the computed boundaries, then throws when
    one of its dimensions is falsy. *)
Lemma updateBoundaries_run (d : Data) :
  let b := computedBoundaries props core refs d in
  updateBoundaries props core refs d
  = {| outcome :=
         if to_boolean (s_width b) && to_boolean (s_height b)
         then Return tt else Throw (Error cannot_fit);
       final := set_boundaries b d;
       emitted := [CallInitStretcher (imageSize d); CallBoundaries b] |}.
Proof.
  intros b. unfold updateBoundaries.
  rewrite bind_get, bind_tell, bind_tell, bind_modify. fold b.
  destruct (to_boolean (s_width b)), (to_boolean (s_height b)); reflexivity.
Qed.

Lemma resetCoordinates_outcome (d : Data) :
  outcome (resetCoordinates props core refs NODE_ENV d) = Return tt.
Proof.
  destruct (is_set (ref_image refs)) eqn:H.
  - rewrite (resetCoordinates_run d H). reflexivity.
  - rewrite (resetCoordinates_unmounted d H). reflexivity.
Qed.

Lemma resetCoordinates_keeps_area (d : Data) :
  visibleArea (final (resetCoordinates props core refs NODE_ENV d))
  = visibleArea d.
Proof.
  destruct (is_set (ref_image refs)) eqn:H.
  - rewrite (resetCoordinates_run d H). reflexivity.
  - rewrite (resetCoordinates_unmounted d H). reflexivity.
Qed.

Lemma resetCoordinates_eta (d : Data) :
  resetCoordinates props core refs NODE_ENV d
  = {| outcome := Return tt;
       final := final (resetCoordinates props core refs NODE_ENV d);
       emitted := emitted (resetCoordinates props core refs NODE_ENV d) |}.
Proof.
  rewrite <- (resetCoordinates_outcome d). symmetry. apply run_eta.
Qed.

(** A reset whose boundaries cannot be computed ends in the handler. *)
Lemma resetVisibleArea_failed (d : Data) :
  let b := computedBoundaries props core refs d in
  to_boolean (s_width b) && to_boolean (s_height b) = false ->
  resetVisibleArea props core refs NODE_ENV d
  = {| outcome := Return tt;
       final := set_visibleArea Null (set_boundaries b d);
       emitted := [CallInitStretcher (imageSize d); CallBoundaries b] |}.
Proof.
  intros b H. unfold resetVisibleArea.
  assert (R := updateBoundaries_run d). cbv zeta in R. fold b in R.
  rewrite H in R.
  rewrite (catch_run_throw _ (bind_run_throw _ R)). finish_run.
Qed.

Lemma updateVisibleArea_failed (d : Data) :
  let b := computedBoundaries props core refs d in
  to_boolean (s_width b) && to_boolean (s_height b) = false ->
  updateVisibleArea props core refs d
  = {| outcome := Return tt;
       final := set_visibleArea Null (set_boundaries b d);
       emitted := [CallInitStretcher (imageSize d); CallBoundaries b] |}.
Proof.
  intros b H. unfold updateVisibleArea.
  assert (R := updateBoundaries_run d). cbv zeta in R. fold b in R.
  rewrite H in R.
  rewrite (catch_run_throw _ (bind_run_throw _ R)). finish_run.
Qed.

(** A refresh that has room fits the visible area, then the coordinates
    to the fitted area. *)
Lemma updateVisibleArea_run (d : Data) :
  let b := computedBoundaries props core refs d in
  to_boolean (s_width b) && to_boolean (s_height b) = true ->
  let d1 := set_boundaries b d in
  let area := fitVisibleArea props (fitVisibleAreaParams props d1) in
  let d2 := set_visibleArea area d1 in
  let crop := fitCoordinates props (fitCoordinatesParams props core refs d2) in
  updateVisibleArea props core refs d
  = {| outcome := Return tt;
       final := set_coordinates crop d2;
       emitted :=
         [CallInitStretcher (imageSize d); CallBoundaries b;
          CallFitVisibleArea (fitVisibleAreaParams props d1);
          CallFitCoordinates (fitCoordinatesParams props core refs d2)] |}.
Proof.
  intros b H d1 area d2 crop. unfold updateVisibleArea.
  assert (R := updateBoundaries_run d). cbv zeta in R. fold b in R.
  rewrite H in R.
  apply catch_run.
  rewrite (bind_run _ R).
  rewrite bind_get, bind_tell, bind_modify, bind_get, bind_tell.
  finish_run.
Qed.

(** A reset that has room, when the coordinates have priority (the
    default): the visible area is cleared, the coordinates are reset, and
    only then is the visible area derived from them. *)
Lemma resetVisibleArea_coordinates_first (d : Data) :
  let b := computedBoundaries props core refs d in
  to_boolean (s_width b) && to_boolean (s_height b) = true ->
  (priority props =? "visibleArea")%string = false ->
  let d2 := set_visibleArea Undefined (set_boundaries b d) in
  let r := resetCoordinates props core refs NODE_ENV d2 in
  let d3 := final r in
  let candidate := candidateVisibleArea props d3 in
  let limits := value (areaRestrictions props d3) in
  resetVisibleArea props core refs NODE_ENV d
  = {| outcome := Return tt;
       final :=
         set_visibleArea
           (Val (refineVisibleArea core candidate (boundaries d3) limits)) d3;
       emitted :=
         [CallInitStretcher (imageSize d); CallBoundaries b]
         ++ emitted r
         ++ areaQuery StencilEvent props d3
         ++ [CallRefineVisibleArea candidate (boundaries d3) limits] |}.
Proof.
  intros b H P d2 r d3 candidate limits. unfold resetVisibleArea.
  assert (R := updateBoundaries_run d). cbv zeta in R. fold b in R.
  rewrite H in R.
  apply catch_run.
  rewrite (bind_run _ R). rewrite P. cbn [negb].
  rewrite bind_assoc, bind_modify. fold d2.
  rewrite (bind_run _ (resetCoordinates_eta d2)). fold r. fold d3.
  rewrite bind_get. unfold areaQuery.
  destruct (defaultVisibleArea props) as [f | o].
  - rewrite bind_assoc, bind_tell, bind_ret, bind_tell, bind_modify.
    finish_run.
  - rewrite bind_ret, bind_tell, bind_modify. finish_run.
Qed.

(** A reset that has room, when the visible area has priority: the
    visible area is refined first and the coordinates are reset in it. *)
Lemma resetVisibleArea_area_first (d : Data) :
  let b := computedBoundaries props core refs d in
  to_boolean (s_width b) && to_boolean (s_height b) = true ->
  (priority props =? "visibleArea")%string = true ->
  let d1 := set_boundaries b d in
  let candidate := candidateVisibleArea props d1 in
  let limits := value (areaRestrictions props d1) in
  let d2 :=
    set_visibleArea
      (Val (refineVisibleArea core candidate (boundaries d1) limits)) d1 in
  let r := resetCoordinates props core refs NODE_ENV d2 in
  resetVisibleArea props core refs NODE_ENV d
  = {| outcome := Return tt;
       final := final r;
       emitted :=
         [CallInitStretcher (imageSize d); CallBoundaries b]
         ++ areaQuery StencilEvent props d1
         ++ [CallRefineVisibleArea candidate (boundaries d1) limits]
         ++ emitted r |}.
Proof.
  intros b H P d1 candidate limits d2 r. unfold resetVisibleArea.
  assert (R := updateBoundaries_run d). cbv zeta in R. fold b in R.
  rewrite H in R.
  apply catch_run.
  rewrite (bind_run _ R). rewrite P. cbn [negb]. fold d1.
  rewrite bind_ret, bind_get. unfold areaQuery.
  destruct (defaultVisibleArea props) as [f | o].
  - rewrite bind_assoc, bind_tell, bind_ret, bind_tell, bind_modify.
    cbv beta iota. fold candidate. fold limits. fold d2. fold r.
    subst r. rewrite (resetCoordinates_eta d2). finish_run.
  - rewrite bind_ret, bind_tell, bind_modify.
    cbv beta iota. fold candidate. fold limits. fold d2. fold r.
    subst r. rewrite (resetCoordinates_eta d2). finish_run.
Qed.

(** *** Reading the record of calls *)

Lemma stages_app (l l' : list (Effect Element StencilEvent NormalizedEvent)) :
  stages (l ++ l') = stages l ++ stages l'.
Proof.
  induction l as [ | e l IH]; [ reflexivity | ].
  cbn [app stages]. destruct (stage_of e); rewrite IH; reflexivity.
Qed.

Lemma size_call_areas_app
  (l l' : list (Effect Element StencilEvent NormalizedEvent)) :
  size_call_areas (l ++ l') = size_call_areas l ++ size_call_areas l'.
Proof.
  induction l as [ | e l IH]; [ reflexivity | ].
  cbn [app size_call_areas]. destruct e; rewrite IH; reflexivity.
Qed.

Lemma applied_transforms_app
  (l l' : list (Effect Element StencilEvent NormalizedEvent)) :
  applied_transforms (l ++ l')
  = applied_transforms l ++ applied_transforms l'.
Proof.
  induction l as [ | e l IH]; [ reflexivity | ].
  cbn [app applied_transforms]. destruct e; rewrite IH; reflexivity.
Qed.

(** Notifications belong to no stage, fit nothing and warn of nothing. *)
Lemma notifications_silent
  (l : list (Effect Element StencilEvent NormalizedEvent)) :
  forallb is_notification l = true ->
  stages l = [] /\ size_call_areas l = [] /\ applied_transforms l = []
  /\ existsb is_fit l = false /\ existsb is_warning l = false.
Proof.
  induction l as [ | e l IH]; [ repeat split | ].
  cbn [forallb]. intros H. apply andb_true_iff in H. destruct H as [He Hl].
  destruct (IH Hl) as (I1 & I2 & I3 & I4 & I5).
  destruct e; try discriminate He; cbn; repeat split; assumption.
Qed.

Lemma sizeQuery_stages (d : Data) :
  stages (sizeQuery props core refs d)
  = match defaultSize props with Fn _ => [DefaultSize] | Obj _ => [] end.
Proof. unfold sizeQuery. destruct (defaultSize props); reflexivity. Qed.

Lemma sizeWarning_stages (d : Data) :
  stages (sizeWarning props core refs NODE_ENV d) = [].
Proof. unfold sizeWarning. split_ifs; reflexivity. Qed.

Lemma areaQuery_stages (d : Data) :
  stages (areaQuery StencilEvent props d) = [].
Proof. unfold areaQuery. destruct (defaultVisibleArea props); reflexivity. Qed.

(** The stages of a coordinate reset: the default size is asked for (when
    it is a function), then the transforms are applied. *)
Lemma resetCoordinates_stages (d : Data) :
  is_set (ref_image refs) = true ->
  stages (emitted (resetCoordinates props core refs NODE_ENV d))
  = match defaultSize props with Fn _ => [DefaultSize] | Obj _ => [] end
    ++ [ApplyTransform].
Proof.
  intros H. rewrite (resetCoordinates_run d H). cbn [emitted].
  rewrite !stages_app, sizeQuery_stages, sizeWarning_stages.
  cbn [stages stage_of app].
  destruct (notifications_silent _ (onChangeCoordinates_notifies
    (applyTransformAlgorithm core
       (transformParams props core refs d
          (resetTransforms props core refs d) true)) false d)) as (S & _).
  rewrite S. reflexivity.
Qed.

Lemma positive_truthy (v : nullable number) :
  positive v = true -> to_boolean v = true.
Proof.
  destruct v as [ | | [q | | | ]]; try discriminate; try reflexivity.
  intros H. apply lt_Num in H. cbn.
  destruct (Qeq_bool q 0) eqn:E; [ | reflexivity ].
  apply Qeq_bool_eq in E. rewrite E in H. discriminate H.
Qed.

Lemma refresh_run (d : Data) :
  refresh props core refs NODE_ENV d
  = if truthy_string (src props) && is_set (ref_image refs)
    then if initialized d
         then updateVisibleArea props core refs d
         else reset props core refs NODE_ENV d
    else ret Element StencilEvent NormalizedEvent tt d.
Proof.
  unfold refresh.
  destruct (truthy_string (src props) && is_set (ref_image refs));
    [ | reflexivity ].
  rewrite bind_get. destruct (initialized d); reflexivity.
Qed.

(** *** The boundaries that cannot be computed *)

(** C1. When the computed boundaries have a zero or unset width or
    height, [updateBoundaries] throws an [Error] that carries the fixed
    message and nothing else; [reset], [updateVisibleArea] and [refresh]
    catch it and leave [visibleArea] null.  When both dimensions are
    positive, [updateBoundaries] returns normally: nothing is thrown, a
    reset ends with a visible area set and a refresh with the area that
    [fitVisibleArea] returned. *)
Theorem cannot_fit_raised_and_caught (d : Data) :
  let b := computedBoundaries props core refs d in
  (zero_or_unset (s_width b) || zero_or_unset (s_height b) = true ->
   outcome (updateBoundaries props core refs d) = Throw (Error cannot_fit)
   /\ outcome (reset props core refs NODE_ENV d) = Return tt
   /\ visibleArea (final (reset props core refs NODE_ENV d)) = Null
   /\ outcome (updateVisibleArea props core refs d) = Return tt
   /\ visibleArea (final (updateVisibleArea props core refs d)) = Null
   /\ (truthy_string (src props) && is_set (ref_image refs) = true ->
       visibleArea (final (refresh props core refs NODE_ENV d)) = Null))
  /\ (positive (s_width b) && positive (s_height b) = true ->
      outcome (updateBoundaries props core refs d) = Return tt
      /\ is_set (visibleArea (final (reset props core refs NODE_ENV d))) = true
      /\ visibleArea (final (updateVisibleArea props core refs d))
         = fitVisibleArea props
             (fitVisibleAreaParams props (set_boundaries b d))).
Proof.
  intros b. split.
  - intros H.
    assert (F : to_boolean (s_width b) && to_boolean (s_height b) = false).
    { apply orb_true_iff in H. destruct H as [H | H];
        apply zero_or_unset_falsy in H; rewrite H;
        [ reflexivity | apply andb_false_r ]. }
    assert (R := resetVisibleArea_failed d F).
    assert (U := updateVisibleArea_failed d F).
    fold b in R, U. unfold reset.
    rewrite updateBoundaries_run. fold b. rewrite F, R, U.
    repeat split.
    intros M. rewrite refresh_run, M. unfold reset.
    destruct (initialized d); [ rewrite U | rewrite R ]; reflexivity.
  - intros H. apply andb_true_iff in H. destruct H as [Hw Hh].
    apply positive_truthy in Hw, Hh.
    assert (T : to_boolean (s_width b) && to_boolean (s_height b) = true)
      by (rewrite Hw, Hh; reflexivity).
    rewrite updateBoundaries_run. fold b. rewrite T.
    split; [ reflexivity | split ].
    + unfold reset.
      destruct (priority props =? "visibleArea")%string eqn:P.
      * rewrite (resetVisibleArea_area_first d T P). cbn [final].
        rewrite resetCoordinates_keeps_area. reflexivity.
      * rewrite (resetVisibleArea_coordinates_first d T P). reflexivity.
    + rewrite (updateVisibleArea_run d T). reflexivity.
Qed.

(** *** The order of a reset *)

Lemma resetCoordinates_transforms (d : Data) :
  is_set (ref_image refs) = true ->
  applied_transforms (emitted (resetCoordinates props core refs NODE_ENV d))
  = [resetTransforms props core refs d]
  /\ size_call_areas (emitted (resetCoordinates props core refs NODE_ENV d))
     = match defaultSize props with
       | Fn _ => [visibleArea d]
       | Obj _ => []
       end.
Proof.
  intros H. rewrite (resetCoordinates_run d H). cbn [emitted].
  rewrite !applied_transforms_app, !size_call_areas_app.
  destruct (notifications_silent _ (onChangeCoordinates_notifies
    (applyTransformAlgorithm core
       (transformParams props core refs d
          (resetTransforms props core refs d) true)) false d))
    as (_ & S & A & _).
  cbn [applied_transforms size_call_areas]. rewrite S, A.
  unfold sizeQuery, sizeWarning.
  destruct (defaultSize props);
    destruct ((NODE_ENV =? "development")%string
              && breaks_restrictions (chosenDefaultSize props core refs d)
                   (value (sizeRestrictions props core d)));
    split; reflexivity.
Qed.

Lemma resetCoordinates_applies (d : Data) :
  is_set (ref_image refs) = true ->
  In (CallApplyTransform
        (transformParams props core refs d
           (resetTransforms props core refs d) true))
     (emitted (resetCoordinates props core refs NODE_ENV d)).
Proof.
  intros H. rewrite (resetCoordinates_run d H). cbn [emitted].
  apply in_or_app. right. apply in_or_app. right. left. reflexivity.
Qed.

Lemma areaQuery_silent (d : Data) :
  applied_transforms (areaQuery StencilEvent props d) = []
  /\ size_call_areas (areaQuery StencilEvent props d) = [].
Proof.
  unfold areaQuery. destruct (defaultVisibleArea props); split; reflexivity.
Qed.

(** C2, as the code has it.  For a reset of a mounted component whose
    boundaries can be computed, the boundaries always come first.  When
    [priority] is ["visibleArea"], the visible area is then set through
    [refineVisibleArea] and only then are the default coordinates derived
    and clamped through [applyTransform], in a state whose visible area
    is set.  Otherwise (the default, ["coordinates"]) the visible area is
    cleared, the coordinates are derived and clamped first, in a state
    whose visible area is undefined, and [refineVisibleArea] comes last.
    In both cases the transforms applied are the default size, then the
    default position, then the pending transforms, and the restrictions
    handed to [applyTransform] are the ones computed in that state, which
    has the new boundaries. *)
Theorem reset_order_follows_priority (d : Data) :
  let b := computedBoundaries props core refs d in
  let l := emitted (reset props core refs NODE_ENV d) in
  let asked :=
    match defaultSize props with Fn _ => [DefaultSize] | Obj _ => [] end in
  is_set (ref_image refs) = true ->
  to_boolean (s_width b) && to_boolean (s_height b) = true ->
  ((priority props =? "visibleArea")%string = true ->
   stages l = [Boundaries; RefineVisibleArea] ++ asked ++ [ApplyTransform]
   /\ exists (at_reset : Data) (area : Rect),
        visibleArea at_reset = Val area
        /\ boundaries at_reset = b
        /\ applied_transforms l = [resetTransforms props core refs at_reset]
        /\ In (CallApplyTransform
                 (transformParams props core refs at_reset
                    (resetTransforms props core refs at_reset) true)) l
        /\ size_call_areas l
           = match defaultSize props with
             | Fn _ => [Val area]
             | Obj _ => []
             end)
  /\ ((priority props =? "visibleArea")%string = false ->
      stages l = [Boundaries] ++ asked ++ [ApplyTransform; RefineVisibleArea]
      /\ exists at_reset : Data,
           visibleArea at_reset = Undefined
           /\ boundaries at_reset = b
           /\ applied_transforms l = [resetTransforms props core refs at_reset]
           /\ In (CallApplyTransform
                    (transformParams props core refs at_reset
                       (resetTransforms props core refs at_reset) true)) l
           /\ size_call_areas l
              = match defaultSize props with
                | Fn _ => [Undefined]
                | Obj _ => []
                end).
Proof.
  intros b l asked M T. subst l. unfold reset. split; intros P.
  - rewrite (resetVisibleArea_area_first d T P). cbn [emitted]. fold b.
    set (d1 := set_boundaries b d).
    set (area := refineVisibleArea core (candidateVisibleArea props d1)
                   (boundaries d1) (value (areaRestrictions props d1))).
    set (d2 := set_visibleArea (Val area) d1).
    destruct (areaQuery_silent d1) as (Qa & Qs).
    destruct (resetCoordinates_transforms d2 M) as (Ra & Rs).
    split.
    + rewrite !stages_app, areaQuery_stages, (resetCoordinates_stages d2 M).
      reflexivity.
    + exists d2, area. repeat split.
      * rewrite !applied_transforms_app, Qa, Ra. reflexivity.
      * apply in_or_app. right. apply in_or_app. right.
        apply in_or_app. right. apply (resetCoordinates_applies d2 M).
      * rewrite !size_call_areas_app, Qs, Rs.
        destruct (defaultSize props); reflexivity.
  - rewrite (resetVisibleArea_coordinates_first d T P). cbn [emitted]. fold b.
    set (d2 := set_visibleArea Undefined (set_boundaries b d)).
    set (d3 := final (resetCoordinates props core refs NODE_ENV d2)).
    destruct (areaQuery_silent d3) as (Qa & Qs).
    destruct (resetCoordinates_transforms d2 M) as (Ra & Rs).
    split.
    + rewrite !stages_app, areaQuery_stages, (resetCoordinates_stages d2 M).
      destruct (defaultSize props); reflexivity.
    + exists d2. repeat split.
      * rewrite !applied_transforms_app, Qa, Ra. reflexivity.
      * apply in_or_app. right. apply in_or_app. left.
        apply (resetCoordinates_applies d2 M).
      * rewrite !size_call_areas_app, Qs, Rs.
        destruct (defaultSize props); reflexivity.
Qed.

(** *** The default size that breaks the restrictions *)

Lemma existsb_cons {A : Type} (f : A -> bool) (x : A) (l : list A) :
  existsb f (x :: l) = f x || existsb f l.
Proof. reflexivity. Qed.

Lemma resetCoordinates_warns (d : Data) :
  is_set (ref_image refs) = true ->
  existsb is_warning (emitted (resetCoordinates props core refs NODE_ENV d))
  = (NODE_ENV =? "development")%string
    && breaks_restrictions (chosenDefaultSize props core refs d)
         (value (sizeRestrictions props core d)).
Proof.
  intros H. rewrite (resetCoordinates_run d H). cbn [emitted].
  destruct (notifications_silent _ (onChangeCoordinates_notifies
    (applyTransformAlgorithm core
       (transformParams props core refs d
          (resetTransforms props core refs d) true)) false d))
    as (_ & _ & _ & _ & W).
  revert W.
  generalize (emitted (onChangeCoordinates props core refs
    (applyTransformAlgorithm core
       (transformParams props core refs d
          (resetTransforms props core refs d) true)) false d)).
  intros n W.
  rewrite !existsb_app, existsb_cons, W. unfold sizeQuery, sizeWarning.
  destruct (defaultSize props);
    destruct ((NODE_ENV =? "development")%string
              && breaks_restrictions (chosenDefaultSize props core refs d)
                   (value (sizeRestrictions props core d)));
    reflexivity.
Qed.

(** C7. When the default size breaks the size restrictions, a reset of
    the coordinates warns on the console exactly when [NODE_ENV] is
    ["development"], hence never in a production build.  Whatever the
    build, nothing is thrown: the default size, the default position and
    the pending transforms go to [algorithms.applyTransform] together with
    the size restrictions (limited to the visible area where there is
    one), and what it returns becomes the coordinates.  With a transform
    algorithm that clamps, as the specification has it, the coordinates
    stored therefore meet those size restrictions although the default
    size did not. *)
Theorem default_size_warning_outside_production (d : Data) :
  let r := resetCoordinates props core refs NODE_ENV d in
  let sizes :=
    match visibleArea d with
    | Val area =>
        limitSizeRestrictions core (value (sizeRestrictions props core d)) area
    | _ => value (sizeRestrictions props core d)
    end in
  let params :=
    {| atp_coordinates := coordinates d;
       atp_transform :=
         Array (TObject (chosenDefaultSize props core refs d)
                :: positionTransform props d :: pendingTransforms d);
       atp_sizeRestrictions := sizes;
       atp_positionRestrictions :=
         if is_set (visibleArea d)
         then limitBy core (value (positionRestrictions props d))
                (visibleArea d)
         else value (positionRestrictions props d);
       atp_aspectRatio := getAspectRatio props refs;
       atp_imageSize := imageSize d |} in
  is_set (ref_image refs) = true ->
  breaks_restrictions (chosenDefaultSize props core refs d)
    (value (sizeRestrictions props core d)) = true ->
  (existsb is_warning (emitted r) = true <-> NODE_ENV = "development")
  /\ (existsb is_warning (emitted r) = true -> NODE_ENV <> "production")
  /\ (NODE_ENV = "production" -> existsb is_warning (emitted r) = false)
  /\ outcome r = Return tt
  /\ applied_transforms (emitted r) = [atp_transform params]
  /\ In (CallApplyTransform params) (emitted r)
  /\ coordinates (final r) = applyTransformAlgorithm core params
  /\ (clamps_into_sizes (applyTransformAlgorithm core) ->
      consistent sizes = true ->
      fits sizes (coordinates (final r)) = true).
Proof.
  intros r sizes params M B. subst r.
  rewrite (resetCoordinates_warns d M), B, andb_true_r, String.eqb_eq.
  split; [ reflexivity | ].
  split; [ intros E; rewrite E; discriminate | ].
  split.
  { intros E. rewrite E. reflexivity. }
  split; [ apply resetCoordinates_outcome | ].
  split; [ apply (resetCoordinates_transforms d M) | ].
  rewrite (resetCoordinates_run d M).
  cbn [final emitted coordinates set_delayedTransforms set_coordinates].
  change (transformParams props core refs d
            (resetTransforms props core refs d) true) with params.
  split.
  { apply in_or_app. right. apply in_or_app. right. left. reflexivity. }
  split; [ reflexivity | ].
  intros Clamps C. apply (Clamps params). exact C.
Qed.

(** *** Refreshing, and what a gesture does not do *)

Lemma gestures_fit_nothing (event : Event StencilEvent) (d : Data) :
  existsb is_fit (emitted (onMove props core refs event d)) = false
  /\ existsb is_fit (emitted (onResize props core refs event d)) = false
  /\ existsb is_fit (emitted (onManipulateImage props core refs event d))
     = false.
Proof.
  unfold onMove, onResize, onManipulateImage, normalizeEvent.
  repeat split.
  - rewrite bind_get, bind_assoc, bind_get, bind_assoc, bind_tell, bind_ret,
      bind_tell.
    cbn [emitted]. rewrite !existsb_cons. cbn [is_fit orb].
    apply notifications_silent, onChangeCoordinates_notifies.
  - rewrite bind_get, bind_assoc, bind_get, bind_assoc, bind_tell, bind_ret,
      bind_tell.
    cbn [emitted]. rewrite !existsb_cons. cbn [is_fit orb].
    apply notifications_silent, onChangeCoordinates_notifies.
  - rewrite bind_get, bind_assoc, bind_get, bind_assoc, bind_tell, bind_ret,
      bind_tell, bind_modify.
    cbn [emitted]. rewrite !existsb_cons. cbn [is_fit orb].
    apply notifications_silent, onChangeCoordinates_notifies.
Qed.

(** C8, as the code has it.  Refreshing an initialized cropper recomputes
    the boundaries first.  When they have a width and a height it then
    calls [fitVisibleArea] on the image size, the new boundaries, the
    current visible area, the current coordinates and the area
    restrictions, and stores the result; then it calls [fitCoordinates] on
    that refreshed visible area, the current coordinates, the aspect ratio
    and the position and size restrictions as they are under the refreshed
    visible area, and stores the result; nothing else is called.  When the
    boundaries have no width or no height the refresh stops after them:
    no fit algorithm is called and the visible area becomes [null].  The
    gesture handlers [onMove], [onResize] and [onManipulateImage] call
    neither fit algorithm. *)
Theorem refresh_fits_area_then_coordinates (d : Data) :
  let b := computedBoundaries props core refs d in
  let d1 := set_boundaries b d in
  let window :=
    {| fvp_imageSize := imageSize d;
       fvp_boundaries := b;
       fvp_visibleArea := visibleArea d;
       fvp_coordinates := coordinates d;
       fvp_areaRestrictions := value (areaRestrictions props d1) |} in
  let area := fitVisibleArea props window in
  let d2 := set_visibleArea area d1 in
  let crop :=
    {| fcp_visibleArea := area;
       fcp_coordinates := coordinates d;
       fcp_aspectRatio := getAspectRatio props refs;
       fcp_positionRestrictions := value (positionRestrictions props d2);
       fcp_sizeRestrictions := value (sizeRestrictions props core d2) |} in
  truthy_string (src props) && is_set (ref_image refs) = true ->
  initialized d = true ->
  (to_boolean (s_width b) && to_boolean (s_height b) = true ->
   emitted (refresh props core refs NODE_ENV d)
   = [CallInitStretcher (imageSize d); CallBoundaries b;
      CallFitVisibleArea window; CallFitCoordinates crop]
   /\ final (refresh props core refs NODE_ENV d)
      = set_coordinates (fitCoordinates props crop) d2)
  /\ (to_boolean (s_width b) && to_boolean (s_height b) = false ->
      emitted (refresh props core refs NODE_ENV d)
      = [CallInitStretcher (imageSize d); CallBoundaries b]
      /\ final (refresh props core refs NODE_ENV d)
         = set_visibleArea Null d1)
  /\ (forall event : Event StencilEvent,
        existsb is_fit (emitted (onMove props core refs event d)) = false
        /\ existsb is_fit (emitted (onResize props core refs event d)) = false
        /\ existsb is_fit
             (emitted (onManipulateImage props core refs event d)) = false).
Proof.
  intros b d1 window area d2 crop M I.
  rewrite refresh_run, M, I.
  split; [ | split ].
  - intros T. rewrite (updateVisibleArea_run d T). split; reflexivity.
  - intros F. rewrite (updateVisibleArea_failed d F). split; reflexivity.
  - intros event. apply gestures_fit_nothing.
Qed.

End Properties.

(* ===================================================================== *)
(** ** Rounding *)
(* ===================================================================== *)

Lemma Qfloor_unique (x : Q) (z : Z) :
  inject_Z z <= x -> x < inject_Z (z + 1) -> Qfloor x = z.
Proof.
  intros Hlo Hhi.
  assert (A : inject_Z (Qfloor x) <= x) by apply Qfloor_le.
  assert (B : x < inject_Z (Qfloor x + 1)) by apply Qlt_floor.
  assert (C : (z < Qfloor x + 1)%Z).
  { rewrite Zlt_Qlt. apply Qle_lt_trans with x; assumption. }
  assert (D : (Qfloor x < z + 1)%Z).
  { rewrite Zlt_Qlt. apply Qle_lt_trans with x; assumption. }
  lia.
Qed.

Lemma Qfloor_shift (x : Q) (z : Z) :
  Qfloor (x + inject_Z z) = (Qfloor x + z)%Z.
Proof.
  apply Qfloor_unique.
  - rewrite inject_Z_plus. apply Qplus_le_l. apply Qfloor_le.
  - replace (Qfloor x + z + 1)%Z with ((Qfloor x + 1) + z)%Z by lia.
    rewrite inject_Z_plus. apply Qplus_lt_l. apply Qlt_floor.
Qed.

(** [Math.round] on rationals. *)
Lemma round_Num (x : Q) : round (Num x) = Num (inject_Z (Qfloor (x + (1 # 2)))).
Proof. reflexivity. Qed.

Lemma nearest_monotone (x y : Q) :
  x <= y ->
  inject_Z (Qfloor (x + (1 # 2))) <= inject_Z (Qfloor (y + (1 # 2))).
Proof.
  intros H. rewrite <- Zle_Qle. apply Qfloor_resp_le.
  apply Qplus_le_l. exact H.
Qed.

Lemma nearest_whole (z : Z) : Qfloor (inject_Z z + (1 # 2)) = z.
Proof.
  apply Qfloor_unique.
  - rewrite <- (Qplus_0_r (inject_Z z)) at 1.
    apply Qplus_le_r. discriminate.
  - rewrite inject_Z_plus. apply Qplus_lt_r. reflexivity.
Qed.

Lemma nearest_shift (x : Q) (z : Z) :
  Qfloor (x + inject_Z z + (1 # 2)) = (Qfloor (x + (1 # 2)) + z)%Z.
Proof.
  rewrite <- Qfloor_shift. apply Qfloor_comp. ring.
Qed.

(** A whole number is the image of an integer. *)
Lemma is_integer_Num (b : Q) :
  is_integer (Num b) = true -> b == inject_Z (Qfloor b).
Proof. cbn. apply Qeq_bool_eq. Qed.

Lemma round_is_integer (a : number) :
  is_finite a = true -> is_integer (round a) = true.
Proof.
  destruct a as [x | | | ]; try discriminate. intros _.
  unfold round, is_integer. rewrite Qfloor_Z. apply Qeq_bool_refl.
Qed.

Lemma is_integer_inject (z : Z) : is_integer (Num (inject_Z z)) = true.
Proof. unfold is_integer. rewrite Qfloor_Z. apply Qeq_bool_refl. Qed.

Lemma same_Num (a b : Q) : same (Num a) (Num b) = true <-> a == b.
Proof.
  unfold same. rewrite andb_true_iff, !le_Num. split.
  - intros (H1 & H2). apply Qle_antisym; assumption.
  - intros H. rewrite H. split; apply Qle_refl.
Qed.

(** Grid points against rational bounds. *)
Lemma Qceiling_le_Z (q : Q) (z : Z) :
  q <= inject_Z z <-> (Qceiling q <= z)%Z.
Proof.
  split; intros H.
  - rewrite <- (Qceiling_Z z). apply Qceiling_resp_le. exact H.
  - apply Qle_trans with (inject_Z (Qceiling q)); [ apply Qle_ceiling | ].
    rewrite <- Zle_Qle. exact H.
Qed.

Lemma Qfloor_ge_Z (q : Q) (z : Z) :
  inject_Z z <= q <-> (z <= Qfloor q)%Z.
Proof.
  split; intros H.
  - rewrite <- (Qfloor_Z z). apply Qfloor_resp_le. exact H.
  - apply Qle_trans with (inject_Z (Qfloor q)); [ | apply Qfloor_le ].
    rewrite <- Zle_Qle. exact H.
Qed.

(** A grid point [z] keeps the lower bound [b] that [x] met exactly when it
    lies within the grid bound [lowest b x]. *)
Lemma lowest_binds (b : nullable number) (x y : Q) (z : Z) :
  y == inject_Z z ->
  (above b (Num x) = true -> above b (Num y) = true)
  <-> at_least (Algorithms.lowest b (Num x)) z.
Proof.
  intros E. unfold above, Algorithms.lowest, at_least.
  destruct b as [ | | [q | | | ]];
    try (split; intros; first [ exact I | reflexivity | discriminate ]).
  destruct (le (Num q) (Num x)) eqn:L.
  - rewrite le_Num, E, Qceiling_le_Z.
    split; [ intros H; apply H; reflexivity | intros H _; exact H ].
  - split; [ intros _; exact I | intros _ H; discriminate H ].
Qed.

Lemma highest_binds (b : nullable number) (x y : Q) (z : Z) :
  y == inject_Z z ->
  (below b (Num x) = true -> below b (Num y) = true)
  <-> at_most (Algorithms.highest b (Num x)) z.
Proof.
  intros E. unfold below, Algorithms.highest, at_most.
  destruct b as [ | | [q | | | ]];
    try (split; intros; first [ exact I | reflexivity | discriminate ]).
  destruct (le (Num x) (Num q)) eqn:L.
  - rewrite le_Num, E, Qfloor_ge_Z.
    split; [ intros H; apply H; reflexivity | intros H _; exact H ].
  - split; [ intros _; exact I | intros _ H; discriminate H ].
Qed.

(** The clamping of one axis, on the grid: if some start and extent lie
    within the four grid bounds, so do the start and the extent chosen,
    whatever the rounding proposed. *)
Lemma snap_in_bounds (lo hi mn mx : option Z) (n gl gw : Z) (m : Z -> Z) :
  at_least lo gl -> at_most hi (gl + gw) ->
  at_least mn gw -> at_most mx gw ->
  let l' := Algorithms.raise lo (Algorithms.lower (Algorithms.gap hi mn) n) in
  let w' :=
    Algorithms.raise mn
      (Algorithms.lower (Algorithms.gap hi (Some l'))
         (Algorithms.lower mx (m l'))) in
  at_least lo l' /\ at_most hi (l' + w') /\ at_least mn w' /\ at_most mx w'.
Proof.
  intros A B C D l' w'. subst w' l'.
  generalize (m (Algorithms.raise lo
                   (Algorithms.lower (Algorithms.gap hi mn) n))).
  intros k.
  destruct lo, hi, mn, mx;
    cbn [at_least at_most Algorithms.raise Algorithms.lower Algorithms.gap]
      in *;
    lia.
Qed.

(** A start and an extent that lie within the bounds and that the rounding
    proposes are the ones chosen. *)
Lemma snap_fixes (lo hi mn mx : option Z) (gl gw : Z) (m : Z -> Z) :
  at_least lo gl -> at_most hi (gl + gw) ->
  at_least mn gw -> at_most mx gw ->
  m gl = gw ->
  let l' :=
    Algorithms.raise lo (Algorithms.lower (Algorithms.gap hi mn) gl) in
  let w' :=
    Algorithms.raise mn
      (Algorithms.lower (Algorithms.gap hi (Some l'))
         (Algorithms.lower mx (m l'))) in
  l' = gl /\ w' = gw.
Proof.
  intros A B C D M l' w'.
  assert (L : l' = gl).
  { subst l'.
    destruct lo, hi, mn;
      cbn [at_least at_most Algorithms.raise Algorithms.lower Algorithms.gap]
        in *;
      lia. }
  split; [ exact L | ]. subst w'. rewrite L, M.
  destruct hi, mn, mx;
    cbn [at_least at_most Algorithms.raise Algorithms.lower Algorithms.gap]
      in *;
    lia.
Qed.

(** One axis of [roundCoordinates]: the result is on the grid; it keeps
    every restriction the unrounded start and extent met, as soon as some
    start and extent on the grid do; and a start and an extent that are
    on the grid already are left as they are. *)
Lemma roundAxis_keeps (l w : Q) (lo hi : nullable number) (mn mx : number) :
  let r := Algorithms.roundAxis (Num l) (Num w) lo hi mn mx in
  is_integer (fst r) = true
  /\ is_integer (snd r) = true
  /\ (forall gl gw : number,
        is_integer gl = true -> is_integer gw = true ->
        (above lo (Num l) = true -> above lo gl = true) ->
        (below hi (Num (l + w)) = true -> below hi (add gl gw) = true) ->
        (le mn (Num w) = true -> le mn gw = true) ->
        (le (Num w) mx = true -> le gw mx = true) ->
        (above lo (Num l) = true -> above lo (fst r) = true)
        /\ (below hi (Num (l + w)) = true ->
            below hi (add (fst r) (snd r)) = true)
        /\ (le mn (Num w) = true -> le mn (snd r) = true)
        /\ (le (Num w) mx = true -> le (snd r) mx = true))
  /\ (is_integer (Num l) = true -> is_integer (Num w) = true ->
      same (fst r) (Num l) = true /\ same (snd r) (Num w) = true).
Proof.
  intros r. subst r. unfold Algorithms.roundAxis. cbn [add fst snd].
  set (lo' := Algorithms.lowest lo (Num l)).
  set (hi' := Algorithms.highest hi (Num (l + w))).
  set (mn' := Algorithms.lowest (Val mn) (Num w)).
  set (mx' := Algorithms.highest (Val mx) (Num w)).
  set (m := fun k : Z => Algorithms.nearest (w + (l - inject_Z k))).
  set (l' := Algorithms.raise lo'
               (Algorithms.lower (Algorithms.gap hi' mn')
                  (Algorithms.nearest l))).
  change (Algorithms.nearest (w + (l - inject_Z l'))) with (m l').
  set (w' := Algorithms.raise mn'
               (Algorithms.lower (Algorithms.gap hi' (Some l'))
                  (Algorithms.lower mx' (m l')))).
  split; [ apply is_integer_inject | ].
  split; [ apply is_integer_inject | ].
  assert (Bounds : forall (gl gw : Q) (zl zw : Z),
             gl == inject_Z zl -> gw == inject_Z zw ->
             (above lo (Num l) = true -> above lo (Num gl) = true) ->
             (below hi (Num (l + w)) = true ->
              below hi (Num (gl + gw)) = true) ->
             (le mn (Num w) = true -> le mn (Num gw) = true) ->
             (le (Num w) mx = true -> le (Num gw) mx = true) ->
             at_least lo' zl /\ at_most hi' (zl + zw)
             /\ at_least mn' zw /\ at_most mx' zw).
  { intros gl gw zl zw El Ew H1 H2 H3 H4.
    assert (Es : gl + gw == inject_Z (zl + zw)).
    { rewrite inject_Z_plus, El, Ew. reflexivity. }
    split; [ apply (lowest_binds lo l gl zl El); exact H1 | ].
    split; [ apply (highest_binds hi (l + w) (gl + gw) (zl + zw) Es);
             exact H2 | ].
    split; [ apply (lowest_binds (Val mn) w gw zw Ew); exact H3 | ].
    apply (highest_binds (Val mx) w gw zw Ew); exact H4. }
  split.
  - intros [gl | | | ] [gw | | | ] Il Iw H1 H2 H3 H4;
      try discriminate Il; try discriminate Iw.
    apply is_integer_Num in Il, Iw. cbn [add] in H2.
    destruct (Bounds gl gw _ _ Il Iw H1 H2 H3 H4) as (B1 & B2 & B3 & B4).
    destruct (snap_in_bounds lo' hi' mn' mx' (Algorithms.nearest l) _ _ m
                B1 B2 B3 B4) as (R1 & R2 & R3 & R4).
    fold l' in R1, R2, R3, R4. fold w' in R2, R3, R4.
    split; [ apply (lowest_binds lo l (inject_Z l') l' (Qeq_refl _));
             exact R1 | ].
    split.
    { apply (highest_binds hi (l + w) (inject_Z l' + inject_Z w') (l' + w')).
      - rewrite inject_Z_plus. reflexivity.
      - exact R2. }
    split; [ apply (lowest_binds (Val mn) w (inject_Z w') w' (Qeq_refl _));
             exact R3 | ].
    apply (highest_binds (Val mx) w (inject_Z w') w' (Qeq_refl _)); exact R4.
  - intros Il Iw. apply is_integer_Num in Il, Iw.
    set (zl := Qfloor l) in *. set (zw := Qfloor w) in *.
    destruct (Bounds l w zl zw Il Iw (fun H => H) (fun H => H)
                (fun H => H) (fun H => H)) as (B1 & B2 & B3 & B4).
    assert (N : Algorithms.nearest l = zl).
    { unfold Algorithms.nearest.
      rewrite (Qfloor_comp _ _ (Qplus_comp _ _ Il _ _ (Qeq_refl (1 # 2)))).
      apply nearest_whole. }
    assert (M : m zl = zw).
    { unfold m, Algorithms.nearest.
      assert (E : w + (l - inject_Z zl) + (1 # 2) == inject_Z zw + (1 # 2)).
      { rewrite Il at 1. rewrite Iw at 1. ring. }
      rewrite (Qfloor_comp _ _ E). apply nearest_whole. }
    destruct (snap_fixes lo' hi' mn' mx' zl zw m B1 B2 B3 B4 M) as (L & W).
    cbv zeta in L, W. subst w' l'. rewrite N.
    split; apply same_Num.
    + rewrite L. symmetry. exact Il.
    + rewrite W. symmetry. exact Iw.
Qed.

Section Rounding.

Variable Element : Type.
Variable StencilEvent : Type.
Variable NormalizedEvent : Type.
Variable props : Props Element NormalizedEvent.
Variable core : Core Element StencilEvent NormalizedEvent.
Variable refs : Refs Element.

(** What [getResult] reports as coordinates once the cropper is
    initialized. *)
Lemma getResult_coordinates (d : Data) :
  initialized d = true ->
  exists r,
    outcome (getResult props core refs d) = Return r
    /\ res_coordinates r
       = if roundResult props
         then roundCoordinates core
                (roundingParams props core refs d (coordinates d))
         else coordinates d.
Proof.
  intros I. unfold getResult, prepareResult, updateCanvas.
  rewrite bind_get, I.
  destruct (roundResult props).
  - rewrite bind_assoc, bind_get, bind_assoc, bind_tell, bind_ret.
    destruct (canvas props && truthy_string (src props) && imageLoaded d).
    + destruct (is_set (ref_canvas refs)).
      * rewrite bind_tell. eexists. split; reflexivity.
      * rewrite bind_ret. eexists. split; reflexivity.
    + eexists. split; reflexivity.
  - rewrite bind_ret.
    destruct (canvas props && truthy_string (src props) && imageLoaded d).
    + destruct (is_set (ref_canvas refs)).
      * rewrite bind_tell. eexists. split; reflexivity.
      * rewrite bind_ret. eexists. split; reflexivity.
    + eexists. split; reflexivity.
Qed.

(** The specified rounding lands on the grid; it keeps every restriction
    the unrounded rectangle met as soon as some rectangle on the grid
    does; and a rectangle on the grid is left as it is. *)
Lemma roundCoordinates_keeps (p : PublicProperties) :
  let c := pp_coordinates p in
  let s := pp_sizeRestrictions p in
  let l := pp_positionRestrictions p in
  finite_rect c = true ->
  integral_rect (Algorithms.roundCoordinates p) = true
  /\ (forall g : Rect,
        integral_rect g = true ->
        keeps_restrictions s l c g ->
        keeps_restrictions s l c (Algorithms.roundCoordinates p))
  /\ (integral_rect c = true ->
      same_rect (Algorithms.roundCoordinates p) c = true).
Proof.
  intros c s l. subst c s l.
  unfold Algorithms.roundCoordinates, finite_rect, integral_rect,
    keeps_restrictions, same_rect.
  destruct (pp_coordinates p) as [[x | | | ] [y | | | ] [w | | | ] [h | | | ]];
    try discriminate.
  intros _. cbn [left top width height add].
  destruct (roundAxis_keeps x w
              (l_left (pp_positionRestrictions p))
              (l_right (pp_positionRestrictions p))
              (minWidth (pp_sizeRestrictions p))
              (maxWidth (pp_sizeRestrictions p)))
    as (H1 & H2 & Hk & Hf).
  destruct (roundAxis_keeps y h
              (l_top (pp_positionRestrictions p))
              (l_bottom (pp_positionRestrictions p))
              (minHeight (pp_sizeRestrictions p))
              (maxHeight (pp_sizeRestrictions p)))
    as (V1 & V2 & Vk & Vf).
  cbv zeta in *.
  split; [ rewrite H1, H2, V1, V2; reflexivity | ].
  split.
  - intros g G (K1 & K2 & K3 & K4 & K5 & K6 & K7 & K8).
    apply andb_true_iff in G. destruct G as [G Gh].
    apply andb_true_iff in G. destruct G as [G Gw].
    apply andb_true_iff in G. destruct G as [Gx Gy].
    destruct (Hk (left g) (width g) Gx Gw K1 K2 K3 K4) as (A1 & A2 & A3 & A4).
    destruct (Vk (top g) (height g) Gy Gh K5 K6 K7 K8) as (B1 & B2 & B3 & B4).
    repeat split; assumption.
  - intros G.
    apply andb_true_iff in G. destruct G as [G Gh].
    apply andb_true_iff in G. destruct G as [G Gw].
    apply andb_true_iff in G. destruct G as [Gx Gy].
    destruct (Hf Gx Gw) as (A1 & A2). destruct (Vf Gy Gh) as (B1 & B2).
    rewrite A1, A2, B1, B2. reflexivity.
Qed.

(** C9, as far as a rounding can go.  For an initialized cropper with
    [roundResult] set, [getResult] reports what [roundCoordinates] makes
    of the current coordinates under the size restrictions and the
    position restrictions limited to the visible area.  With the rounding
    the specification describes they are whole numbers; every one of
    these restrictions that the unrounded rectangle met is still met, as
    soon as some rectangle on the pixel grid can do that; and coordinates
    that are whole numbers already are reported as they are.  With
    [roundResult] unset, [getResult] reports the current coordinates
    unchanged. *)
Theorem getResult_rounds_on_the_grid (d : Data) :
  let sizes := value (sizeRestrictions props core d) in
  let positions :=
    limitBy core (value (positionRestrictions props d)) (visibleArea d) in
  initialized d = true ->
  (roundResult props = false ->
   exists r,
     outcome (getResult props core refs d) = Return r
     /\ res_coordinates r = coordinates d)
  /\ (roundResult props = true ->
      (forall p, roundCoordinates core p = Algorithms.roundCoordinates p) ->
      finite_rect (coordinates d) = true ->
      exists r,
        outcome (getResult props core refs d) = Return r
        /\ res_coordinates r
           = Algorithms.roundCoordinates
               (with_coordinates
                  (with_positionRestrictions
                     (getPublicProperties props core refs d) positions)
                  (coordinates d))
        /\ integral_rect (res_coordinates r) = true
        /\ (forall g : Rect,
              integral_rect g = true ->
              keeps_restrictions sizes positions (coordinates d) g ->
              keeps_restrictions sizes positions (coordinates d)
                (res_coordinates r))
        /\ (integral_rect (coordinates d) = true ->
            same_rect (res_coordinates r) (coordinates d) = true)).
Proof.
  intros sizes positions I.
  destruct (getResult_coordinates d I) as (r & O & C).
  split; intros R.
  - rewrite R in C. exists r. split; assumption.
  - intros S F. rewrite R, S in C. exists r.
    split; [ exact O | split; [ exact C | ] ].
    rewrite C.
    apply (roundCoordinates_keeps
             (roundingParams props core refs d (coordinates d))).
    exact F.
Qed.

End Rounding.

(* ===================================================================== *)
(** ** Moving the crop rectangle *)
(* ===================================================================== *)

Lemma min2_Num (x y : Q) :
  exists m, min2 (Num x) (Num y) = Num m /\ m <= x /\ m <= y
            /\ (m == x \/ m == y).
Proof.
  unfold min2. destruct (lt (Num y) (Num x)) eqn:E.
  - apply lt_Num in E. exists y.
    split; [ reflexivity | ]. split; [ lra | ]. split; [ lra | ].
    right. reflexivity.
  - apply lt_Num_false in E. exists x.
    split; [ reflexivity | ]. split; [ lra | ]. split; [ lra | ].
    left. reflexivity.
Qed.

Lemma max2_Num (x y : Q) :
  exists m, max2 (Num x) (Num y) = Num m /\ x <= m /\ y <= m
            /\ (m == x \/ m == y).
Proof.
  unfold max2. destruct (lt (Num x) (Num y)) eqn:E.
  - apply lt_Num in E. exists y.
    split; [ reflexivity | ]. split; [ lra | ]. split; [ lra | ].
    right. reflexivity.
  - apply lt_Num_false in E. exists x.
    split; [ reflexivity | ]. split; [ lra | ]. split; [ lra | ].
    left. reflexivity.
Qed.

(** Clamping one axis keeps both edges inside the bounds whenever the
    extent has room between them. *)
Lemma clamp_within (x size : Q) (lo hi : nullable number) :
  admits lo hi (Num size) = true ->
  let x' := Algorithms.clamp (Num x) (Num size) lo hi in
  above lo x' = true /\ below hi (add x' (Num size)) = true.
Proof.
  unfold Algorithms.clamp, admits, above, below.
  destruct lo as [ | | [a | | | ]], hi as [ | | [b | | | ]];
    try discriminate; intros H; cbn [sub neg add];
    try apply le_Num in H;
    repeat match goal with
           | |- context [min2 (Num ?u) (Num ?v)] =>
               destruct (min2_Num u v) as (? & -> & ? & ? & _)
           | |- context [max2 (Num ?u) (Num ?v)] =>
               destruct (max2_Num u v) as (? & -> & ? & ? & [? | ?])
           end;
    cbn [add]; split; try reflexivity; apply le_Num; lra.
Qed.

(** The [move] of the specification (4.2) keeps a rectangle that has room
    between the position restrictions within them, wherever the drag goes,
    and leaves its size alone. *)
Lemma move_within (p : PublicProperties) (e : Algorithms.Delta) :
  let c := pp_coordinates p in
  let r := pp_positionRestrictions p in
  finite_rect c = true ->
  is_finite (Algorithms.delta_left e) = true ->
  is_finite (Algorithms.delta_top e) = true ->
  admits (l_left r) (l_right r) (width c) = true ->
  admits (l_top r) (l_bottom r) (height c) = true ->
  within r (Algorithms.move p e) = true
  /\ width (Algorithms.move p e) = width c
  /\ height (Algorithms.move p e) = height c.
Proof.
  intros c r F Dl Dt Hh Hv. subst c r.
  unfold Algorithms.move, within, finite_rect in *.
  destruct (pp_coordinates p) as [[l | | | ] [t | | | ] [w | | | ] [h | | | ]];
    try discriminate.
  destruct e as [[dl | | | ] [dt | | | ]]; try discriminate.
  cbn [left top width height Algorithms.delta_left Algorithms.delta_top add]
    in *.
  destruct (clamp_within (l + dl) w _ _ Hh) as (A1 & A2).
  destruct (clamp_within (t + dt) h _ _ Hv) as (B1 & B2).
  rewrite A1, A2, B1, B2. repeat split.
Qed.

(** What [onMove] does with the algorithm it is configured with: the
    algorithm sees the position restrictions narrowed by [limitBy] to the
    visible area, and what it returns becomes the coordinates. *)
Lemma onMove_stores_the_result
  (Element StencilEvent NormalizedEvent : Type)
  (props : Props Element NormalizedEvent)
  (core : Core Element StencilEvent NormalizedEvent)
  (refs : Refs Element) (event : Event StencilEvent) (d : Data) :
  let p :=
    with_coordinates
      (with_positionRestrictions (getPublicProperties props core refs d)
         (limitBy core (value (positionRestrictions props d)) (visibleArea d)))
      (coordinates d) in
  let e :=
    normalizeEventAlgorithm core (getPublicProperties props core refs d)
      event in
  outcome (onMove props core refs event d) = Return tt
  /\ final (onMove props core refs event d)
     = set_coordinates (moveAlgorithm props p e) d.
Proof.
  intros p e. unfold onMove, normalizeEvent.
  rewrite bind_get, bind_assoc, bind_get, bind_assoc, bind_tell, bind_ret,
    bind_tell.
  cbn [outcome final]. fold p. fold e.
  rewrite onChangeCoordinates_outcome, onChangeCoordinates_final.
  split; reflexivity.
Qed.

(** The scenario of the specification: a drag of 1000 pixels to the right
    leaves the full-image rectangle flush with the right bound. *)
Example drag_saturates :
  let c :=
    coordinates
      (final (onMove Demo.standard Demo.specified Demo.roomy Demo.drag
                Demo.ready)) in
  add (left c) (width c) = Num 1000
  /\ l_right (value (positionRestrictions Demo.standard Demo.ready))
     = Val (Num 1000).
Proof. split; reflexivity. Qed.

(* ===================================================================== *)
(** ** The properties on the concrete configuration *)
(* ===================================================================== *)

Local Open Scope string_scope.

(** C9 as stated fails.  The crop rectangle [0.3, 0.7] x [0, 1] meets the
    position restrictions [0.2, 0.8] x [0, 1] and the size restrictions,
    but no rectangle on the pixel grid does: whatever [roundCoordinates]
    is, the result of [getResult] is off the grid or breaks a restriction
    the unrounded coordinates met. *)
Lemma no_rounding_keeps_bounds_between_pixels :
  initialized Demo.sliver = true
  /\ roundResult Demo.fractional = true
  /\ within (value (positionRestrictions Demo.fractional Demo.sliver))
       (coordinates Demo.sliver) = true
  /\ (forall rounding,
        fits (value (sizeRestrictions Demo.fractional (Demo.core rounding)
                       Demo.sliver))
          (coordinates Demo.sliver) = true)
  /\ ~ exists rounding r,
         outcome (getResult Demo.fractional (Demo.core rounding) Demo.roomy
                    Demo.sliver) = Return r
         /\ integral_rect (res_coordinates r) = true
         /\ within (value (positionRestrictions Demo.fractional Demo.sliver))
              (res_coordinates r) = true
         /\ fits (value (sizeRestrictions Demo.fractional (Demo.core rounding)
                           Demo.sliver))
              (res_coordinates r) = true.
Proof.
  split; [ reflexivity | ].
  split; [ reflexivity | ].
  split; [ reflexivity | ].
  split; [ intros rounding; reflexivity | ].
  intros (rounding & r & _ & I & W & F).
  destruct (res_coordinates r) as [x t w h].
  unfold integral_rect in I. cbn [left top width height] in I.
  apply andb_true_iff in I. destruct I as [I Ih].
  apply andb_true_iff in I. destruct I as [I Iw].
  apply andb_true_iff in I. destruct I as [Ix It].
  destruct x as [x | | | ]; try discriminate Ix.
  destruct w as [w | | | ]; try discriminate Iw.
  apply is_integer_Num in Ix.
  change (value (positionRestrictions Demo.fractional Demo.sliver))
    with (Demo.between_pixels (imageSize Demo.sliver) "area"
            (visibleArea Demo.sliver)) in W.
  unfold within, Demo.between_pixels, above, below in W.
  cbn [l_left l_right l_top l_bottom left top width height add] in W.
  apply andb_true_iff in W. destruct W as [W _].
  apply andb_true_iff in W. destruct W as [W _].
  apply andb_true_iff in W. destruct W as [Wl Wr].
  apply le_Num in Wl, Wr.
  change (value (sizeRestrictions Demo.fractional (Demo.core rounding)
                   Demo.sliver))
    with {| minWidth := Num 0; minHeight := Num 0;
            maxWidth := Infinity; maxHeight := Infinity |} in F.
  unfold fits in F. cbn [minWidth width] in F.
  apply andb_true_iff in F. destruct F as [F _].
  apply andb_true_iff in F. destruct F as [F _].
  apply andb_true_iff in F. destruct F as [Fw _].
  apply le_Num in Fw.
  assert (Z : (1 <= Qfloor x)%Z).
  { assert (L : (0 < Qfloor x)%Z); [ | lia ].
    rewrite Zlt_Qlt. rewrite <- Ix. change (inject_Z 0) with 0.
    clear - Wl. lra. }
  rewrite Zle_Qle in Z. rewrite <- Ix in Z. change (inject_Z 1) with 1 in Z.
  clear - Wr Fw Z. lra.
Qed.

(** The rounding the specification describes is no exception: it keeps
    the rectangle above the left bound and loses the right one. *)
Example specified_rounding_leaves_the_bounds :
  exists r,
    outcome (getResult Demo.fractional Demo.specified Demo.roomy Demo.sliver)
    = Return r
    /\ res_coordinates r = Demo.rect 1 0 0 1
    /\ within (value (positionRestrictions Demo.fractional Demo.sliver))
         (res_coordinates r) = false.
Proof.
  eexists. split; [ reflexivity | ]. split; reflexivity.
Qed.

(** C8 as stated fails where the container leaves no room.  The cropper
    is initialized and it is refreshed (source and image node are there),
    but its container has no width: the boundaries are recomputed and the
    refresh stops there.  Neither [fitVisibleArea] nor [fitCoordinates] is
    called, the visible area is cleared and the coordinates stay. *)
Lemma refresh_without_room_fits_nothing :
  initialized Demo.ready = true
  /\ truthy_string (src Demo.standard) && is_set (ref_image Demo.flat) = true
  /\ map is_fit (emitted (refresh Demo.standard Demo.specified Demo.flat
                            "production" Demo.ready))
     = [false; false]
  /\ existsb is_fit (emitted (refresh Demo.standard Demo.specified Demo.flat
                                "production" Demo.ready))
     = false
  /\ visibleArea (final (refresh Demo.standard Demo.specified Demo.flat
                            "production" Demo.ready))
     = Null
  /\ coordinates (final (refresh Demo.standard Demo.specified Demo.flat
                            "production" Demo.ready))
     = coordinates Demo.ready.
Proof.
  repeat split; reflexivity.
Qed.

(** C2 as stated fails under the default priority.  Resetting the freshly
    loaded 1000x800 image in a 500x400 container derives and clamps the
    default coordinates before [refineVisibleArea] is called, and the
    [defaultSize] function is handed an undefined visible area. *)
Lemma reset_derives_coordinates_before_area :
  priority Demo.standard = "coordinates"
  /\ stages (emitted (reset Demo.standard Demo.specified Demo.roomy
                        "production" Demo.loaded))
     = [Boundaries; DefaultSize; ApplyTransform; RefineVisibleArea]
  /\ precedes RefineVisibleArea ApplyTransform
       (stages (emitted (reset Demo.standard Demo.specified Demo.roomy
                           "production" Demo.loaded)))
     = false
  /\ size_call_areas (emitted (reset Demo.standard Demo.specified Demo.roomy
                                 "production" Demo.loaded))
     = [Undefined].
Proof.
  repeat split; reflexivity.
Qed.

Lemma coefficient_is_width_ratio_witness :
  visibleArea Demo.ready = Val (Demo.rect 0 0 1000 800)
  /\ coefficient Demo.ready = div (Num 1000) (Num 500).
Proof.
  split; [ reflexivity | ].
  apply (coefficient_is_width_ratio Demo.ready (Demo.rect 0 0 1000 800)).
  reflexivity.
Defined.

Lemma sizeRestrictions_without_boundaries_witness :
  zero_or_unset (s_width (boundaries Demo.loaded)) = true
  /\ value (sizeRestrictions Demo.standard Demo.specified Demo.loaded)
     = all_zero
  /\ calls (sizeRestrictions Demo.standard Demo.specified Demo.loaded) = [].
Proof.
  split; [ reflexivity | ].
  apply (sizeRestrictions_without_boundaries _ _ _
           Demo.standard Demo.specified Demo.loaded).
  left. reflexivity.
Defined.

Lemma zoom_dispatches_inverse_factor_witness :
  lt (Num 1) (Num 2) = true
  /\ lt (div (Num 1) (Num 2)) (Num 1) = true.
Proof.
  split; [ reflexivity | ].
  apply (zoom_dispatches_inverse_factor _ _ _
           Demo.standard Demo.specified Demo.roomy
           (Num 2) Undefined Demo.ready).
  reflexivity.
Defined.

Lemma onResize_raises_minimum_witness :
  is_nan (handleMinimum Demo.ready) = false
  /\ is_nan (minWidth (value (sizeRestrictions Demo.standard Demo.specified
                                Demo.ready))) = false
  /\ exists p e,
       In (CallResizeAlgorithm p e)
          (emitted (onResize Demo.standard Demo.specified Demo.roomy
                      Demo.drag Demo.ready))
       /\ le (handleMinimum Demo.ready) (minWidth (pp_sizeRestrictions p))
          = true.
Proof.
  split; [ reflexivity | ]. split; [ reflexivity | ].
  destruct (onResize_raises_minimum _ _ _
              Demo.standard Demo.specified Demo.roomy Demo.drag Demo.ready)
    as (p & e & rest & E & _ & _ & _ & _ & _ & _ & _ & H & _).
  exists p, e. split.
  - rewrite E. right. left. reflexivity.
  - apply H; reflexivity.
Defined.

Lemma cannot_fit_raised_and_caught_witness :
  (zero_or_unset
     (s_width (computedBoundaries Demo.standard Demo.specified Demo.flat
                 Demo.loaded)) = true
   /\ outcome (updateBoundaries Demo.standard Demo.specified Demo.flat
                 Demo.loaded) = Throw (Error cannot_fit)
   /\ visibleArea (final (reset Demo.standard Demo.specified Demo.flat
                            "production" Demo.loaded)) = Null)
  /\ (positive
        (s_width (computedBoundaries Demo.standard Demo.specified Demo.roomy
                    Demo.loaded)) = true
      /\ positive
           (s_height (computedBoundaries Demo.standard Demo.specified
                        Demo.roomy Demo.loaded)) = true
      /\ outcome (updateBoundaries Demo.standard Demo.specified Demo.roomy
                    Demo.loaded) = Return tt).
Proof.
  split.
  - split; [ reflexivity | ].
    destruct (cannot_fit_raised_and_caught _ _ _
                Demo.standard Demo.specified Demo.flat "production"
                Demo.loaded) as (H & _).
    destruct H as (T & _ & N & _); [ reflexivity | ].
    split; assumption.
  - split; [ reflexivity | ]. split; [ reflexivity | ].
    destruct (cannot_fit_raised_and_caught _ _ _
                Demo.standard Demo.specified Demo.roomy "production"
                Demo.loaded) as (_ & H).
    destruct H as (T & _); [ reflexivity | ].
    exact T.
Defined.

Lemma reset_order_follows_priority_witness :
  is_set (ref_image Demo.roomy) = true
  /\ stages (emitted (reset Demo.area_first Demo.specified Demo.roomy
                        "production" Demo.loaded))
     = [Boundaries; RefineVisibleArea; DefaultSize; ApplyTransform]
  /\ stages (emitted (reset Demo.standard Demo.specified Demo.roomy
                        "production" Demo.loaded))
     = [Boundaries; DefaultSize; ApplyTransform; RefineVisibleArea].
Proof.
  split; [ reflexivity | ]. split.
  - destruct (reset_order_follows_priority _ _ _
                Demo.area_first Demo.specified Demo.roomy "production"
                Demo.loaded eq_refl eq_refl) as (H & _).
    destruct (H eq_refl) as (S & _). exact S.
  - destruct (reset_order_follows_priority _ _ _
                Demo.standard Demo.specified Demo.roomy "production"
                Demo.loaded eq_refl eq_refl) as (_ & H).
    destruct (H eq_refl) as (S & _). exact S.
Defined.

Lemma default_size_warning_outside_production_witness :
  breaks_restrictions
    (chosenDefaultSize Demo.careless Demo.careful Demo.roomy Demo.ready)
    (value (sizeRestrictions Demo.careless Demo.careful Demo.ready)) = true
  /\ existsb is_warning
       (emitted (resetCoordinates Demo.careless Demo.careful Demo.roomy
                   "production" Demo.ready)) = false
  /\ existsb is_warning
       (emitted (resetCoordinates Demo.careless Demo.careful Demo.roomy
                   "development" Demo.ready)) = true
  /\ outcome (resetCoordinates Demo.careless Demo.careful Demo.roomy
                "production" Demo.ready) = Return tt
  /\ coordinates (final (resetCoordinates Demo.careless Demo.careful
                           Demo.roomy "production" Demo.ready))
     = Demo.rect 0 0 0 0
  /\ fits (Demo.cap_sizes
             (value (sizeRestrictions Demo.careless Demo.careful Demo.ready))
             (Demo.rect 0 0 1000 800))
       (coordinates (final (resetCoordinates Demo.careless Demo.careful
                              Demo.roomy "production" Demo.ready)))
     = true.
Proof.
  split; [ reflexivity | ].
  destruct (default_size_warning_outside_production _ _ _
              Demo.careless Demo.careful Demo.roomy "production"
              Demo.ready eq_refl eq_refl)
    as (_ & _ & Q & O & _ & _ & C & F).
  destruct (default_size_warning_outside_production _ _ _
              Demo.careless Demo.careful Demo.roomy "development"
              Demo.ready eq_refl eq_refl) as (D & _).
  split; [ apply Q; reflexivity | ].
  split; [ apply D; reflexivity | ].
  split; [ exact O | ].
  split; [ rewrite C; reflexivity | ].
  apply F; [ exact clamped_transforms_clamp | reflexivity ].
Defined.

Lemma refresh_fits_area_then_coordinates_witness :
  initialized Demo.ready = true
  /\ map is_fit (emitted (refresh Demo.standard Demo.specified Demo.roomy
                            "production" Demo.ready))
     = [false; false; true; true]
  /\ emitted (refresh Demo.standard Demo.specified Demo.flat
                "production" Demo.ready)
     = [CallInitStretcher (Demo.size 1000 800);
        CallBoundaries (Demo.size 0 400)]
  /\ existsb is_fit (emitted (onMove Demo.standard Demo.specified Demo.roomy
                                Demo.drag Demo.ready)) = false.
Proof.
  split; [ reflexivity | ].
  destruct (refresh_fits_area_then_coordinates _ _ _
              Demo.standard Demo.specified Demo.roomy "production"
              Demo.ready eq_refl eq_refl) as (S & _ & G).
  destruct (refresh_fits_area_then_coordinates _ _ _
              Demo.standard Demo.specified Demo.flat "production"
              Demo.ready eq_refl eq_refl) as (_ & F & _).
  split; [ | split ].
  - destruct (S eq_refl) as (E & _). rewrite E. reflexivity.
  - destruct (F eq_refl) as (E & _). rewrite E. reflexivity.
  - apply (G Demo.drag).
Defined.

Lemma getResult_rounds_on_the_grid_witness :
  initialized Demo.offset = true
  /\ (exists r,
        outcome (getResult Demo.unrounded Demo.specified Demo.roomy
                   Demo.offset) = Return r
        /\ res_coordinates r = coordinates Demo.offset)
  /\ (exists r,
        outcome (getResult Demo.tight Demo.specified Demo.roomy
                   Demo.offset) = Return r
        /\ res_coordinates r = Demo.rect 1 0 9 10
        /\ integral_rect (res_coordinates r) = true
        /\ within (Demo.from_two_fifths (imageSize Demo.offset) "area"
                     (visibleArea Demo.offset))
             (coordinates Demo.offset) = true
        /\ keeps_restrictions
             (value (sizeRestrictions Demo.tight Demo.specified Demo.offset))
             (Demo.intersect
                (value (positionRestrictions Demo.tight Demo.offset))
                (visibleArea Demo.offset))
             (coordinates Demo.offset) (res_coordinates r)).
Proof.
  split; [ reflexivity | ].
  destruct (getResult_rounds_on_the_grid _ _ _
              Demo.unrounded Demo.specified Demo.roomy Demo.offset eq_refl)
    as (U & _).
  destruct (getResult_rounds_on_the_grid _ _ _
              Demo.tight Demo.specified Demo.roomy Demo.offset eq_refl)
    as (_ & S).
  split; [ apply U; reflexivity | ].
  destruct (S eq_refl (fun p => eq_refl) eq_refl) as (r & O & C & I & K & _).
  exists r. split; [ exact O | ]. split; [ rewrite C; reflexivity | ].
  split; [ exact I | ]. split; [ reflexivity | ].
  apply (K (Demo.rect 1 0 10 10)); [ reflexivity | ].
  unfold keeps_restrictions. repeat split; intros _; reflexivity.
Defined.

(* ===================================================================== *)
(** ** Further properties of the component *)
(* ===================================================================== *)

Local Open Scope list_scope.

Section Further.

Variable Element : Type.
Variable StencilEvent : Type.
Variable NormalizedEvent : Type.
Variable props : Props Element NormalizedEvent.
Variable core : Core Element StencilEvent NormalizedEvent.
Variable refs : Refs Element.
Variable NODE_ENV : string.

Ltac split_more :=
  repeat match goal with
         | |- context [if ?b then _ else _] => destruct b
         end;
  reflexivity.

Ltac close_run :=
  cbn [outcome final emitted modify ret tell throw get app];
  rewrite ?app_nil_r; reflexivity.

(** *** Reporting the result *)

Lemma getResult_run (d : Data) :
  getResult props core refs d
  = {| outcome := Return (resultOf props core refs d);
       final := d;
       emitted := resultCalls props core refs d |}.
Proof.
  unfold getResult, prepareResult, updateCanvas, resultOf, resultCalls,
    reportedCoordinates, draws.
  rewrite bind_get.
  destruct (initialized d); cbn [andb].
  - destruct (roundResult props).
    + rewrite bind_assoc, bind_get, bind_assoc, bind_tell, bind_ret.
      destruct (canvas props && truthy_string (src props) && imageLoaded d);
        cbn [andb].
      * destruct (is_set (ref_canvas refs)).
        -- rewrite bind_tell. reflexivity.
        -- rewrite bind_ret. reflexivity.
      * reflexivity.
    + rewrite bind_ret.
      destruct (canvas props && truthy_string (src props) && imageLoaded d);
        cbn [andb].
      * destruct (is_set (ref_canvas refs)).
        -- rewrite bind_tell. reflexivity.
        -- rewrite bind_ret. reflexivity.
      * reflexivity.
  - rewrite bind_ret.
    destruct (canvas props && truthy_string (src props) && imageLoaded d);
      cbn [andb].
    + destruct (is_set (ref_canvas refs)).
      * rewrite bind_tell. reflexivity.
      * rewrite bind_ret. reflexivity.
    + reflexivity.
Qed.

Lemma onChangeCoordinates_run (c : Rect) (debounced : bool) (d : Data) :
  onChangeCoordinates props core refs c debounced d
  = {| outcome := Return tt;
       final := set_coordinates c d;
       emitted := notifications props core refs debounced
                    (set_coordinates c d) |}.
Proof.
  unfold onChangeCoordinates, update, notifications.
  rewrite bind_modify.
  destruct (listens_change props); [ | reflexivity ].
  destruct (debounced && debounce props); [ reflexivity | ].
  rewrite (bind_run _ _ _ _ (getResult_run (set_coordinates c d))).
  reflexivity.
Qed.

Lemma changes_app (l l' : list (Effect Element StencilEvent NormalizedEvent)) :
  changes (l ++ l') = changes l ++ changes l'.
Proof.
  induction l as [ | e l IH]; [ reflexivity | ].
  cbn [app changes]. destruct e; rewrite IH; reflexivity.
Qed.

Lemma debounces_app
  (l l' : list (Effect Element StencilEvent NormalizedEvent)) :
  debounces (l ++ l') = (debounces l + debounces l')%nat.
Proof.
  induction l as [ | e l IH]; [ reflexivity | ].
  cbn [app debounces]. destruct e; rewrite IH; reflexivity.
Qed.

Lemma drawings_app
  (l l' : list (Effect Element StencilEvent NormalizedEvent)) :
  drawings (l ++ l') = drawings l ++ drawings l'.
Proof.
  induction l as [ | e l IH]; [ reflexivity | ].
  cbn [app drawings]. destruct e; rewrite IH; reflexivity.
Qed.

Lemma resultCalls_quiet (d : Data) :
  changes (resultCalls props core refs d) = []
  /\ debounces (resultCalls props core refs d) = O.
Proof.
  unfold resultCalls.
  destruct (initialized d && roundResult props);
    destruct (draws props d && is_set (ref_canvas refs));
    split; reflexivity.
Qed.

Lemma notifications_changes (debounced : bool) (d : Data) :
  changes (notifications props core refs debounced d)
  = (if listens_change props && negb (debounced && debounce props)
     then [resultOf props core refs d] else [])
  /\ debounces (notifications props core refs debounced d)
     = (if listens_change props && (debounced && debounce props)
        then 1%nat else O).
Proof.
  unfold notifications.
  destruct (resultCalls_quiet d) as (C & D).
  destruct (listens_change props); [ | split; reflexivity ].
  destruct (debounced && debounce props); [ split; reflexivity | ].
  rewrite changes_app, debounces_app, C, D. split; reflexivity.
Qed.

Lemma notifications_only (debounced : bool) (d : Data) :
  forallb is_notification (notifications props core refs debounced d) = true.
Proof.
  unfold notifications, resultCalls.
  destruct (listens_change props); [ | reflexivity ].
  destruct (debounced && debounce props); [ reflexivity | ].
  destruct (initialized d && roundResult props);
    destruct (draws props d && is_set (ref_canvas refs)); reflexivity.
Qed.

(** X1.  [getResult] only reads: it leaves the data as they are, and it
    emits and schedules nothing.  Whenever it returns, the visible area it
    reports is a copy of the current one or [null], never [undefined].
    And it does return, without asking for a rounding, whenever there is
    nothing to round (the cropper is not initialized, or [roundResult] is
    unset): the rounding is the only step of it that consults the
    stencil. *)
Theorem getResult_only_reads (d : Data) :
  final (getResult props core refs d) = d
  /\ changes (emitted (getResult props core refs d)) = []
  /\ debounces (emitted (getResult props core refs d)) = O
  /\ (forall r,
        outcome (getResult props core refs d) = Return r ->
        res_visibleArea r = copy_or_null (visibleArea d)
        /\ res_visibleArea r <> Undefined
        /\ (is_set (visibleArea d) = false -> res_visibleArea r = Null))
  /\ (initialized d && roundResult props = false ->
      roundings (emitted (getResult props core refs d)) = []
      /\ exists r, outcome (getResult props core refs d) = Return r).
Proof.
  rewrite getResult_run. cbn [final emitted outcome].
  destruct (resultCalls_quiet d) as (C & D).
  split; [ reflexivity | ]. split; [ exact C | ]. split; [ exact D | ].
  split.
  - intros r E. injection E as <-. cbn [resultOf res_visibleArea].
    split; [ reflexivity | ].
    split; destruct (visibleArea d); try discriminate; reflexivity.
  - intros N. split; [ | eexists; reflexivity ].
    unfold resultCalls. rewrite N. cbn [app].
    destruct (draws props d && is_set (ref_canvas refs)); reflexivity.
Qed.

(** X2.  Until the cropper is initialized (a visible area is set and the image
    is loaded), [getResult] reports [DEFAULT_COORDINATES] whatever the
    current coordinates are, and asks for no rounding even when
    [roundResult] is set. *)
Theorem getResult_before_initialization (d : Data) :
  initialized d = false ->
  exists r,
    outcome (getResult props core refs d) = Return r
    /\ res_coordinates r = DEFAULT_COORDINATES core
    /\ roundings (emitted (getResult props core refs d)) = [].
Proof.
  intros I. rewrite getResult_run. eexists. split; [ reflexivity | ].
  cbn [emitted resultOf res_coordinates].
  unfold reportedCoordinates, resultCalls. rewrite I. cbn [andb app].
  split; [ reflexivity | ].
  destruct (draws props d && is_set (ref_canvas refs)); reflexivity.
Qed.

(** X3.  [getResult] draws on the canvas exactly when the [canvas] prop is
    set, there is a source, the image is loaded and the canvas node
    exists; what it draws is the current rectangle as stored, also when
    the coordinates it reports are the rounded ones. *)
Theorem getResult_draws_the_stored_rectangle (d : Data) :
  drawings (emitted (getResult props core refs d))
  = if canvas props && truthy_string (src props) && imageLoaded d
       && is_set (ref_canvas refs)
    then [coordinates d] else [].
Proof.
  rewrite getResult_run. cbn [emitted]. unfold resultCalls, draws.
  rewrite drawings_app.
  destruct (initialized d && roundResult props);
    destruct (canvas props && truthy_string (src props) && imageLoaded d
              && is_set (ref_canvas refs)); reflexivity.
Qed.

(** *** Telling the host *)

(** X4.  Storing new coordinates tells the host at most once: without a
    [change] listener nothing is emitted or scheduled; with a debounced
    call and a truthy [debounce] prop one debounced update is scheduled
    and nothing is emitted at once; otherwise exactly one [change] event
    is emitted at once, whose payload is the result in the state that
    already holds the new coordinates. *)
Theorem onChangeCoordinates_tells_once
  (c : Rect) (debounced : bool) (d : Data) :
  let r := onChangeCoordinates props core refs c debounced d in
  outcome r = Return tt
  /\ final r = set_coordinates c d
  /\ changes (emitted r)
     = (if listens_change props && negb (debounced && debounce props)
        then [resultOf props core refs (set_coordinates c d)] else [])
  /\ debounces (emitted r)
     = (if listens_change props && (debounced && debounce props)
        then 1%nat else O).
Proof.
  intros r. subst r. rewrite onChangeCoordinates_run.
  cbn [outcome final emitted].
  destruct (notifications_changes debounced (set_coordinates c d)) as (C & D).
  repeat split; assumption.
Qed.

(** *** Applying transforms and handling gestures *)

Lemma applyTransform_general (t : Transforms) (zoomed limited : bool) (d : Data) :
  let p := transformParams props core refs d t limited in
  let c := applyTransformAlgorithm core p in
  let q := with_coordinates (getPublicProperties props core refs d) c in
  let d1 := if zoomed then set_visibleArea (autoZoomAlgorithm core q) d else d in
  applyTransform props core refs t zoomed limited d
  = {| outcome := Return c;
       final := set_coordinates c d1;
       emitted :=
         CallApplyTransform p
         :: (if zoomed then [CallAutoZoom q] else [])
            ++ notifications props core refs false (set_coordinates c d1) |}.
Proof.
  intros p c q d1. unfold applyTransform, autoZoom.
  rewrite bind_get, bind_tell. fold p. fold c.
  destruct zoomed.
  - rewrite bind_assoc, bind_get, bind_assoc, bind_tell, bind_modify.
    fold q. cbv beta.
    rewrite (bind_run _ _ _ _ (onChangeCoordinates_run c false _)).
    subst d1. close_run.
  - rewrite bind_ret.
    rewrite (bind_run _ _ _ _ (onChangeCoordinates_run c false _)).
    subst d1. close_run.
Qed.

Lemma onMove_run (event : Event StencilEvent) (d : Data) :
  let g := getPublicProperties props core refs d in
  let e := normalizeEventAlgorithm core g event in
  let p :=
    with_coordinates
      (with_positionRestrictions g
         (limitBy core (value (positionRestrictions props d)) (visibleArea d)))
      (coordinates d) in
  let c := moveAlgorithm props p e in
  onMove props core refs event d
  = {| outcome := Return tt;
       final := set_coordinates c d;
       emitted :=
         CallNormalizeEvent g event :: CallMoveAlgorithm p e
         :: notifications props core refs true (set_coordinates c d) |}.
Proof.
  intros g e p c. unfold onMove, normalizeEvent.
  rewrite bind_get, bind_assoc, bind_get, bind_assoc, bind_tell, bind_ret,
    bind_tell.
  fold g. fold e. fold p. fold c.
  rewrite onChangeCoordinates_run. reflexivity.
Qed.

Lemma onResize_run (event : Event StencilEvent) (d : Data) :
  exists p e,
    let c := resizeAlgorithm props p e in
    onResize props core refs event d
    = {| outcome := Return tt;
         final := set_coordinates c d;
         emitted :=
           CallNormalizeEvent (getPublicProperties props core refs d) event
           :: CallResizeAlgorithm p e
           :: notifications props core refs true (set_coordinates c d) |}.
Proof.
  unfold onResize, normalizeEvent.
  rewrite bind_get, bind_assoc, bind_get, bind_assoc, bind_tell, bind_ret,
    bind_tell.
  do 2 eexists. cbv zeta.
  rewrite onChangeCoordinates_run. reflexivity.
Qed.

Lemma onManipulateImage_run (event : Event StencilEvent) (d : Data) :
  let g := getPublicProperties props core refs d in
  let e := normalizeEventAlgorithm core g event in
  let r :=
    manipulateImage core g e (imageRestriction props)
      (settings_resize_stencil core) in
  let d1 := set_coordinates (snd r) (set_visibleArea (fst r) d) in
  onManipulateImage props core refs event d
  = {| outcome := Return tt;
       final := d1;
       emitted :=
         CallNormalizeEvent g event
         :: CallManipulateImage g e (imageRestriction props)
              (settings_resize_stencil core)
         :: notifications props core refs true d1 |}.
Proof.
  intros g e r d1. unfold onManipulateImage, normalizeEvent.
  rewrite bind_get, bind_assoc, bind_get, bind_assoc, bind_tell, bind_ret,
    bind_tell, bind_modify.
  fold g. fold e. fold r.
  rewrite onChangeCoordinates_run. reflexivity.
Qed.

(** X5.  With a truthy [debounce] prop a gesture never emits [change] at once:
    [onMove], [onResize] and [onManipulateImage] schedule one debounced
    update when somebody listens and none otherwise. *)
Theorem gestures_are_debounced (event : Event StencilEvent) (d : Data) :
  debounce props = true ->
  let scheduled := if listens_change props then 1%nat else O in
  changes (emitted (onMove props core refs event d)) = []
  /\ debounces (emitted (onMove props core refs event d)) = scheduled
  /\ changes (emitted (onResize props core refs event d)) = []
  /\ debounces (emitted (onResize props core refs event d)) = scheduled
  /\ changes (emitted (onManipulateImage props core refs event d)) = []
  /\ debounces (emitted (onManipulateImage props core refs event d))
     = scheduled.
Proof.
  intros D scheduled. subst scheduled.
  rewrite onMove_run, onManipulateImage_run.
  destruct (onResize_run event d) as (p & e & R). cbv zeta in R. rewrite R.
  cbn [emitted changes debounces].
  repeat match goal with
         | |- context [notifications props core refs true ?x] =>
             let C := fresh "C" in
             let N := fresh "N" in
             destruct (notifications_changes true x) as (C & N);
             rewrite ?C, ?N; clear C N
         end.
  rewrite D. destruct (listens_change props); repeat split.
Qed.

(** X6.  [applyTransform] returns the coordinates it stores and tells the
    host at once, never through the debounce: with a listener there is
    exactly one [change] event, whose payload is the result in the final
    state. *)
Theorem applyTransform_tells_at_once
  (t : Transforms) (zoomed limited : bool) (d : Data) :
  let r := applyTransform props core refs t zoomed limited d in
  outcome r = Return (coordinates (final r))
  /\ debounces (emitted r) = O
  /\ changes (emitted r)
     = if listens_change props
       then [resultOf props core refs (final r)] else [].
Proof.
  intros r. subst r. rewrite applyTransform_general.
  cbn [outcome final emitted changes debounces].
  rewrite changes_app, debounces_app.
  match goal with
  | |- context [notifications props core refs false ?x] =>
      destruct (notifications_changes false x) as (C & N)
  end.
  rewrite C, N. cbn [andb negb].
  rewrite andb_true_r, andb_false_r.
  destruct zoomed; repeat split.
Qed.

(** X7.  With auto-zoom, [applyTransform] calls the transform algorithm, then
    [autoZoom] with the properties of the state before the call and the
    new coordinates in place of the old, and the visible area that comes
    back is stored before the host is told; without it the visible area
    stays as it is. *)
Theorem applyTransform_zooms_before_telling
  (t : Transforms) (zoomed limited : bool) (d : Data) :
  let p := transformParams props core refs d t limited in
  let c := applyTransformAlgorithm core p in
  let q := with_coordinates (getPublicProperties props core refs d) c in
  let r := applyTransform props core refs t zoomed limited d in
  coordinates (final r) = c
  /\ visibleArea (final r)
     = (if zoomed then autoZoomAlgorithm core q else visibleArea d)
  /\ exists told,
       emitted r
       = CallApplyTransform p
         :: (if zoomed then [CallAutoZoom q] else []) ++ told
       /\ forallb is_notification told = true
       /\ changes told
          = if listens_change props
            then [resultOf props core refs (final r)] else [].
Proof.
  intros p c q r. subst r. rewrite applyTransform_general.
  cbn [final emitted]. fold p. fold c. fold q.
  split; [ reflexivity | ].
  split; [ destruct zoomed; reflexivity | ].
  eexists. split; [ reflexivity | ]. split.
  - apply notifications_only.
  - match goal with
    | |- context [notifications props core refs false ?x] =>
        destruct (notifications_changes false x) as (C & _)
    end.
    rewrite C. cbn [andb negb]. rewrite andb_true_r. reflexivity.
Qed.

(** X8.  A gesture touches nothing but the rectangles: [onMove] and [onResize]
    change the coordinates only, [onManipulateImage] the visible area and
    the coordinates; none of them throws. *)
Theorem gestures_touch_rectangles_only (event : Event StencilEvent) (d : Data) :
  (exists c,
     onMove props core refs event d
     = {| outcome := Return tt; final := set_coordinates c d;
          emitted := emitted (onMove props core refs event d) |})
  /\ (exists c,
        onResize props core refs event d
        = {| outcome := Return tt; final := set_coordinates c d;
             emitted := emitted (onResize props core refs event d) |})
  /\ (exists v c,
        onManipulateImage props core refs event d
        = {| outcome := Return tt;
             final := set_coordinates c (set_visibleArea v d);
             emitted :=
               emitted (onManipulateImage props core refs event d) |}).
Proof.
  split; [ | split ].
  - rewrite onMove_run. eexists. reflexivity.
  - destruct (onResize_run event d) as (p & e & R). cbv zeta in R.
    rewrite R. eexists. reflexivity.
  - rewrite onManipulateImage_run. do 2 eexists. reflexivity.
Qed.

(** *** Pending transforms *)

(** X9.  Before the image is loaded [setCoordinates] only keeps its transforms
    for later: no algorithm is called, nothing is emitted, the rectangles
    stay as they are, and a second call replaces what the first one left
    rather than adding to it. *)
Theorem setCoordinates_before_load
  (t t' : Transforms) (zoomed zoomed' : option bool) (d : Data) :
  imageLoaded d = false ->
  setCoordinates props core refs t zoomed d
  = {| outcome := Return tt;
       final := set_delayedTransforms (Val t) d;
       emitted := [] |}
  /\ final (setCoordinates props core refs t' zoomed'
              (final (setCoordinates props core refs t zoomed d)))
     = set_delayedTransforms (Val t') d.
Proof.
  intros L.
  assert (E : forall (u : Transforms) (z : option bool) (x : Data),
             imageLoaded x = false ->
             setCoordinates props core refs u z x
             = {| outcome := Return tt;
                  final := set_delayedTransforms (Val u) x;
                  emitted := [] |}).
  { intros u z x Lx. unfold setCoordinates. rewrite bind_get, Lx.
    reflexivity. }
  split; [ apply E, L | ].
  rewrite (E t zoomed d L). cbn [final].
  rewrite (E t' zoomed' (set_delayedTransforms (Val t) d) L). reflexivity.
Qed.

(** X10.  On a loaded image [setCoordinates] applies its transforms at once,
    under the size restrictions as computed (not limited to the visible
    area), with auto-zoom unless [autoZoom] is [false]; it keeps nothing
    pending. *)
Theorem setCoordinates_after_load
  (t : Transforms) (zoomed : option bool) (d : Data) :
  imageLoaded d = true ->
  let z := match zoomed with Some b => b | None => true end in
  let r := setCoordinates props core refs t zoomed d in
  outcome r = Return tt
  /\ final r = final (applyTransform props core refs t z false d)
  /\ emitted r = emitted (applyTransform props core refs t z false d)
  /\ delayedTransforms (final r) = delayedTransforms d
  /\ (exists rest,
        emitted r
        = CallApplyTransform (transformParams props core refs d t false)
          :: rest)
  /\ atp_sizeRestrictions (transformParams props core refs d t false)
     = value (sizeRestrictions props core d).
Proof.
  intros L z r. subst r. unfold setCoordinates.
  rewrite bind_get, L. cbn [negb]. fold z.
  rewrite (bind_run _ _ _ _ (applyTransform_general t z false d)).
  rewrite applyTransform_general.
  cbn [outcome final emitted ret]. rewrite app_nil_r.
  repeat split.
  - destruct z; reflexivity.
  - eexists. reflexivity.
  - unfold transformParams. cbn [atp_sizeRestrictions].
    destruct (visibleArea d); reflexivity.
Qed.

(** X11.  Transforms left pending are applied exactly once: the next reset of
    the coordinates hands them to [applyTransform] after the default size
    and the default position, in the order given, and forgets them; the
    reset after that applies the two defaults alone. *)
Theorem pending_transforms_applied_once
  (t : Transforms) (zoomed : option bool) (d : Data) :
  is_set (ref_image refs) = true ->
  imageLoaded d = false ->
  let d1 := final (setCoordinates props core refs t zoomed d) in
  let r1 := resetCoordinates props core refs NODE_ENV d1 in
  let r2 := resetCoordinates props core refs NODE_ENV (final r1) in
  applied_transforms (emitted r1)
  = [Array (TObject (chosenDefaultSize props core refs d1)
            :: positionTransform props d1 :: as_list t)]
  /\ delayedTransforms (final r1) = Null
  /\ applied_transforms (emitted r2)
     = [Array [TObject (chosenDefaultSize props core refs (final r1));
               positionTransform props (final r1)]].
Proof.
  intros M L d1 r1 r2.
  assert (D1 : d1 = set_delayedTransforms (Val t) d).
  { subst d1. unfold setCoordinates. rewrite bind_get, L. reflexivity. }
  assert (F1 : delayedTransforms (final r1) = Null).
  { subst r1. rewrite (resetCoordinates_run _ _ _ _ _ _ NODE_ENV d1 M).
    reflexivity. }
  split; [ | split; [ exact F1 | ] ].
  - subst r1.
    destruct (resetCoordinates_transforms _ _ _ props core refs NODE_ENV d1 M)
      as (A & _).
    rewrite A. unfold resetTransforms, pendingTransforms.
    rewrite D1. cbn [delayedTransforms set_delayedTransforms].
    destruct t; reflexivity.
  - subst r2.
    destruct (resetCoordinates_transforms _ _ _ props core refs NODE_ENV
                (final r1) M) as (A & _).
    rewrite A. unfold resetTransforms, pendingTransforms. rewrite F1.
    reflexivity.
Qed.

(** *** Resetting and refreshing *)

(** X12.  After a reset or a refresh that found no room the cropper is back to
    an uninitialized state that keeps the zero-size boundaries: the visible
    area is [null], coordinates and image size are untouched, the size
    restrictions collapse to zero without any algorithm call, and
    [getResult] reports [DEFAULT_COORDINATES] with a [null] visible
    area. *)
Theorem no_room_leaves_cropper_uninitialized (d : Data) :
  let b := computedBoundaries props core refs d in
  to_boolean (s_width b) && to_boolean (s_height b) = false ->
  let d' := final (reset props core refs NODE_ENV d) in
  final (updateVisibleArea props core refs d) = d'
  /\ boundaries d' = b
  /\ visibleArea d' = Null
  /\ coordinates d' = coordinates d
  /\ imageSize d' = imageSize d
  /\ initialized d' = false
  /\ sizeRestrictions props core d' = (all_zero, [])
  /\ exists r,
       outcome (getResult props core refs d') = Return r
       /\ res_coordinates r = DEFAULT_COORDINATES core
       /\ res_visibleArea r = Null.
Proof.
  intros b F d'. subst d'. unfold reset.
  rewrite (resetVisibleArea_failed _ _ _ props core refs NODE_ENV d F).
  rewrite (updateVisibleArea_failed _ _ _ props core refs d F).
  cbn [final]. fold b.
  repeat split.
  - apply sizeRestrictions_falsy. exact F.
  - rewrite getResult_run. eexists. repeat split.
Qed.

(** X13.  Under the default priority the default coordinates are clamped
    against no position restriction at all: the reset has cleared the
    visible area, so [applyTransform] receives [{}] as position
    restrictions and the size restrictions as computed, not limited to a
    visible area. *)
Theorem default_reset_has_no_position_restrictions (d : Data) :
  let b := computedBoundaries props core refs d in
  is_set (ref_image refs) = true ->
  to_boolean (s_width b) && to_boolean (s_height b) = true ->
  (priority props =? "visibleArea")%string = false ->
  exists (at_reset : Data) (p : ApplyTransformParams),
    at_reset = set_visibleArea Undefined (set_boundaries b d)
    /\ In (CallApplyTransform p) (emitted (reset props core refs NODE_ENV d))
    /\ atp_transform p = resetTransforms props core refs at_reset
    /\ atp_positionRestrictions p = no_limits
    /\ atp_sizeRestrictions p = value (sizeRestrictions props core at_reset)
    /\ calls (positionRestrictions props at_reset) = [].
Proof.
  intros b M T P. unfold reset.
  rewrite (resetVisibleArea_coordinates_first _ _ _ props core refs NODE_ENV
             d T P).
  cbn [emitted]. fold b.
  set (d2 := set_visibleArea Undefined (set_boundaries b d)).
  exists d2, (transformParams props core refs d2
                (resetTransforms props core refs d2) true).
  split; [ reflexivity | ]. split.
  - apply in_or_app. right. apply in_or_app. left.
    apply resetCoordinates_applies. exact M.
  - repeat split.
Qed.

(** X14.  Refreshing an initialized cropper changes the coordinates without
    telling the host: whether or not there is room, no [change] event is
    emitted and no debounced update is scheduled, and the pending
    transforms, the image size and the loaded flag stay as they are. *)
Theorem refresh_is_silent (d : Data) :
  truthy_string (src props) && is_set (ref_image refs) = true ->
  initialized d = true ->
  let r := refresh props core refs NODE_ENV d in
  changes (emitted r) = []
  /\ debounces (emitted r) = O
  /\ delayedTransforms (final r) = delayedTransforms d
  /\ imageSize (final r) = imageSize d
  /\ imageLoaded (final r) = imageLoaded d.
Proof.
  intros M I r. subst r. rewrite refresh_run, M, I.
  destruct (to_boolean (s_width (computedBoundaries props core refs d))
            && to_boolean (s_height (computedBoundaries props core refs d)))
    eqn:T.
  - rewrite (updateVisibleArea_run _ _ _ props core refs d T).
    repeat split.
  - rewrite (updateVisibleArea_failed _ _ _ props core refs d T).
    repeat split.
Qed.

(** X15.  A reset starts from scratch: it does not depend on the visible area
    nor on the boundaries the cropper had before. *)
Theorem reset_forgets_area_and_boundaries
  (v : nullable Rect) (b : Size) (d : Data) :
  reset props core refs NODE_ENV (set_visibleArea v (set_boundaries b d))
  = reset props core refs NODE_ENV d.
Proof.
  unfold reset.
  set (d0 := set_visibleArea v (set_boundaries b d)).
  assert (B : computedBoundaries props core refs d0
              = computedBoundaries props core refs d) by reflexivity.
  destruct (to_boolean (s_width (computedBoundaries props core refs d))
            && to_boolean (s_height (computedBoundaries props core refs d)))
    eqn:T.
  - assert (T0 := T). rewrite <- B in T0.
    destruct (priority props =? "visibleArea")%string eqn:P.
    + rewrite (resetVisibleArea_area_first _ _ _ props core refs NODE_ENV
                 d0 T0 P).
      rewrite (resetVisibleArea_area_first _ _ _ props core refs NODE_ENV
                 d T P).
      reflexivity.
    + rewrite (resetVisibleArea_coordinates_first _ _ _ props core refs
                 NODE_ENV d0 T0 P).
      rewrite (resetVisibleArea_coordinates_first _ _ _ props core refs
                 NODE_ENV d T P).
      reflexivity.
  - assert (T0 := T). rewrite <- B in T0.
    rewrite (resetVisibleArea_failed _ _ _ props core refs NODE_ENV d0 T0).
    rewrite (resetVisibleArea_failed _ _ _ props core refs NODE_ENV d T).
    reflexivity.
Qed.

(** X16.  Under the default priority the [change] event of a reset comes too
    early to show its outcome: it is emitted while the visible area is
    cleared, so its payload carries [DEFAULT_COORDINATES] and a [null]
    visible area instead of the coordinates just computed. *)
Theorem default_reset_reports_default_coordinates (d : Data) :
  let b := computedBoundaries props core refs d in
  is_set (ref_image refs) = true ->
  to_boolean (s_width b) && to_boolean (s_height b) = true ->
  (priority props =? "visibleArea")%string = false ->
  listens_change props = true ->
  exists r,
    changes (emitted (reset props core refs NODE_ENV d)) = [r]
    /\ res_coordinates r = DEFAULT_COORDINATES core
    /\ res_visibleArea r = Null
    /\ is_set (visibleArea (final (reset props core refs NODE_ENV d))) = true.
Proof.
  intros b M T P L. unfold reset.
  rewrite (resetVisibleArea_coordinates_first _ _ _ props core refs NODE_ENV
             d T P).
  cbn [emitted final]. fold b.
  set (d2 := set_visibleArea Undefined (set_boundaries b d)).
  rewrite (resetCoordinates_run _ _ _ props core refs NODE_ENV d2 M).
  cbn [emitted final].
  set (c := applyTransformAlgorithm core _).
  rewrite onChangeCoordinates_run. cbn [emitted].
  rewrite !changes_app. cbn [changes].
  destruct (notifications_changes false (set_coordinates c d2)) as (C & _).
  rewrite C, L. cbn [andb negb].
  assert (Q : changes (sizeQuery props core refs d2) = [])
    by (unfold sizeQuery; destruct (defaultSize props); reflexivity).
  assert (W : changes (sizeWarning props core refs NODE_ENV d2) = [])
    by (unfold sizeWarning; split_more).
  assert (A : forall x, changes (areaQuery StencilEvent props x) = [])
    by (intros x; unfold areaQuery; destruct (defaultVisibleArea props);
        reflexivity).
  rewrite Q, W, A. cbn [app].
  eexists. split; [ reflexivity | ]. repeat split.
Qed.

(** *** Screen pixels and image pixels *)

Lemma or_zero_not_nan (x : number) : is_nan (or_zero x) = false.
Proof.
  unfold or_zero. destruct x as [q | | | ]; cbn; try reflexivity.
  destruct (negb (Qeq_bool q 0)); reflexivity.
Qed.

Lemma or_zero_of_nothing (x : number) : or_zero (mul x (Num 0)) = Num 0.
Proof.
  unfold or_zero. destruct x as [q | | | ]; try reflexivity.
  cbn [mul truthy].
  assert (E : Qeq_bool (q * 0) 0 = true) by (apply Qeq_eq_bool; ring).
  rewrite E. reflexivity.
Qed.

Lemma move_run (l t : number) (d : Data) :
  move props core refs l t d
  = onManipulateImage props core refs
      (ManipulateImageEvent
         {| mv_left := Val (or_zero (mul l (coefficient d)));
            mv_top := Val (or_zero (mul t (coefficient d))) |}
         Undefined) d.
Proof. unfold move. rewrite bind_get. reflexivity. Qed.

(** X17.  The public [move(left, top)] always dispatches a clean displacement:
    a [ManipulateImageEvent] without scale whose [left] and [top] are the
    arguments times the coefficient, with [0] in place of a product that
    is zero or [NaN].  In particular nothing moves while no visible area
    is set, whatever the arguments. *)
Theorem move_dispatches_clean_displacement (l t : number) (d : Data) :
  exists ml mt,
    move props core refs l t d
    = onManipulateImage props core refs
        (ManipulateImageEvent {| mv_left := Val ml; mv_top := Val mt |}
           Undefined) d
    /\ is_nan ml = false /\ is_nan mt = false
    /\ (truthy (mul l (coefficient d)) = true -> ml = mul l (coefficient d))
    /\ (truthy (mul t (coefficient d)) = true -> mt = mul t (coefficient d))
    /\ (is_set (visibleArea d) = false -> ml = Num 0 /\ mt = Num 0).
Proof.
  exists (or_zero (mul l (coefficient d))), (or_zero (mul t (coefficient d))).
  split; [ apply move_run | ].
  split; [ apply or_zero_not_nan | ].
  split; [ apply or_zero_not_nan | ].
  split; [ intros H; unfold or_zero; rewrite H; reflexivity | ].
  split; [ intros H; unfold or_zero; rewrite H; reflexivity | ].
  intros V. unfold coefficient.
  destruct (visibleArea d); try discriminate V;
    split; apply or_zero_of_nothing.
Qed.

(** *** The aspect ratio *)

(** X19.  The stencil's own [aspectRatios] method has the last word.  Without
    it, a truthy [aspectRatio] prop locks the ratio (it is both the
    minimum and the maximum, whatever the other two props say), and a
    missing or zero one leaves [minAspectRatio] and [maxAspectRatio] in
    charge. *)
Theorem aspectRatio_prop_locks :
  (forall r, stencil_aspectRatios refs = Some r ->
             getAspectRatio props refs = r)
  /\ (stencil_aspectRatios refs = None ->
      to_boolean (stencil_aspectRatio props) = true ->
      minimum (getAspectRatio props refs) = stencil_aspectRatio props
      /\ maximum (getAspectRatio props refs) = stencil_aspectRatio props)
  /\ (stencil_aspectRatios refs = None ->
      to_boolean (stencil_aspectRatio props) = false ->
      minimum (getAspectRatio props refs) = stencil_minAspectRatio props
      /\ maximum (getAspectRatio props refs) = stencil_maxAspectRatio props).
Proof.
  unfold getAspectRatio, or_else. split; [ | split ].
  - intros r S. rewrite S. reflexivity.
  - intros S T. rewrite S, T. split; reflexivity.
  - intros S T. rewrite S, T. split; reflexivity.
Qed.

(** *** Validating [defaultBoundaries] *)

(** X20.  The validator accepts every function and, of the strings, exactly
    ['fill'] and ['fit']; it warns exactly when it rejects and the build
    is not a production one.  A rejected name does not stop the
    component: boundaries are then computed as for ['fit']. *)
Theorem defaultBoundaries_validation
  (v : BoundariesProp Element) (d : Data) :
  let verdict := defaultBoundariesValidator NODE_ENV v in
  (fst verdict = true
   <-> match v with
       | BoundariesFn _ => True
       | BoundariesName s => s = "fill" \/ s = "fit"
       end)
  /\ (snd verdict <> []
      <-> fst verdict = false /\ NODE_ENV <> "production")
  /\ (forall s, v = BoundariesName s -> snd verdict <> [] ->
                snd verdict = [boundaries_warning s])
  /\ (defaultBoundaries props = v -> fst verdict = false ->
      computedBoundaries props core refs d
      = fitBoundaries core (ref_cropper refs) (imageSize d)).
Proof.
  intros verdict. subst verdict.
  assert (Fit : forall s, defaultBoundaries props = BoundariesName s ->
                s <> "fill" ->
                computedBoundaries props core refs d
                = fitBoundaries core (ref_cropper refs) (imageSize d)).
  { intros s P E. unfold computedBoundaries. rewrite P.
    apply String.eqb_neq in E. rewrite E. reflexivity. }
  unfold defaultBoundariesValidator.
  destruct v as [f | s]; cbn [fst snd negb].
  - split; [ tauto | ].
    split; [ split; [ intros N; contradiction N; reflexivity
                    | intros (F & _); discriminate F ] | ].
    split; [ intros s E; discriminate E | ].
    intros _ F. discriminate F.
  - destruct (String.eqb_spec s "fill") as [Efill | Efill];
      destruct (String.eqb_spec s "fit") as [Efit | Efit];
      cbn [negb andb fst snd].
    1-3: split; [ tauto | ];
         (split; [ split; [ intros N; contradiction N; reflexivity
                          | intros (F & _); discriminate F ] | ]);
         (split; [ intros s' _ N; contradiction N; reflexivity | ]);
         intros _ F; discriminate F.
    split; [ split; [ intros F; discriminate F | tauto ] | ].
    destruct (String.eqb_spec NODE_ENV "production") as [Eprod | Eprod];
      cbn [negb].
    + split; [ split; [ intros N; contradiction N; reflexivity
                      | intros (_ & N); contradiction ] | ].
      split; [ intros s' _ N; contradiction N; reflexivity | ].
      intros P _. apply (Fit s P Efill).
    + split; [ split; [ intros _; split; [ reflexivity | exact Eprod ]
                      | intros _; discriminate ] | ].
      split; [ intros s' E _; injection E as <-; reflexivity | ].
      intros P _. apply (Fit s P Efill).
Qed.

(** *** Clearing the image *)


End Further.

(** *** The events example page *)

Module EventsExampleFacts.

Import EventsExample.

Lemma run_app (img : Img) (hs hs' : list Happening) :
  run img (hs ++ hs') = run (run img hs) hs'.
Proof.
  revert img. induction hs as [ | h hs IH]; intros img; [ reflexivity | ].
  cbn [app run]. apply IH.
Qed.

Lemma stays_loading (img : Img) (hs : list Happening) :
  loading img = true -> existsb settles hs = false ->
  loading (run img hs) = true.
Proof.
  revert img. induction hs as [ | h hs IH]; intros img L S; [ exact L | ].
  cbn [existsb] in S. apply orb_false_iff in S. destruct S as [Sh Ss].
  cbn [run]. apply IH; [ | exact Ss ].
  destruct h as [value | | | ]; try discriminate Sh; cbn.
  - destruct (value =? src img)%string; [ exact L | ]. cbn.
    destruct (negb (value =? "")%string); [ reflexivity | exact L ].
  - exact L.
Qed.

Lemma stays_idle (img : Img) (hs : list Happening) :
  loading img = false -> existsb starts hs = false ->
  loading (run img hs) = false.
Proof.
  revert img. induction hs as [ | h hs IH]; intros img L S; [ exact L | ].
  cbn [existsb] in S. apply orb_false_iff in S. destruct S as [Sh Ss].
  cbn [run]. apply IH; [ | exact Ss ].
  destruct h as [value | | | ]; cbn; try reflexivity; try exact L.
  destruct (value =? src img)%string; [ exact L | ].
  cbn in *. rewrite Sh. exact L.
Qed.

Lemma keeps_source (img : Img) (hs : list Happening) :
  existsb enters hs = false -> src (run img hs) = src img.
Proof.
  revert img. induction hs as [ | h hs IH]; intros img S; [ reflexivity | ].
  cbn [existsb] in S. apply orb_false_iff in S. destruct S as [Sh Ss].
  cbn [run]. rewrite (IH _ Ss).
  destruct h; try discriminate Sh; reflexivity.
Qed.

(** X22.  The loading indicator follows the last word: whatever happened
    before, it is shown if a non-empty source other than the current one
    was entered and the cropper has not answered since, and hidden if the
    cropper answered ([ready] or [error]) and no non-empty source was
    entered since; entering the source that is already there changes
    nothing, so it does not bring the indicator back; and the source shown
    is the one entered last. *)
Theorem indicator_follows_the_last_word
  (img : Img) (before after : list Happening) (h : Happening) :
  (forall value,
     h = SrcChanged value -> value <> "" -> value <> src (run img before) ->
     existsb settles after = false ->
     loading (run img (before ++ h :: after)) = true)
  /\ (settles h = true -> existsb starts after = false ->
      loading (run img (before ++ h :: after)) = false)
  /\ (h = SrcChanged (src (run img before)) ->
      run img (before ++ [h]) = run img before)
  /\ (forall value, h = SrcChanged value -> existsb enters after = false ->
      src (run img (before ++ h :: after)) = value).
Proof.
  rewrite !run_app. cbn [run]. repeat split.
  - intros value E N D S. subst h. apply stays_loading; [ | exact S ].
    cbn. apply String.eqb_neq in N, D. rewrite D. cbn. rewrite N. reflexivity.
  - intros S N. apply stays_idle; [ | exact N ].
    destruct h; try discriminate S; reflexivity.
  - intros E. subst h. cbn. rewrite String.eqb_refl. reflexivity.
  - intros value E N. rewrite (keeps_source _ _ N). subst h. cbn.
    destruct (String.eqb_spec value (src (run img before))) as [Q | Q].
    + symmetry. exact Q.
    + reflexivity.
Qed.

End EventsExampleFacts.

(** *** The further properties on the concrete configuration *)

Local Open Scope string_scope.

Lemma getResult_only_reads_witness :
  initialized Demo.loaded && roundResult Demo.standard = false
  /\ exists r,
       outcome (getResult Demo.standard Demo.specified Demo.roomy Demo.loaded)
       = Return r
       /\ res_visibleArea r = Null.
Proof.
  split; [ reflexivity | ].
  destruct (getResult_only_reads _ _ _
              Demo.standard Demo.specified Demo.roomy Demo.loaded)
    as (_ & _ & _ & V & R).
  destruct (R eq_refl) as (_ & r & O).
  exists r. split; [ exact O | ].
  destruct (V r O) as (_ & _ & N). apply N. reflexivity.
Defined.

Lemma getResult_before_initialization_witness :
  initialized Demo.loaded = false
  /\ exists r,
       outcome (getResult Demo.standard Demo.specified Demo.roomy Demo.loaded)
       = Return r
       /\ res_coordinates r = Demo.rect 0 0 0 0.
Proof.
  split; [ reflexivity | ].
  destruct (getResult_before_initialization _ _ _
              Demo.standard Demo.specified Demo.roomy Demo.loaded eq_refl)
    as (r & O & C & _).
  exists r. split; assumption.
Defined.

Lemma gestures_are_debounced_witness :
  debounce Demo.standard = true
  /\ changes (emitted (onMove Demo.standard Demo.specified Demo.roomy
                         Demo.drag Demo.ready)) = []
  /\ debounces (emitted (onMove Demo.standard Demo.specified Demo.roomy
                           Demo.drag Demo.ready)) = 1%nat.
Proof.
  split; [ reflexivity | ].
  destruct (gestures_are_debounced _ _ _
              Demo.standard Demo.specified Demo.roomy Demo.drag Demo.ready
              eq_refl) as (C & D & _).
  split; assumption.
Defined.

Lemma setCoordinates_before_load_witness :
  imageLoaded Demo.initial = false
  /\ final (setCoordinates Demo.standard Demo.specified Demo.roomy
              Demo.nudge None Demo.initial)
     = set_delayedTransforms (Val Demo.nudge) Demo.initial.
Proof.
  split; [ reflexivity | ].
  destruct (setCoordinates_before_load _ _ _
              Demo.standard Demo.specified Demo.roomy
              Demo.nudge Demo.nudge None None Demo.initial eq_refl)
    as (E & _).
  rewrite E. reflexivity.
Defined.

Lemma setCoordinates_after_load_witness :
  imageLoaded Demo.ready = true
  /\ coordinates (final (setCoordinates Demo.standard Demo.specified
                           Demo.roomy Demo.nudge None Demo.ready))
     = Demo.rect 10 0 1000 800
  /\ delayedTransforms (final (setCoordinates Demo.standard Demo.specified
                                 Demo.roomy Demo.nudge None Demo.ready))
     = Null.
Proof.
  split; [ reflexivity | ].
  destruct (setCoordinates_after_load _ _ _
              Demo.standard Demo.specified Demo.roomy
              Demo.nudge None Demo.ready eq_refl) as (_ & F & _ & D & _).
  split; [ rewrite F; reflexivity | exact D ].
Defined.

Lemma pending_transforms_applied_once_witness :
  is_set (ref_image Demo.roomy) = true
  /\ imageLoaded Demo.initial = false
  /\ delayedTransforms
       (final (resetCoordinates Demo.standard Demo.specified Demo.roomy
                 "production"
                 (final (setCoordinates Demo.standard Demo.specified
                           Demo.roomy Demo.nudge None Demo.initial))))
     = Null.
Proof.
  split; [ reflexivity | ]. split; [ reflexivity | ].
  destruct (pending_transforms_applied_once _ _ _
              Demo.standard Demo.specified Demo.roomy "production"
              Demo.nudge None Demo.initial eq_refl eq_refl) as (_ & N & _).
  exact N.
Defined.

Lemma no_room_leaves_cropper_uninitialized_witness :
  to_boolean
    (s_width (computedBoundaries Demo.standard Demo.specified Demo.flat
                Demo.ready)) = false
  /\ initialized (final (reset Demo.standard Demo.specified Demo.flat
                           "production" Demo.ready)) = false
  /\ coordinates (final (reset Demo.standard Demo.specified Demo.flat
                           "production" Demo.ready))
     = coordinates Demo.ready.
Proof.
  split; [ reflexivity | ].
  destruct (no_room_leaves_cropper_uninitialized _ _ _
              Demo.standard Demo.specified Demo.flat "production"
              Demo.ready eq_refl) as (_ & _ & _ & C & _ & I & _).
  split; assumption.
Defined.

Lemma default_reset_has_no_position_restrictions_witness :
  is_set (ref_image Demo.roomy) = true
  /\ priority Demo.standard = "coordinates"
  /\ exists p,
       In (CallApplyTransform p)
          (emitted (reset Demo.standard Demo.specified Demo.roomy
                      "production" Demo.loaded))
       /\ atp_positionRestrictions p = no_limits.
Proof.
  split; [ reflexivity | ]. split; [ reflexivity | ].
  destruct (default_reset_has_no_position_restrictions _ _ _
              Demo.standard Demo.specified Demo.roomy "production"
              Demo.loaded eq_refl eq_refl eq_refl)
    as (at_reset & p & _ & I & _ & N & _).
  exists p. split; assumption.
Defined.

Lemma refresh_is_silent_witness :
  initialized Demo.ready = true
  /\ changes (emitted (refresh Demo.standard Demo.specified Demo.roomy
                         "production" Demo.ready)) = []
  /\ changes (emitted (refresh Demo.standard Demo.specified Demo.flat
                         "production" Demo.ready)) = [].
Proof.
  split; [ reflexivity | ].
  destruct (refresh_is_silent _ _ _
              Demo.standard Demo.specified Demo.roomy "production"
              Demo.ready eq_refl eq_refl) as (A & _).
  destruct (refresh_is_silent _ _ _
              Demo.standard Demo.specified Demo.flat "production"
              Demo.ready eq_refl eq_refl) as (B & _).
  split; assumption.
Defined.

Lemma default_reset_reports_default_coordinates_witness :
  listens_change Demo.standard = true
  /\ exists r,
       changes (emitted (reset Demo.standard Demo.specified Demo.roomy
                           "production" Demo.loaded)) = [r]
       /\ res_coordinates r = Demo.rect 0 0 0 0
       /\ coordinates (final (reset Demo.standard Demo.specified Demo.roomy
                                "production" Demo.loaded))
          = Demo.rect 0 0 1000 800.
Proof.
  split; [ reflexivity | ].
  destruct (default_reset_reports_default_coordinates _ _ _
              Demo.standard Demo.specified Demo.roomy "production"
              Demo.loaded eq_refl eq_refl eq_refl eq_refl)
    as (r & C & D & _).
  exists r. split; [ exact C | ]. split; [ exact D | reflexivity ].
Defined.

Lemma move_dispatches_clean_displacement_witness :
  is_set (visibleArea Demo.loaded) = false
  /\ exists ml mt,
       move Demo.standard Demo.specified Demo.roomy (Num 5) Infinity
         Demo.loaded
       = onManipulateImage Demo.standard Demo.specified Demo.roomy
           (ManipulateImageEvent {| mv_left := Val ml; mv_top := Val mt |}
              Undefined) Demo.loaded
       /\ ml = Num 0 /\ mt = Num 0.
Proof.
  split; [ reflexivity | ].
  destruct (move_dispatches_clean_displacement _ _ _
              Demo.standard Demo.specified Demo.roomy (Num 5) Infinity
              Demo.loaded) as (ml & mt & E & _ & _ & _ & _ & Z).
  exists ml, mt. split; [ exact E | ]. apply Z. reflexivity.
Defined.

Lemma aspectRatio_prop_locks_witness :
  to_boolean (stencil_aspectRatio (Demo.with_ratio (Val (Num 1)))) = true
  /\ minimum (getAspectRatio (Demo.with_ratio (Val (Num 1))) Demo.roomy)
     = Val (Num 1)
  /\ maximum (getAspectRatio (Demo.with_ratio (Val (Num 1))) Demo.roomy)
     = Val (Num 1)
  /\ to_boolean (stencil_aspectRatio (Demo.with_ratio (Val (Num 0)))) = false
  /\ minimum (getAspectRatio (Demo.with_ratio (Val (Num 0))) Demo.roomy)
     = Val (Num (1 # 2)).
Proof.
  split; [ reflexivity | ].
  destruct (aspectRatio_prop_locks _ _
              (Demo.with_ratio (Val (Num 1))) Demo.roomy) as (_ & L & _).
  destruct (L eq_refl eq_refl) as (Lmin & Lmax).
  destruct (aspectRatio_prop_locks _ _
              (Demo.with_ratio (Val (Num 0))) Demo.roomy) as (_ & _ & U).
  destruct (U eq_refl eq_refl) as (Umin & _).
  split; [ exact Lmin | ]. split; [ exact Lmax | ].
  split; [ reflexivity | exact Umin ].
Defined.

Lemma defaultBoundaries_validation_witness :
  fst (defaultBoundariesValidator (Element := Demo.Node) "development"
         (BoundariesName "fit")) = true
  /\ snd (defaultBoundariesValidator (Element := Demo.Node) "development"
            (BoundariesName "cover"))
     = [boundaries_warning "cover"]
  /\ snd (defaultBoundariesValidator (Element := Demo.Node) "production"
            (BoundariesName "cover")) = [].
Proof.
  destruct (defaultBoundaries_validation _ _ _
              Demo.standard Demo.specified Demo.roomy "development"
              (BoundariesName "fit") Demo.ready) as (A & _).
  destruct (defaultBoundaries_validation _ _ _
              Demo.standard Demo.specified Demo.roomy "development"
              (BoundariesName "cover") Demo.ready) as (_ & _ & B & _).
  split; [ apply A; right; reflexivity | ].
  split; [ apply (B "cover" eq_refl); discriminate | reflexivity ].
Defined.

Lemma indicator_follows_the_last_word_witness :
  EventsExample.loading
    (EventsExample.run EventsExample.initial
       ([EventsExample.Ready]
        ++ EventsExample.SrcChanged "second.jpg" :: [EventsExample.Change]))
  = true
  /\ EventsExample.loading
       (EventsExample.run EventsExample.initial
          ([EventsExample.SrcChanged "second.jpg"]
           ++ EventsExample.Failed :: [EventsExample.SrcChanged ""]))
     = false
  /\ EventsExample.loading
       (EventsExample.run EventsExample.initial
          ([EventsExample.SrcChanged "second.jpg"; EventsExample.Failed]
           ++ [EventsExample.SrcChanged "second.jpg"]))
     = false.
Proof.
  split; [ | split ].
  - destruct (EventsExampleFacts.indicator_follows_the_last_word
                EventsExample.initial
                [EventsExample.Ready] [EventsExample.Change]
                (EventsExample.SrcChanged "second.jpg"))
      as (Shown & _).
    apply (Shown "second.jpg"); first [ reflexivity | discriminate ].
  - apply (EventsExampleFacts.indicator_follows_the_last_word
             EventsExample.initial
             [EventsExample.SrcChanged "second.jpg"]
             [EventsExample.SrcChanged ""] EventsExample.Failed);
      reflexivity.
  - destruct (EventsExampleFacts.indicator_follows_the_last_word
                EventsExample.initial
                [EventsExample.SrcChanged "second.jpg"; EventsExample.Failed]
                [] (EventsExample.SrcChanged "second.jpg"))
      as (_ & _ & Same & _).
    rewrite (Same eq_refl). reflexivity.
Defined.
